(** * ARCO-ERA5: the calendar-addressed chunk ingestion engine

    A shallow embedding of

    - [src/arco_era5/update_co.py]: the variable catalog [variable_dict],
      [convert_to_date], [copy], [GenerateOffset.apply] and
      [UpdateSlice.apply];
    - [src/single-levels-to-zarr.py]: [make_path];
    - [src/arco_era5/ingest_data_in_zarr.py]: [CO_FILES_MAPPING];
    - [src/raw-to-zarr-to-bq.py]: the data availability loop of [__main__];

    together with the parts of the Python standard library these functions
    call ([str.split], [str.rsplit], [str.replace], [datetime.strptime],
    [date.toordinal], [calendar.monthrange]).

    Python [int] is [Z]; [str] is [string] (restricted to the characters of
    [ascii]); a [dict] with string keys is a [gmap string _]; an exception is
    a value [Raise e] of the error monad [result]. *)

From Stdlib Require Import Ascii String.
From stdpp Require Import base numbers option list strings gmap.

Local Open Scope string_scope.
Local Open Scope list_scope.
Local Open Scope Z_scope.

(** ** Exceptions and the error monad *)

Module Py.

Inductive exn : Type :=
| IndexError
| ValueError (msg : string)
| KeyError (key : string)
| IllegalMonthError (month : Z)
| UnboundLocalError (name : string)
| CalledProcessError (returncode : Z)
| OSError (msg : string).

Inductive result (A : Type) : Type :=
| Ok (a : A)
| Raise (e : exn).
Arguments Ok {A} a.
Arguments Raise {A} e.

#[global] Instance result_ret : MRet result := fun A a => Ok a.
#[global] Instance result_bind : MBind result := fun A B f r =>
  match r with
  | Ok a => f a
  | Raise e => Raise e
  end.

Definition is_Ok {A} (r : result A) : bool :=
  match r with Ok _ => true | Raise _ => false end.

(** ** [str] *)

(** [c in s] for a one-character needle. *)
Fixpoint has_char (c : ascii) (s : string) : bool :=
  match s with
  | EmptyString => false
  | String c' s' => if Ascii.eqb c c' then true else has_char c s'
  end.

(** [sub in s]: [sub] occurs in [s] at some position. *)
Fixpoint str_in (sub s : string) : bool :=
  match s with
  | EmptyString => String.prefix sub EmptyString
  | String _ s' => String.prefix sub s || str_in sub s'
  end.

(** The last occurrence of [sep] in [s]: what is before it and what is
    after it. *)
Fixpoint rpartition (sep : ascii) (s : string) : option (string * string) :=
  match s with
  | EmptyString => None
  | String c s' =>
      match rpartition sep s' with
      | Some (before, after) => Some (String c before, after)
      | None => if Ascii.eqb c sep then Some (EmptyString, s') else None
      end
  end.

(** [s.rsplit(sep, 1)] for a one-character separator: at most one split,
    at the last occurrence. *)
Definition rsplit1 (s : string) (sep : ascii) : list string :=
  match rpartition sep s with
  | Some (before, after) => [before; after]
  | None => [s]
  end.

(** [l[i]] for [i >= 0]. *)
Definition getitem {A} (l : list A) (i : nat) : result A :=
  match l !! i with
  | Some x => Ok x
  | None => Raise IndexError
  end.

(** The scan of [s.split(sep)], left to right. [skip] counts the characters
    of a separator still to be passed over after a match at its first
    character; the first piece of the result is the one being read. *)
Fixpoint split_go (sep : string) (skip : nat) (s : string) : list string :=
  match s with
  | EmptyString => [EmptyString]
  | String c s' =>
      match skip with
      | S k => split_go sep k s'
      | O =>
          if String.prefix sep s
          then EmptyString :: split_go sep (Nat.pred (String.length sep)) s'
          else match split_go sep 0 s' with
               | piece :: pieces => String c piece :: pieces
               | [] => [String c EmptyString]
               end
      end
  end.

(** [s.split(sep)] with an explicit separator. *)
Definition split (s sep : string) : result (list string) :=
  match sep with
  | EmptyString => Raise (ValueError "empty separator")
  | _ => Ok (split_go sep 0 s)
  end.

(** [a, b = l] *)
Definition unpack2 {A} (l : list A) : result (A * A) :=
  match l with
  | [a; b] => Ok (a, b)
  | [] | [_] => Raise (ValueError "not enough values to unpack (expected 2)")
  | _ => Raise (ValueError "too many values to unpack (expected 2)")
  end.

(** [a, b, c = l] *)
Definition unpack3 {A} (l : list A) : result (A * A * A) :=
  match l with
  | [a; b; c] => Ok (a, b, c)
  | [] | [_] | [_; _] =>
      Raise (ValueError "not enough values to unpack (expected 3)")
  | _ => Raise (ValueError "too many values to unpack (expected 3)")
  end.

(** The scan of [s.replace(old, new)] for a non-empty [old]: every
    occurrence, left to right, without overlap. *)
Fixpoint replace_go (old new : string) (skip : nat) (s : string) : string :=
  match s with
  | EmptyString => EmptyString
  | String c s' =>
      match skip with
      | S k => replace_go old new k s'
      | O =>
          if String.prefix old s
          then new +:+ replace_go old new (Nat.pred (String.length old)) s'
          else String c (replace_go old new 0 s')
      end
  end.

(** With an empty [old], Python puts [new] before every character and at
    the end. *)
Fixpoint interleave (new s : string) : string :=
  match s with
  | EmptyString => new
  | String c s' => new +:+ String c (interleave new s')
  end.

Definition replace (s old new : string) : string :=
  match old with
  | EmptyString => interleave new s
  | _ => replace_go old new 0 s
  end.

(** Whitespace of [str.split()] within [ascii]: space, tab, newline,
    vertical tab, form feed, carriage return and the four separators
    0x1c-0x1f. *)
Definition is_space (c : ascii) : bool :=
  let n := nat_of_ascii c in
  ((n =? 32) || ((9 <=? n) && (n <=? 13)) || ((28 <=? n) && (n <=? 31)))%nat.

(** [s.split()]: the maximal runs of characters that are not whitespace.
    When [in_word] holds, the first piece of the result is the rest of the
    word being read. *)
Fixpoint split_ws_go (in_word : bool) (s : string) : list string :=
  match s with
  | EmptyString => if in_word then [EmptyString] else []
  | String c s' =>
      if is_space c
      then (if in_word then EmptyString :: split_ws_go false s'
            else split_ws_go false s')
      else match split_ws_go true s' with
           | w :: ws => String c w :: ws
           | [] => [String c EmptyString]
           end
  end.

Definition split_ws (s : string) : list string := split_ws_go false s.

(** [format(n, "0{width}d")], as in the f-string fields [{n:04d}] and
    [{n:02d}]: decimal digits, padded with zeros on the left up to [width];
    a minus sign counts in the width. *)
Definition digit_char (d : Z) : ascii := ascii_of_nat (48 + Z.to_nat d).

Fixpoint decimal_go (fuel : nat) (n : Z) (acc : string) : string :=
  match fuel with
  | O => acc
  | S fuel' =>
      let acc' := String (digit_char (n mod 10)) acc in
      if n / 10 =? 0 then acc' else decimal_go fuel' (n / 10) acc'
  end.

(** The digits of [n >= 0]; [n] has at most [log2 n + 1] of them. *)
Definition decimal (n : Z) : string :=
  decimal_go (S (Z.to_nat (Z.log2 n))) n EmptyString.

Fixpoint zeros (k : nat) : string :=
  match k with
  | O => EmptyString
  | S k' => String "0" (zeros k')
  end.

Definition zfill (width : nat) (s : string) : string :=
  zeros (width - String.length s) +:+ s.

Definition format_0d (width : nat) (n : Z) : string :=
  if n <? 0 then String "-" (zfill (Nat.pred width) (decimal (- n)))
  else zfill width (decimal n).

(** ** [datetime] and [calendar] *)

(** [calendar.isleap], [datetime._is_leap] *)
Definition isleap (year : Z) : bool :=
  (year mod 4 =? 0) && (negb (year mod 100 =? 0) || (year mod 400 =? 0)).

(** [calendar.mdays], [datetime._DAYS_IN_MONTH]; index 0 is a placeholder. *)
Definition mdays : list Z :=
  [0; 31; 28; 31; 30; 31; 30; 31; 31; 30; 31; 30; 31].

(** [datetime._DAYS_BEFORE_MONTH] *)
Definition DAYS_BEFORE_MONTH : list Z :=
  [-1; 0; 31; 59; 90; 120; 151; 181; 212; 243; 273; 304; 334].

(** [table[i]] for an index known to be in range. *)
Definition table_get (table : list Z) (i : Z) : Z :=
  default 0 (table !! Z.to_nat i).

Definition days_before_year (year : Z) : Z :=
  let y := year - 1 in
  y * 365 + y / 4 - y / 100 + y / 400.

Definition days_in_month (year month : Z) : Z :=
  if (month =? 2) && isleap year then 29 else table_get mdays month.

Definition days_before_month (year month : Z) : Z :=
  table_get DAYS_BEFORE_MONTH month
  + (if (2 <? month) && isleap year then 1 else 0).

Definition ymd2ord (year month day : Z) : Z :=
  days_before_year year + days_before_month year month + day.

(** A [datetime.datetime] at midnight, which is all that [strptime] with a
    format of year, month and day produces. *)
Record datetime : Type := mk_datetime { year : Z; month : Z; day : Z }.

Definition MINYEAR : Z := 1.
Definition MAXYEAR : Z := 9999.

(** The constructor, with the checks of [_check_date_fields]. *)
Definition datetime_new (y m d : Z) : result datetime :=
  if negb ((MINYEAR <=? y) && (y <=? MAXYEAR))
  then Raise (ValueError "year is out of range")
  else if negb ((1 <=? m) && (m <=? 12))
  then Raise (ValueError "month must be in 1..12")
  else if negb ((1 <=? d) && (d <=? days_in_month y m))
  then Raise (ValueError "day is out of range for month")
  else Ok (mk_datetime y m d).

(** A date that the constructor of [datetime] accepts. *)
Definition valid_date (d : datetime) : Prop :=
  1 <= year d <= 9999 /\ 1 <= month d <= 12
  /\ 1 <= day d <= days_in_month (year d) (month d).

(** Dates in calendar order. *)
Definition date_lt (a b : datetime) : Prop :=
  year a < year b
  \/ (year a = year b /\ month a < month b)
  \/ (year a = year b /\ month a = month b /\ day a < day b).

(** The length of month [m] of year [y] in the proleptic Gregorian calendar:
    thirty days for April, June, September and November, twenty-eight for
    February and twenty-nine in a leap year (a year divisible by 4, and
    not by 100 unless by 400), thirty-one for the rest. *)
Definition gregorian_month_length (y m : Z) : Z :=
  if m =? 2 then
    (if (y mod 4 =? 0) && (negb (y mod 100 =? 0) || (y mod 400 =? 0))
     then 29 else 28)
  else if (m =? 4) || (m =? 6) || (m =? 9) || (m =? 11) then 30
  else 31.

(** The year and month after [(y, m)]. *)
Definition next_month (y m : Z) : Z * Z :=
  if m =? 12 then (y + 1, 1) else (y, m + 1).

(** A day of the calendar, in any year. *)
Definition calendar_date (d : datetime) : Prop :=
  1 <= month d <= 12 /\ 1 <= day d <= days_in_month (year d) (month d).

(** The day after [d]: the next day of the month, or the first day of the
    next month. *)
Definition tomorrow (d : datetime) : datetime :=
  if day d <? days_in_month (year d) (month d)
  then mk_datetime (year d) (month d) (day d + 1)
  else mk_datetime (next_month (year d) (month d)).1
         (next_month (year d) (month d)).2 1.

Definition toordinal (t : datetime) : Z := ymd2ord (year t) (month t) (day t).

Record timedelta : Type := mk_timedelta { days : Z }.

(** [a - b] for two datetimes at midnight. *)
Definition datetime_sub (a b : datetime) : timedelta :=
  mk_timedelta (toordinal a - toordinal b).

(** [calendar.weekday] *)
Definition weekday (y m d : Z) : Z :=
  let y := if negb ((MINYEAR <=? y) && (y <=? MAXYEAR))
           then 2000 + y mod 400 else y in
  (ymd2ord y m d + 6) mod 7.

(** [calendar.monthrange]: the weekday of the first day of the month and the
    number of days in the month. *)
Definition monthrange (y m : Z) : result (Z * Z) :=
  if negb ((1 <=? m) && (m <=? 12)) then Raise (IllegalMonthError m)
  else
    let day1 := weekday y m 1 in
    let ndays := table_get mdays m
                 + (if (m =? 2) && isleap y then 1 else 0) in
    Ok (day1, ndays).

(** ** [datetime.strptime]

    [_strptime] turns the format into a regular expression, matches it at
    the start of the string, refuses what is left over, and builds the date
    from the groups. The directives of the two formats of the program:

    - [%Y] is [(?P<Y>\d\d\d\d)],
    - [%m] is [(?P<m>1[0-2]|0[1-9]|[1-9])],
    - [%d] is [(?P<d>3[0-1]|[1-2]\d|0[1-9]|[1-9]| [1-9])],

    and any other character of these formats stands for itself. *)
Inductive directive : Type :=
| dir_Y
| dir_m
| dir_d
| dir_lit (c : ascii).

Definition digit_of (c : ascii) : option Z :=
  let n := Z.of_nat (nat_of_ascii c) in
  if (48 <=? n) && (n <=? 57) then Some (n - 48) else None.

Definition between (lo hi : Z) (x : Z) : bool := (lo <=? x) && (x <=? hi).

(** One alternative of two characters, [[lo1-hi1][lo2-hi2]], and one of a
    single character: the value matched and the rest of the string. *)
Definition alt2 (lo1 hi1 lo2 hi2 : Z) (s : string) : list (Z * string) :=
  match s with
  | String a (String b rest) =>
      match digit_of a, digit_of b with
      | Some x, Some y =>
          if between lo1 hi1 x && between lo2 hi2 y
          then [(10 * x + y, rest)] else []
      | _, _ => []
      end
  | _ => []
  end.

Definition alt1 (lo hi : Z) (s : string) : list (Z * string) :=
  match s with
  | String a rest =>
      match digit_of a with
      | Some x => if between lo hi x then [(x, rest)] else []
      | None => []
      end
  | _ => []
  end.

(** The alternative [ [1-9]] of [%d]: a space, then a digit. *)
Definition alt_space1 (s : string) : list (Z * string) :=
  match s with
  | String " " rest => alt1 1 9 rest
  | _ => []
  end.

(** The ways each group can match at the start of [s], in the order in which
    the regular expression tries them. *)
Definition alts_Y (s : string) : list (Z * string) :=
  match s with
  | String a (String b (String c (String d rest))) =>
      match digit_of a, digit_of b, digit_of c, digit_of d with
      | Some x, Some y, Some z, Some w =>
          [(1000 * x + 100 * y + 10 * z + w, rest)]
      | _, _, _, _ => []
      end
  | _ => []
  end.

Definition alts_m (s : string) : list (Z * string) :=
  alt2 1 1 0 2 s ++ alt2 0 0 1 9 s ++ alt1 1 9 s.

Definition alts_d (s : string) : list (Z * string) :=
  alt2 3 3 0 1 s ++ alt2 1 2 0 9 s ++ alt2 0 0 1 9 s ++ alt1 1 9 s
  ++ alt_space1 s.

Record found : Type := mk_found { fY : option Z; fm : option Z; fd : option Z }.

Fixpoint first_match {A B} (f : A -> option B) (l : list A) : option B :=
  match l with
  | [] => None
  | x :: l' => match f x with Some y => Some y | None => first_match f l' end
  end.

(** [re.match]: the first match in backtracking order, with the groups and
    what is left of the string. *)
Fixpoint re_match (fmt : list directive) (acc : found) (s : string)
  : option (found * string) :=
  match fmt with
  | [] => Some (acc, s)
  | dir_lit c :: fmt' =>
      match s with
      | String c' s' => if Ascii.eqb c c' then re_match fmt' acc s' else None
      | EmptyString => None
      end
  | dir_Y :: fmt' =>
      first_match
        (fun vr => re_match fmt' (mk_found (Some (fst vr)) (fm acc) (fd acc))
                     (snd vr))
        (alts_Y s)
  | dir_m :: fmt' =>
      first_match
        (fun vr => re_match fmt' (mk_found (fY acc) (Some (fst vr)) (fd acc))
                     (snd vr))
        (alts_m s)
  | dir_d :: fmt' =>
      first_match
        (fun vr => re_match fmt' (mk_found (fY acc) (fm acc) (Some (fst vr)))
                     (snd vr))
        (alts_d s)
  end.

Definition strptime (data_string : string) (fmt : list directive)
  : result datetime :=
  match re_match fmt (mk_found None None None) data_string with
  | None => Raise (ValueError "time data does not match format")
  | Some (f, rest) =>
      match rest with
      | String _ _ => Raise (ValueError "unconverted data remains")
      | EmptyString =>
          datetime_new (default 1900 (fY f)) (default 1 (fm f))
            (default 1 (fd f))
      end
  end.

(** ['%Y%m%d'] and ['%Y-%m-%d'] *)
Definition fmt_Ymd : list directive := [dir_Y; dir_m; dir_d].
Definition fmt_Y_m_d : list directive :=
  [dir_Y; dir_lit "-"; dir_m; dir_lit "-"; dir_d].

(** ** [slice] and [dict] *)

(** [slice(start, stop)], with no step. *)
Record slice : Type := mk_slice { start : Z; stop : Z }.

(** One bound of [slice.indices(len)] for a step of 1. *)
Definition adjust_index (i len : Z) : Z :=
  if i <? 0 then (if i + len <? 0 then 0 else i + len)
  else if len <=? i then len else i.

(** [slice.indices(len)]: the bounds within a sequence of [len] items. *)
Definition slice_indices (r : slice) (len : Z) : Z * Z :=
  (adjust_index (start r) len, adjust_index (stop r) len).

(** A dict literal: later items replace earlier ones with the same key. *)
Definition dict_of {A} (items : list (string * A)) : gmap string A :=
  foldl (fun d kv => <[fst kv := snd kv]> d) ∅ items.

(** [d[key]] *)
Definition dict_getitem {A} (d : gmap string A) (key : string) : result A :=
  match d !! key with
  | Some v => Ok v
  | None => Raise (KeyError key)
  end.

End Py.

Import Py.

(** ** [src/arco_era5/update_co.py] *)

Module UpdateCo.

Definition variable_dict : gmap string (list string) :=
  dict_of
    [ ("dve", ["d"; "vo"]);
      ("tw", ["t"; "w"]);
      ("o3q", ["q"; "o3"; "clwc"; "ciwc"; "cc"]);
      ("qrqs", ["crwc"; "cswc"]);
      ("lnsp", ["lnsp"]);
      ("zs", ["z"]);
      ("cape", ["cape"; "p79.162"; "p80.162"]);
      ("cisst", ["siconc"; "sst"; "skt"]);
      ("sfc", ["z"; "sp"; "tcwv"; "msl"; "tcc"; "u10"; "v10"; "t2m"; "d2m";
               "lcc"; "mcc"; "hcc"; "u100"; "v100"]);
      ("tcol", ["tclw"; "tciw"; "tcw"; "tcwv"; "tcrw"; "tcsw"]);
      ("soil_depthBelowLandLayer_istl1", ["istl1"]);
      ("soil_depthBelowLandLayer_istl2", ["istl2"]);
      ("soil_depthBelowLandLayer_istl3", ["istl3"]);
      ("soil_depthBelowLandLayer_istl4", ["istl4"]);
      ("soil_depthBelowLandLayer_stl1", ["stl1"]);
      ("soil_depthBelowLandLayer_stl2", ["stl2"]);
      ("soil_depthBelowLandLayer_stl3", ["stl3"]);
      ("soil_depthBelowLandLayer_stl4", ["stl4"]);
      ("soil_depthBelowLandLayer_swvl1", ["swvl1"]);
      ("soil_depthBelowLandLayer_swvl2", ["swvl2"]);
      ("soil_depthBelowLandLayer_swvl3", ["swvl3"]);
      ("soil_depthBelowLandLayer_swvl4", ["swvl4"]);
      ("soil_surface_tsn", ["tsn"]);
      ("rad", ["ssrd"; "strd"; "str"; "ttr"; "gwd"]);
      ("pcp_surface_cp", ["cp"]);
      ("pcp_surface_crr", ["crr"]);
      ("pcp_surface_csf", ["csf"]);
      ("pcp_surface_csfr", ["csfr"]);
      ("pcp_surface_es", ["es"]);
      ("pcp_surface_lsf", ["lsf"]);
      ("pcp_surface_lsp", ["lsp"]);
      ("pcp_surface_lspf", ["lspf"]);
      ("pcp_surface_lsrr", ["lsrr"]);
      ("pcp_surface_lssfr", ["lssfr"]);
      ("pcp_surface_ptype", ["ptype"]);
      ("pcp_surface_rsn", ["rsn"]);
      ("pcp_surface_sd", ["sd"]);
      ("pcp_surface_sf", ["sf"]);
      ("pcp_surface_smlt", ["smlt"]);
      ("pcp_surface_tp", ["tp"]) ].

(** [convert_to_date(date_str, format)]; the default format is
    [fmt_Y_m_d]. *)
Definition convert_to_date (date_str : string) (format : list directive)
  : result datetime :=
  strptime date_str format.

(** What [copy] and [opener] leave behind: the commands handed to
    [subprocess.run], oldest first, and the records written to the logger.
    A record keeps the values its message is formatted from. *)
Inductive log_record : Type :=
| info_copying (fname tmp_name : string)
| error_failed_to_copy (src dst : string) (e : exn).

Record world : Type := mk_world {
  commands : list (list string);
  logged : list log_record
}.

Section Copy.
(** [subprocess.run(argv, check=True, ...)]: returns, or raises
    [CalledProcessError] when the command exits with an error, or raises
    something else (the program cannot be started, ...). *)
Variable subprocess_run : world -> list string -> result unit.

Definition copy (src dst : string) (w : world) : world * result unit :=
  let cmd := "gcloud alpha storage cp" in
  let argv := (split_ws cmd ++ [src; dst]) in
  let w1 := mk_world (commands w ++ [argv]) (logged w) in
  match subprocess_run w argv with
  | Ok _ => (w1, Ok tt)
  | Raise (CalledProcessError rc) =>
      let msg := error_failed_to_copy src dst (CalledProcessError rc) in
      (mk_world (commands w1) (logged w1 ++ [msg]), Ok tt)
  | Raise e => (w1, Raise e)
  end.

(** The command line of [copy]. *)
Definition copy_argv (src dst : string) : list string :=
  ["gcloud"; "alpha"; "storage"; "cp"; src; dst].

(** The body of [opener] up to its [yield]; [tmp_name] is the name that
    [tempfile.NamedTemporaryFile] has chosen. *)
Definition opener (tmp_name : string) (fname : string) (w : world)
  : world * result string :=
  let w0 :=
    mk_world (commands w) (logged w ++ [info_copying fname tmp_name]) in
  match copy fname tmp_name w0 with
  | (w1, Ok _) => (w1, Ok tmp_name)
  | (w1, Raise e) => (w1, Raise e)
  end.
End Copy.

End UpdateCo.

Module GenerateOffset.
Import UpdateCo.

Record t : Type := mk {
  init_date : string;
  timestamps_per_file : Z;
  is_single_level : bool
}.

(** The defaults of the dataclass. *)
Definition defaults : t := mk "1900-01-01" 24 false.

Definition apply (self : t) (url : string)
  : result (string * slice * list string) :=
  tail ← getitem (rsplit1 url "/") 1;
  file_name ← getitem (rsplit1 tail ".") 0;
  parts ← split file_name "_hres_";
  '(int_date, chunk) ← unpack2 parts;
  let chunk := if str_in "_" chunk then replace chunk ".grb2_" "_" else chunk in
  let int_date := if is_single_level self then int_date +:+ "01" else int_date in
  start_date ← convert_to_date int_date fmt_Ymd;
  init ← convert_to_date (init_date self) fmt_Y_m_d;
  let days_diff := datetime_sub start_date init in
  let start := days days_diff * timestamps_per_file self in
  ndays ← (if is_single_level self
           then mr ← monthrange (year start_date) (month start_date); Ok (snd mr)
           else Ok 1);
  let end_ := start + timestamps_per_file self * ndays in
  vars ← dict_getitem variable_dict chunk;
  Ok (url, mk_slice start end_, vars).

(** The steps of [apply], named for the statements below. *)

(** Lines 88-91: the date text and the chunk key read off the file name. *)
Definition shard_name (url : string) : result (string * string) :=
  tail ← getitem (rsplit1 url "/") 1;
  file_name ← getitem (rsplit1 tail ".") 0;
  parts ← split file_name "_hres_";
  '(int_date, chunk) ← unpack2 parts;
  Ok (int_date,
      if str_in "_" chunk then replace chunk ".grb2_" "_" else chunk).

(** Lines 90-91 on their own: the chunk key of a file stem. *)
Definition chunk_key (chunk : string) : string :=
  if str_in "_" chunk then replace chunk ".grb2_" "_" else chunk.

(** Lines 92-94: the date of the shard, on the first of the month for a
    single-level shard. *)
Definition shard_date (self : t) (url : string) : result datetime :=
  '(int_date, _) ← shard_name url;
  convert_to_date
    (if is_single_level self then int_date +:+ "01" else int_date) fmt_Ymd.

(** The epoch, [convert_to_date(self.init_date)]. *)
Definition epoch (self : t) : result datetime :=
  convert_to_date (init_date self) fmt_Y_m_d.

(** The number of days a shard covers. *)
Definition day_count (self : t) (d : datetime) : Z :=
  if is_single_level self then days_in_month (year d) (month d) else 1.

(** The region that [apply] returns for a shard dated [d], from the epoch
    [e]. *)
Definition region_of (self : t) (d e : datetime) : slice :=
  mk_slice
    (days (datetime_sub d e) * timestamps_per_file self)
    (days (datetime_sub d e) * timestamps_per_file self
     + timestamps_per_file self * day_count self d).

End GenerateOffset.

Module UpdateSlice.

Record t : Type := mk { target : string }.

Section Apply.
(** What an array holds at one position of its time axis, with the
    extents of all other axes. *)
Context {V : Type}.

(** [zv[region] = value] on an array with [arr] along its time axis: the
    region is cut to the array as [slice.indices] does, the value must
    have the shape of the selection, and the array keeps its length. *)
Definition setitem (arr : list V) (region : slice) (value : list V)
  : result (list V) :=
  let '(lo, hi) := slice_indices region (Z.of_nat (length arr)) in
  let n := if lo <? hi then hi - lo else 0 in
  if Z.of_nat (length value) =? n
  then Ok (take (Z.to_nat lo) arr ++ value
           ++ drop (Z.to_nat (lo + n)) arr)
  else Raise (ValueError "parameter 'value': expected array with shape").

(** The positions of an array of [len] items that [region] selects: the
    first one and how many. *)
Definition selection (region : slice) (len : nat) : nat * nat :=
  let '(lo, hi) := slice_indices region (Z.of_nat len) in
  (Z.to_nat lo, Z.to_nat (if lo <? hi then hi - lo else 0)).

(** [zv[region]], read. *)
Definition getslice (arr : list V) (region : slice) : list V :=
  let '(lo, n) := selection region (length arr) in
  take n (drop lo arr).

(** Lines 112-114: the shard at [url] copied to a temporary file by
    [opener] and decoded by [xr.open_dataset], as the values of each of
    its variables along the time axis. *)
Variable open_shard : string -> result (gmap string (list V)).

(** The [for] loop over [vars], on the group [zf] of the store. *)
Fixpoint for_vars (ds : gmap string (list V)) (region : slice)
    (vars : list string) (zf : gmap string (list V))
  : gmap string (list V) * result unit :=
  match vars with
  | [] => (zf, Ok tt)
  | vname :: vars' =>
      match dict_getitem zf vname with
      | Raise e => (zf, Raise e)
      | Ok zv =>
          match dict_getitem ds vname with
          | Raise e => (zf, Raise e)
          | Ok value =>
              match setitem zv region value with
              | Raise e => (zf, Raise e)
              | Ok zv' => for_vars ds region vars' (<[vname := zv']> zf)
              end
          end
      end
  end.

(** [apply] on the group [zf] that [zr.open(self.target)] opens: the
    group afterwards and how the call ends. With no variable, [del zv]
    finds [zv] unbound. *)
Definition apply (self : t) (file_slice : string * slice * list string)
    (zf : gmap string (list V)) : gmap string (list V) * result unit :=
  let '(url, region, vars) := file_slice in
  match open_shard url with
  | Raise e => (zf, Raise e)
  | Ok ds =>
      match for_vars ds region vars zf with
      | (zf', Raise e) => (zf', Raise e)
      | (zf', Ok _) =>
          match vars with
          | [] => (zf', Raise (UnboundLocalError "zv"))
          | _ :: _ => (zf', Ok tt)
          end
      end
  end.
End Apply.

End UpdateSlice.

(** ** [src/single-levels-to-zarr.py] *)

Module SingleLevelsToZarr.

Definition make_path (time : datetime) (chunk : string) : result string :=
  if str_in "_" chunk then
    parts ← split chunk "_";
    '(chunk_, level, var) ← unpack3 parts;
    Ok ("gs://gcp-public-data-arco-era5/raw/ERA5GRIB/HRES/Month/"
        +:+ format_0d 4 (year time) +:+ "/"
        +:+ format_0d 4 (year time) +:+ format_0d 2 (month time)
        +:+ "_hres_" +:+ chunk_ +:+ ".grb2_" +:+ level +:+ "_" +:+ var
        +:+ ".grib")
  else
    Ok ("gs://gcp-public-data-arco-era5/raw/ERA5GRIB/HRES/Month/"
        +:+ format_0d 4 (year time) +:+ "/"
        +:+ format_0d 4 (year time) +:+ format_0d 2 (month time)
        +:+ "_hres_" +:+ chunk +:+ ".grb2").

(** The two parts of a path: what comes before the year, and what comes
    after ["_hres_"]. *)
Definition path_prefix : string :=
  "gs://gcp-public-data-arco-era5/raw/ERA5GRIB/HRES/Month/".

Definition file_tail (chunk : string) : result string :=
  if str_in "_" chunk then
    parts ← split chunk "_";
    '(chunk_, level, var) ← unpack3 parts;
    Ok (chunk_ +:+ ".grb2_" +:+ level +:+ "_" +:+ var +:+ ".grib")
  else Ok (chunk +:+ ".grb2").

End SingleLevelsToZarr.

(** ** [src/arco_era5/ingest_data_in_zarr.py] *)

Module IngestDataInZarr.

Definition CO_FILES_MAPPING : gmap string (list string) :=
  dict_of
    [ ("model-level-moisture", ["o3q"; "qrqs"]);
      ("model-level-wind", ["dve"; "tw"]);
      ("single-level-forecast",
        ["rad"; "pcp_surface_cp"; "pcp_surface_crr";
         "pcp_surface_csf"; "pcp_surface_csfr"; "pcp_surface_es";
         "pcp_surface_lsf"; "pcp_surface_lsp"; "pcp_surface_lspf";
         "pcp_surface_lsrr"; "pcp_surface_lssfr";
         "pcp_surface_ptype"; "pcp_surface_rsn"; "pcp_surface_sd";
         "pcp_surface_sf"; "pcp_surface_smlt"; "pcp_surface_tp"]);
      ("single-level-reanalysis",
        ["cape"; "cisst"; "sfc"; "tcol";
         "soil_depthBelowLandLayer_istl1";
         "soil_depthBelowLandLayer_istl2";
         "soil_depthBelowLandLayer_istl3";
         "soil_depthBelowLandLayer_istl4";
         "soil_depthBelowLandLayer_stl1";
         "soil_depthBelowLandLayer_stl2";
         "soil_depthBelowLandLayer_stl3";
         "soil_depthBelowLandLayer_stl4";
         "soil_depthBelowLandLayer_swvl1";
         "soil_depthBelowLandLayer_swvl2";
         "soil_depthBelowLandLayer_swvl3";
         "soil_depthBelowLandLayer_swvl4";
         "soil_surface_tsn"]);
      ("single-level-surface", ["lnsp"; "zs"]) ].

End IngestDataInZarr.

(** ** [src/raw-to-zarr-to-bq.py]: the data availability loop *)

Module RawToZarrToBq.







End RawToZarrToBq.

(** ** Checks that are decided by evaluation *)

Module Check.

(** The tail that [make_path] gives a chunk has no slash, and the steps of
    [GenerateOffset.apply] read the chunk back from it: the extension goes,
    ["_hres_"] splits off an empty date, and the stem has the chunk as its
    key. *)
Definition tail_ok (chunk : string) : bool :=
  match SingleLevelsToZarr.file_tail chunk with
  | Raise _ => false
  | Ok tl =>
      negb (has_char "/" tl)
      && match rpartition "." ("_hres_" +:+ tl) with
         | None => false
         | Some (before, _) =>
             match split_go "_hres_" 0 before with
             | [date; stem] =>
                 String.eqb date EmptyString
                 && String.eqb (GenerateOffset.chunk_key stem) chunk
             | _ => false
             end
         end
  end.

(** The four characters of a year are digits that read back as the year. *)
Definition year_ok (y : Z) : bool :=
  negb (has_char "/" (format_0d 4 y))
  && negb (has_char "_" (format_0d 4 y))
  && bool_decide (alts_Y (format_0d 4 y) = [(y, EmptyString)]).

(** A chunk is a key of the catalog, and its variables are some, without
    repetition. *)
Definition chunk_ok (chunk : string) : bool :=
  match UpdateCo.variable_dict !! chunk with
  | None => false
  | Some vars => bool_decide (vars <> [] /\ NoDup vars)
  end.

End Check.

(** ** Scenarios: the inputs of the worked examples *)

Module Scenario.

(** Hourly single-level data: one file a month, 24 samples a day. *)
Definition monthly_24 : GenerateOffset.t :=
  GenerateOffset.mk "1900-01-01" 24 true.

(** The forecast data: one file a month, 2 samples a day. *)
Definition monthly_2 : GenerateOffset.t :=
  GenerateOffset.mk "1900-01-01" 2 true.

(** One file a day, 24 samples in it: the defaults of the dataclass. *)
Definition daily_24 : GenerateOffset.t := GenerateOffset.defaults.

Definition url_rad_2024_02 : string :=
  "gs://gcp-public-data-arco-era5/raw/ERA5GRIB/HRES/Month/2024/202402_hres_rad.grb2".

Definition url_rad_2023_02 : string :=
  "gs://gcp-public-data-arco-era5/raw/ERA5GRIB/HRES/Month/2023/202302_hres_rad.grb2".

Definition url_sfc_2023_09_01 : string :=
  "gs://gcp-public-data-arco-era5/raw/ERA5GRIB/HRES/Daily/2023/20230901_hres_sfc.grb2".

Definition url_sfc_2023_09 : string :=
  "gs://gcp-public-data-arco-era5/raw/ERA5GRIB/HRES/Month/2023/202309_hres_sfc.grb2".

Definition url_sfc_2023_10 : string :=
  "gs://gcp-public-data-arco-era5/raw/ERA5GRIB/HRES/Month/2023/202310_hres_sfc.grb2".

Definition url_sfc_1899_12 : string :=
  "gs://gcp-public-data-arco-era5/raw/ERA5GRIB/HRES/Month/1899/189912_hres_sfc.grb2".

Definition url_unknown_2023_09 : string :=
  "gs://gcp-public-data-arco-era5/raw/ERA5GRIB/HRES/Month/2023/202309_hres_nope.grb2".

Definition vars_sfc : list string :=
  ["z"; "sp"; "tcwv"; "msl"; "tcc"; "u10"; "v10"; "t2m"; "d2m";
   "lcc"; "mcc"; "hcc"; "u100"; "v100"].

Definition vars_rad : list string := ["ssrd"; "strd"; "str"; "ttr"; "gwd"].



(** The transfer command exits with status 1, every time. *)
Definition transfer_fails (w : UpdateCo.world) (argv : list string)
  : result unit :=
  Raise (CalledProcessError 1).

Definition transfer_succeeds (w : UpdateCo.world) (argv : list string)
  : result unit :=
  Ok tt.

Definition empty_world : UpdateCo.world := UpdateCo.mk_world [] [].

(** A store of two variables with four positions each, and a shard that
    decodes to two positions of each. *)
Definition store_dve : gmap string (list Z) :=
  dict_of [("d", [0; 0; 0; 0]); ("vo", [1; 1; 1; 1])].

Definition decoded_dve (url : string) : result (gmap string (list Z)) :=
  Ok (dict_of [("d", [5; 6]); ("vo", [7; 8])]).

Definition store_dve_written : gmap string (list Z) :=
  dict_of [("d", [0; 5; 6; 0]); ("vo", [1; 7; 8; 1])].

Definition shard_dve : string * slice * list string :=
  ("gs://bucket/20230901_hres_dve.grb2", mk_slice 1 3, ["d"; "vo"]).

Definition target_wind : UpdateSlice.t :=
  UpdateSlice.mk "gs://gcp-public-data-arco-era5/co/model-level-wind.zarr-v2".

End Scenario.

(** ** Notions for the statements about dates and regions *)

Module Notion.

(** What is left of a string that ends in ["01"] when characters are taken
    off its front. *)
Definition tail_of_01 (s : string) : Prop :=
  (exists u, s = u +:+ "01") \/ s = "1" \/ s = EmptyString.

End Notion.

(** ** Notions for the statements about strings *)

Module StrNotion.

(** How many times the character [c] occurs in [s]. *)
Fixpoint count_char (c : ascii) (s : string) : nat :=
  match s with
  | EmptyString => O
  | String c' s' =>
      if Ascii.eqb c c' then S (count_char c s') else count_char c s'
  end.

End StrNotion.

(** ** Notions for the statements about regions of the store *)

Module RegionNotion.

(** A region with bounds that are not negative. *)
Definition nonneg (r : slice) : Prop := 0 <= start r /\ 0 <= stop r.

(** Two regions that share no position. *)
Definition apart (r1 r2 : slice) : Prop :=
  stop r1 <= start r2 \/ stop r2 <= start r1.

End RegionNotion.

(** ** More inputs of worked examples *)

Module Scenario2.



Definition decoded_dve_values : gmap string (list Z) :=
  dict_of [("d", [5; 6]); ("vo", [7; 8])].

Definition url_dve_day : string := "gs://bucket/20230901_hres_dve.grb2".

Definition url_dve_next_day : string := "gs://bucket/20230902_hres_dve.grb2".

(** One file a day with two samples in it, from 1 September 2023 on. *)
Definition daily_2_sep : GenerateOffset.t :=
  GenerateOffset.mk "2023-09-01" 2 false.

End Scenario2.

(** ** The groups of a chunk *)

Module Check2.

(** The keys of a mapping whose list has a chunk. *)
Definition listing (m : gmap string (list string)) (chunk : string)
  : list string :=
  (List.filter (fun kv : string * list string => bool_decide (chunk ∈ kv.2))
     (map_to_list m)).*1.

(** The groups of [CO_FILES_MAPPING] that list a chunk. *)
Definition groups_of (chunk : string) : list string :=
  listing IngestDataInZarr.CO_FILES_MAPPING chunk.

(** A chunk is listed by one group. *)
Definition in_one_group (chunk : string) : bool :=
  bool_decide (length (groups_of chunk) = 1%nat).

End Check2.


(** ** More of the Python library: paths, joins and dates as text *)

Module PyMore.

(** [l[-1]] *)
Definition getitem_last {A} (l : list A) : result A :=
  match last l with
  | Some x => Ok x
  | None => Raise IndexError
  end.

(** [sep.join(l)] is [String.concat sep l]. *)
Definition join (sep : string) (l : list string) : string :=
  String.concat sep l.

(** Only dots. *)
Fixpoint all_dots (s : string) : bool :=
  match s with
  | EmptyString => true
  | String c s' => Ascii.eqb c "." && all_dots s'
  end.

(** [os.path.splitext] on a name with no slash: the extension starts at
    the last dot, unless only dots come before it. *)
Definition splitext_name (name : string) : string * string :=
  match rpartition "." name with
  | None => (name, EmptyString)
  | Some (before, after) =>
      if all_dots before then (name, EmptyString)
      else (before, String "." after)
  end.

(** [os.path.splitext]: the extension is looked for after the last
    slash. *)
Definition splitext (p : string) : string * string :=
  match rpartition "/" p with
  | None => splitext_name p
  | Some (dir, name) =>
      let '(root, ext) := splitext_name name in
      (dir +:+ String "/" root, ext)
  end.

Fixpoint str_drop (n : nat) (s : string) : string :=
  match n, s with
  | O, _ => s
  | S n', String _ s' => str_drop n' s'
  | S _, EmptyString => EmptyString
  end.

Fixpoint str_take (n : nat) (s : string) : string :=
  match n, s with
  | S n', String c s' => String c (str_take n' s')
  | _, _ => EmptyString
  end.

(** [s[lo:hi]] for bounds that are not negative. *)
Definition str_slice (lo hi : nat) (s : string) : string :=
  str_take (hi - lo) (str_drop lo s).

(** [d.strftime("%Y/%m")] with the C library of Linux, which writes the
    year without padding. *)
Definition strftime_Y_m (d : datetime) : string :=
  decimal (year d) +:+ "/" +:+ format_0d 2 (month d).

(** A character of [s] is whitespace. *)
Fixpoint has_space (s : string) : bool :=
  match s with
  | EmptyString => false
  | String c s' => is_space c || has_space s'
  end.

(** A word of a command line: some characters, none of them whitespace. *)
Definition is_word (s : string) : bool :=
  match s with
  | EmptyString => false
  | String _ _ => negb (has_space s)
  end.

End PyMore.

Import PyMore.

(** ** [src/arco_era5/ingest_data_in_zarr.py]: the ingestion job *)

Module IngestJob.
Import IngestDataInZarr.

Definition AR_FILE_PATH : string := "/arco-era5/src/update-ar-data.py".
Definition CO_FILE_PATH : string := "/arco-era5/src/update-co-data.py".

Section Job.
(** Of [utils], which is not among the sources: the function that makes a
    job name of a file name, and [subprocess_run], which runs a command
    line and returns or raises. *)
Variable replace_non_alphanumeric_with_hyphen : string -> string.
Variable subprocess_run : string -> result unit.

(** Lines 65-69. *)
Definition job_name_of (target_path start_date end_date : string)
  : result string :=
  parts ← split target_path "/";
  job_name ← getitem_last parts;
  let job_name := (splitext job_name).1 in
  Ok ("zarr-data-ingestion-"
      +:+ replace_non_alphanumeric_with_hyphen job_name
      +:+ "-" +:+ start_date +:+ "-to-" +:+ end_date).

(** Line 82: the chunks of the dataset that the name of the store gives. *)
Definition dataset_chunks (target_path : string) : result (list string) :=
  parts ← split target_path "/";
  name ← getitem_last parts;
  pieces ← split name ".";
  key ← getitem pieces 0;
  dict_getitem CO_FILES_MAPPING key.

(** Lines 65-96: the command line. *)
Definition command
    (target_path region start_date end_date init_date project bucket
       sdk_container_image python_path : string) : result string :=
  job_name ← job_name_of target_path start_date end_date;
  if str_in "/ar/" target_path then
    Ok (python_path +:+ " " +:+ AR_FILE_PATH
        +:+ " --output_path " +:+ target_path +:+ " "
        +:+ "-s " +:+ start_date +:+ " -e " +:+ end_date
        +:+ " --pressure_levels_group full_37 "
        +:+ "--temp_location gs://" +:+ bucket
        +:+ "/temp --runner DataflowRunner "
        +:+ "--project " +:+ project +:+ " --region " +:+ region
        +:+ " --experiments use_runner_v2 "
        +:+ "--worker_machine_type n2-highmem-32 --disk_size_gb 250 "
        +:+ "--setup_file /arco-era5/setup.py "
        +:+ "--job_name " +:+ job_name
        +:+ " --number_of_worker_harness_threads 1 "
        +:+ "--init_date " +:+ init_date)
  else
    chunks ← dataset_chunks target_path;
    let chunks := join " " chunks in
    let time_per_day :=
      if str_in "single-level-forecast" target_path then 2 else 24 in
    Ok (python_path +:+ " " +:+ CO_FILE_PATH
        +:+ " --output_path " +:+ target_path +:+ " "
        +:+ "-s " +:+ start_date +:+ " -e " +:+ end_date
        +:+ " -c " +:+ chunks +:+ " "
        +:+ "--time_per_day " +:+ decimal time_per_day +:+ " "
        +:+ "--temp_location gs://" +:+ bucket
        +:+ "/temp --runner DataflowRunner "
        +:+ "--project " +:+ project +:+ " --region " +:+ region
        +:+ " --experiments use_runner_v2 "
        +:+ "--worker_machine_type n2-highmem-8 --disk_size_gb 250 "
        +:+ "--setup_file /arco-era5/setup.py "
        +:+ "--job_name " +:+ job_name
        +:+ " --number_of_worker_harness_threads 1 "
        +:+ "--sdk_container_image " +:+ sdk_container_image +:+ " "
        +:+ "--init_date " +:+ init_date).

(** The job: the command lines handed to [subprocess_run], and how the call
    ends. *)
Definition ingest_data_in_zarr_dataflow_job
    (target_path region start_date end_date init_date project bucket
       sdk_container_image python_path : string)
  : list string * result unit :=
  match command target_path region start_date end_date init_date project
          bucket sdk_container_image python_path with
  | Raise e => ([], Raise e)
  | Ok c => ([c], subprocess_run c)
  end.

(** The words that the command line is expected to be made of. *)
Definition argv
    (target_path region start_date end_date init_date project bucket
       sdk_container_image python_path job_name : string)
    (chunks : list string) : list string :=
  if str_in "/ar/" target_path then
    [python_path; AR_FILE_PATH; "--output_path"; target_path;
     "-s"; start_date; "-e"; end_date;
     "--pressure_levels_group"; "full_37";
     "--temp_location"; "gs://" +:+ bucket +:+ "/temp";
     "--runner"; "DataflowRunner";
     "--project"; project; "--region"; region;
     "--experiments"; "use_runner_v2";
     "--worker_machine_type"; "n2-highmem-32"; "--disk_size_gb"; "250";
     "--setup_file"; "/arco-era5/setup.py";
     "--job_name"; job_name; "--number_of_worker_harness_threads"; "1";
     "--init_date"; init_date]
  else
    [python_path; CO_FILE_PATH; "--output_path"; target_path;
     "-s"; start_date; "-e"; end_date; "-c"]
    ++ chunks
    ++ ["--time_per_day";
        if str_in "single-level-forecast" target_path then "2" else "24";
        "--temp_location"; "gs://" +:+ bucket +:+ "/temp";
        "--runner"; "DataflowRunner";
        "--project"; project; "--region"; region;
        "--experiments"; "use_runner_v2";
        "--worker_machine_type"; "n2-highmem-8"; "--disk_size_gb"; "250";
        "--setup_file"; "/arco-era5/setup.py";
        "--job_name"; job_name; "--number_of_worker_harness_threads"; "1";
        "--sdk_container_image"; sdk_container_image;
        "--init_date"; init_date].
End Job.

End IngestJob.

(** ** [src/raw-to-zarr-to-bq.py]: the stores and the splitting job *)

Module RawToZarrToBq2.

Definition SPLITTING_DATASETS : list string := ["soil"; "pcp"].

Definition ZARR_FILES_LIST : list string :=
  ["gs://gcp-public-data-arco-era5/ar/full_37-1h-0p25deg-chunk-1.zarr-v3";
   "gs://gcp-public-data-arco-era5/co/model-level-moisture.zarr-v2";
   "gs://gcp-public-data-arco-era5/co/model-level-wind.zarr-v2";
   "gs://gcp-public-data-arco-era5/co/single-level-forecast.zarr-v2";
   "gs://gcp-public-data-arco-era5/co/single-level-reanalysis.zarr-v2";
   "gs://gcp-public-data-arco-era5/co/single-level-surface.zarr-v2"].

(** A double quote, as a one-character string. *)
Definition dquote : string := String "034" EmptyString.

(** The command lines of [data_splitting_dataflow_job(date)], one for each
    dataset, in the order in which they are handed to the thread pool. The
    first five arguments are the values of the environment that the module
    reads, as the f-strings write them. *)
Definition data_splitting_commands
    (PYTHON_PATH PROJECT REGION BUCKET WEATHER_TOOLS_SDK_CONTAINER_IMAGE
       : string) (date : string) : list string :=
  let year := str_slice 0 4 date in
  let month := year +:+ str_slice 5 7 date in
  let typeOfLevel := "{" +:+ "typeOfLevel" +:+ "}" in
  let shortName := "{" +:+ "shortName" +:+ "}" in
  let zero := "{" +:+ "0" +:+ "}" in
  let first := "{" +:+ "1" +:+ "}" in
  map
    (fun DATASET =>
       PYTHON_PATH +:+ " /weather/weather_sp/weather-sp --input-pattern "
       +:+ " " +:+ dquote
       +:+ "gs://gcp-public-data-arco-era5/raw/ERA5GRIB/HRES/Month/"
       +:+ year +:+ "/" +:+ month +:+ "_hres_" +:+ DATASET +:+ ".grb2"
       +:+ dquote +:+ " "
       +:+ "--output-template " +:+ dquote
       +:+ "gs://gcp-public-data-arco-era5/raw/ERA5GRIB/HRES/Month/"
       +:+ first +:+ "/" +:+ zero +:+ ".grb2_" +:+ typeOfLevel +:+ "_"
       +:+ shortName +:+ ".grib" +:+ dquote +:+ " "
       +:+ "--runner DataflowRunner --project " +:+ PROJECT
       +:+ " --region " +:+ REGION +:+ " "
       +:+ "--temp_location gs://" +:+ BUCKET
       +:+ "/tmp --disk_size_gb 3600 "
       +:+ "--job_name split-" +:+ DATASET +:+ "-data-" +:+ month +:+ " "
       +:+ "--sdk_container_image " +:+ WEATHER_TOOLS_SDK_CONTAINER_IMAGE
       +:+ " ")
    SPLITTING_DATASETS.

End RawToZarrToBq2.


(** ** More checks that are decided by evaluation *)

Module Check3.

(** From the year 1000 on, a year written without padding has its four
    digits. *)
Definition year_text_ok (y : Z) : bool :=
  String.eqb (decimal y) (format_0d 4 y).

(** A store either is under ["/ar/"] or is named after a group. *)
Definition store_ok (target_path : string) : bool :=
  str_in "/ar/" target_path || is_Ok (IngestJob.dataset_chunks target_path).

End Check3.

(** ** Inputs of the worked examples of the jobs *)

Module Scenario3.

(** The names of the examples have letters, digits and hyphens only, and
    are kept as they are. *)
Definition keep_name (s : string) : string := s.

Definition surface_store : string :=
  "gs://gcp-public-data-arco-era5/co/single-level-surface.zarr-v2".

Definition unknown_store : string := "gs://bucket/co/unknown.zarr".

Definition job_fails (command : string) : result unit :=
  Raise (CalledProcessError 1).

End Scenario3.



(** ** The variables that chunks of a group share *)

Module Check4.

(** The variables of the first chunk that the second has too. *)
Definition shared_vars (c1 c2 : string) : list string :=
  match UpdateCo.variable_dict !! c1, UpdateCo.variable_dict !! c2 with
  | Some vars1, Some vars2 =>
      List.filter (fun v => bool_decide (v ∈ vars2)) vars1
  | _, _ => []
  end.

(** Two chunks of a group share no variable, but for ["tcwv"] of ["sfc"]
    and ["tcol"] in ["single-level-reanalysis"]. *)
Definition group_ok (group : string) (chunks : list string) : bool :=
  forallb
    (fun c1 =>
       forallb
         (fun c2 =>
            String.eqb c1 c2
            || match shared_vars c1 c2 with
               | [] => true
               | vs =>
                   bool_decide
                     (group = "single-level-reanalysis" /\ vs = ["tcwv"]
                      /\ (c1 = "sfc" /\ c2 = "tcol"
                          \/ c1 = "tcol" /\ c2 = "sfc"))
               end)
         chunks)
    chunks.

End Check4.

(** * Properties *)

Import UpdateCo.

(** ** The error monad *)

(** Runs the binds of the error monad whose argument is known. *)
Ltac run_bind := unfold mbind, result_bind; cbv beta iota zeta.

Lemma bind_Ok_inv {A B} (r : result A) (f : A -> result B) (b : B) :
  r ≫= f = Ok b -> exists a, r = Ok a /\ f a = Ok b.
Proof. destruct r as [a|e]; [eauto | discriminate]. Qed.

Lemma bind_Ok {A B} (r : result A) (f : A -> result B) (a : A) :
  r = Ok a -> r ≫= f = f a.
Proof. intros ->. reflexivity. Qed.

Lemma dict_getitem_Ok {A} (d : gmap string A) (key : string) (v : A) :
  dict_getitem d key = Ok v <-> d !! key = Some v.
Proof.
  unfold dict_getitem. destruct (d !! key); split; intros H;
    inversion H; reflexivity.
Qed.

Lemma dict_getitem_missing {A} (d : gmap string A) (key : string) :
  d !! key = None -> dict_getitem d key = Raise (KeyError key).
Proof. unfold dict_getitem. intros ->. reflexivity. Qed.

(** ** The calendar *)

Lemma datetime_new_Ok y m d t :
  datetime_new y m d = Ok t -> t = mk_datetime y m d /\ valid_date t.
Proof.
  unfold datetime_new, MINYEAR, MAXYEAR, valid_date.
  repeat case_match; try discriminate. intros [= <-]. simpl.
  split; [reflexivity | lia].
Qed.

Lemma datetime_new_valid y m d :
  valid_date (mk_datetime y m d) ->
  datetime_new y m d = Ok (mk_datetime y m d).
Proof.
  unfold datetime_new, MINYEAR, MAXYEAR, valid_date. simpl. intros H.
  repeat case_match; try reflexivity; lia.
Qed.

Lemma strptime_valid s fmt t : strptime s fmt = Ok t -> valid_date t.
Proof.
  unfold strptime. repeat case_match; try discriminate.
  intros Hnew. apply datetime_new_Ok in Hnew. tauto.
Qed.

(** Case analysis on a month number. *)
Ltac month_cases m :=
  assert (m = 1 \/ m = 2 \/ m = 3 \/ m = 4 \/ m = 5 \/ m = 6 \/ m = 7
          \/ m = 8 \/ m = 9 \/ m = 10 \/ m = 11 \/ m = 12) as Hmonth by lia;
  repeat (destruct Hmonth as [-> | Hmonth]); [ .. | subst m ].

Lemma days_in_month_bounds y m :
  1 <= m <= 12 -> 28 <= days_in_month y m <= 31.
Proof.
  intros Hm. unfold days_in_month. month_cases m;
    destruct (isleap y); vm_compute; split; discriminate.
Qed.

(** [calendar.monthrange] and [datetime] count the days of a month alike. *)
Lemma monthrange_days_in_month y m :
  1 <= m <= 12 ->
  exists day1, monthrange y m = Ok (day1, days_in_month y m).
Proof.
  intros Hm. unfold monthrange.
  replace (negb ((1 <=? m) && (m <=? 12))) with false
    by (symmetry; apply negb_false_iff, andb_true_iff; lia).
  eexists. f_equal. f_equal. unfold days_in_month.
  month_cases m; destruct (isleap y); reflexivity.
Qed.

Lemma isleap_spec y :
  isleap y = true <->
  (y mod 4 = 0 /\ (y mod 100 <> 0 \/ y mod 400 = 0)).
Proof.
  unfold isleap. rewrite andb_true_iff, orb_true_iff, negb_true_iff.
  rewrite !Z.eqb_eq, Z.eqb_neq. tauto.
Qed.

Lemma days_before_year_succ y :
  days_before_year (y + 1) - days_before_year y
  = if isleap y then 366 else 365.
Proof.
  unfold days_before_year.
  destruct (isleap y) eqn:Hleap.
  - apply isleap_spec in Hleap. Z.div_mod_to_equations. lia.
  - assert (Hn : ~ (y mod 4 = 0 /\ (y mod 100 <> 0 \/ y mod 400 = 0)))
      by (rewrite <- isleap_spec, Hleap; discriminate).
    Z.div_mod_to_equations. lia.
Qed.

(** The days of a month are the ordinals from its first day up to the first
    day of the next month: a month has [days_in_month] days in the
    proleptic Gregorian calendar that [toordinal] counts in. *)
Lemma days_in_month_ordinals y m :
  1 <= m <= 12 ->
  ymd2ord (next_month y m).1 (next_month y m).2 1 - ymd2ord y m 1
  = days_in_month y m.
Proof.
  intros Hm. unfold ymd2ord, days_before_month, days_in_month, next_month.
  pose proof (days_before_year_succ y) as Hy.
  month_cases m; simpl; unfold table_get; simpl;
    destruct (isleap y); try destruct (isleap (y + 1)); lia.
Qed.

Lemma days_before_year_mono y1 y2 :
  y1 <= y2 -> days_before_year y1 <= days_before_year y2.
Proof. unfold days_before_year. intros Hy. Z.div_mod_to_equations. lia. Qed.

(** The day of the year of a valid date is at most the length of the
    year. *)
Lemma day_of_year_bounds d :
  valid_date d ->
  1 <= days_before_month (year d) (month d) + day d
    <= (if isleap (year d) then 366 else 365).
Proof.
  destruct d as [y m dd]. unfold valid_date, days_before_month, days_in_month.
  simpl. intros (_ & Hm & Hd). revert Hd.
  month_cases m; simpl; unfold table_get; simpl;
    destruct (isleap y); simpl; lia.
Qed.

Lemma days_before_month_mono y m1 m2 :
  1 <= m1 -> m1 < m2 -> m2 <= 12 ->
  days_before_month y m1 + days_in_month y m1 <= days_before_month y m2.
Proof.
  intros H1 Hlt H2. unfold days_before_month, days_in_month.
  month_cases m1; month_cases m2; try lia;
    simpl; unfold table_get; simpl; destruct (isleap y); simpl; lia.
Qed.

(** [toordinal] is strictly increasing in the calendar order. *)
Lemma toordinal_lt a b :
  valid_date a -> valid_date b -> date_lt a b -> toordinal a < toordinal b.
Proof.
  intros Ha Hb Hlt.
  pose proof (day_of_year_bounds a Ha) as Hda.
  pose proof (day_of_year_bounds b Hb) as Hdb.
  unfold toordinal, ymd2ord.
  destruct Hlt as [Hy | [(Hy & Hm) | (Hy & Hm & Hd)]].
  - pose proof (days_before_year_succ (year a)) as Hs.
    pose proof (days_before_year_mono (year a + 1) (year b)) as Hmono.
    destruct (isleap (year a)); lia.
  - destruct Ha as (_ & Hma & Hdda), Hb as (_ & Hmb & Hddb).
    pose proof (days_before_month_mono (year a) (month a) (month b)) as Hmono.
    rewrite <- Hy. rewrite <- Hy in Hddb. lia.
  - rewrite Hy, Hm. lia.
Qed.

Lemma toordinal_inj_lt a b :
  valid_date a -> valid_date b -> toordinal a < toordinal b -> date_lt a b.
Proof.
  intros Ha Hb Hlt. unfold date_lt.
  destruct (Z.lt_trichotomy (year a) (year b)) as [Hy | [Hy | Hy]];
    [tauto | | ].
  - destruct (Z.lt_trichotomy (month a) (month b)) as [Hm | [Hm | Hm]];
      [tauto | | ].
    + destruct (Z.lt_trichotomy (day a) (day b)) as [Hd | [Hd | Hd]];
        [tauto | | ].
      * unfold toordinal in Hlt. rewrite Hy, Hm, Hd in Hlt. lia.
      * pose proof (toordinal_lt b a Hb Ha) as Hba. unfold date_lt in Hba.
        assert (toordinal b < toordinal a) by (apply Hba; lia). lia.
    + pose proof (toordinal_lt b a Hb Ha) as Hba. unfold date_lt in Hba.
      assert (toordinal b < toordinal a) by (apply Hba; lia). lia.
  - pose proof (toordinal_lt b a Hb Ha) as Hba. unfold date_lt in Hba.
    assert (toordinal b < toordinal a) by (apply Hba; lia). lia.
Qed.

(** ** [GenerateOffset.apply] *)

Section GenerateOffsetFacts.
Import GenerateOffset.

(** [apply] is its steps in sequence: the file name, the date of the
    shard, the epoch, the catalog. *)
Lemma apply_steps self url :
  apply self url =
  (nm ← shard_name url;
   d ← convert_to_date
         (if is_single_level self then nm.1 +:+ "01" else nm.1) fmt_Ymd;
   e ← epoch self;
   vars ← dict_getitem variable_dict nm.2;
   Ok (url, region_of self d e, vars)).
Proof.
  unfold apply, shard_name, epoch.
  destruct (getitem (rsplit1 url "/") 1) as [tail|]; run_bind;
    [ | reflexivity].
  destruct (getitem (rsplit1 tail ".") 0) as [file_name|]; run_bind;
    [ | reflexivity].
  destruct (split file_name "_hres_") as [parts|]; run_bind;
    [ | reflexivity].
  destruct (unpack2 parts) as [[int_date chunk]|]; run_bind;
    [ | reflexivity].
  cbn [fst snd].
  destruct (convert_to_date _ fmt_Ymd) as [d|] eqn:Hd; [ | reflexivity].
  destruct (convert_to_date (init_date self) fmt_Y_m_d) as [e|];
    [ | reflexivity].
  unfold region_of, day_count.
  destruct (is_single_level self); [ | reflexivity].
  apply strptime_valid in Hd. destruct Hd as (_ & Hm & _).
  destruct (monthrange_days_in_month (year d) (month d) Hm) as [day1 ->].
  reflexivity.
Qed.

(** When [apply] returns, every step has, and the result is made of what
    the steps gave. *)
Lemma apply_Ok_inv self url u r vars :
  apply self url = Ok (u, r, vars) ->
  exists int_date chunk d e,
    shard_name url = Ok (int_date, chunk)
    /\ shard_date self url = Ok d
    /\ epoch self = Ok e
    /\ variable_dict !! chunk = Some vars
    /\ u = url /\ r = region_of self d e.
Proof.
  rewrite apply_steps. unfold shard_date.
  intros H.
  apply bind_Ok_inv in H as ([int_date chunk] & Hnm & H). cbn [fst snd] in H.
  apply bind_Ok_inv in H as (d & Hd & H).
  apply bind_Ok_inv in H as (e & He & H).
  apply bind_Ok_inv in H as (vars' & Hv & H).
  injection H as <- <- <-.
  exists int_date, chunk, d, e. rewrite Hnm. run_bind.
  apply dict_getitem_Ok in Hv. repeat split; assumption.
Qed.

(** Conversely, when the file name parses, the dates convert and the
    chunk is in the catalog, [apply] returns. *)
Lemma apply_Ok_intro self url int_date chunk d e vars :
  shard_name url = Ok (int_date, chunk) ->
  shard_date self url = Ok d ->
  epoch self = Ok e ->
  variable_dict !! chunk = Some vars ->
  apply self url = Ok (url, region_of self d e, vars).
Proof.
  intros Hnm Hd He Hv. rewrite apply_steps.
  unfold shard_date in Hd. rewrite Hnm in *. revert Hd. run_bind.
  cbn [fst snd]. intros ->. rewrite He.
  apply dict_getitem_Ok in Hv. rewrite Hv. reflexivity.
Qed.

Lemma shard_date_valid self url d : shard_date self url = Ok d -> valid_date d.
Proof.
  unfold shard_date. intros H.
  apply bind_Ok_inv in H as ([int_date chunk] & _ & H).
  eapply strptime_valid, H.
Qed.

Lemma epoch_valid self e : epoch self = Ok e -> valid_date e.
Proof. apply strptime_valid. Qed.
End GenerateOffsetFacts.


Lemma date_trichotomy a b : date_lt a b \/ a = b \/ date_lt b a.
Proof.
  destruct a as [ya ma da], b as [yb mb db]. unfold date_lt. simpl.
  destruct (Z.lt_trichotomy ya yb) as [? | [-> | ?]]; [tauto | | tauto].
  destruct (Z.lt_trichotomy ma mb) as [? | [-> | ?]]; [tauto | | tauto].
  destruct (Z.lt_trichotomy da db) as [? | [-> | ?]]; tauto.
Qed.

Lemma toordinal_inj a b :
  valid_date a -> valid_date b -> toordinal a = toordinal b -> a = b.
Proof.
  intros Ha Hb Heq.
  destruct (date_trichotomy a b) as [Hlt | [-> | Hlt]]; [ | reflexivity | ].
  - pose proof (toordinal_lt a b Ha Hb Hlt). lia.
  - pose proof (toordinal_lt b a Hb Ha Hlt). lia.
Qed.

Lemma valid_calendar_date d : valid_date d -> calendar_date d.
Proof. unfold valid_date, calendar_date. tauto. Qed.

(** [toordinal] counts days: the day after has the next ordinal. *)
Lemma toordinal_tomorrow d :
  calendar_date d -> toordinal (tomorrow d) = toordinal d + 1.
Proof.
  intros (Hm & Hd). unfold tomorrow.
  destruct (day d <? days_in_month (year d) (month d)) eqn:Hlast.
  - unfold toordinal, ymd2ord. simpl. lia.
  - apply Z.ltb_ge in Hlast.
    pose proof (days_in_month_ordinals (year d) (month d) Hm) as Hord.
    unfold toordinal. cbn [year month day].
    unfold ymd2ord in *. lia.
Qed.



Section GenerateOffsetClaims.
Import GenerateOffset.

Lemma apply_region_start_aux self url u r vars :
  apply self url = Ok (u, r, vars) ->
  exists d e,
    shard_date self url = Ok d
    /\ epoch self = Ok e
    /\ start r = (toordinal d - toordinal e) * timestamps_per_file self.
Proof.
  intros H. apply apply_Ok_inv in H
    as (int_date & chunk & d & e & _ & Hd & He & _ & _ & ->).
  exists d, e. unfold region_of. simpl. auto.
Qed.



(** C5, as the code has it. [GenerateOffset.apply] checks no range: for a
    shard dated before the epoch, whose file name parses and whose chunk
    is in the catalog, it returns, and the start of the region is the
    negative number of days, times [timestamps_per_file]. *)
Theorem apply_before_epoch self url int_date chunk d e vars :
  shard_name url = Ok (int_date, chunk) ->
  shard_date self url = Ok d ->
  epoch self = Ok e ->
  variable_dict !! chunk = Some vars ->
  date_lt d e ->
  0 < timestamps_per_file self ->
  exists r,
    apply self url = Ok (url, r, vars)
    /\ start r = (toordinal d - toordinal e) * timestamps_per_file self
    /\ start r < 0.
Proof.
  intros Hnm Hd He Hv Hlt Htpf.
  exists (region_of self d e).
  split; [eapply apply_Ok_intro; eassumption | ].
  pose proof (toordinal_lt d e (shard_date_valid _ _ _ Hd)
                (epoch_valid _ _ He) Hlt) as Hord.
  unfold region_of. simpl. split; [reflexivity | nia].
Qed.

(** C6. For a shard whose chunk is not a key of [variable_dict],
    [GenerateOffset.apply] raises and returns nothing, no empty list
    either; the lookup itself raises [KeyError], and that is the
    exception of [apply] whenever the dates have converted. *)
Theorem apply_unknown_chunk self url int_date chunk :
  shard_name url = Ok (int_date, chunk) ->
  variable_dict !! chunk = None ->
  dict_getitem variable_dict chunk = Raise (KeyError chunk)
  /\ (exists exc, apply self url = Raise exc)
  /\ (forall u r vars, apply self url <> Ok (u, r, vars))
  /\ (forall d e, shard_date self url = Ok d -> epoch self = Ok e ->
      apply self url = Raise (KeyError chunk)).
Proof.
  intros Hnm Hv.
  pose proof (dict_getitem_missing _ _ Hv) as Hget.
  assert (Hraise : forall d e, shard_date self url = Ok d ->
                   epoch self = Ok e ->
                   apply self url = Raise (KeyError chunk)).
  { intros d e Hd He. rewrite apply_steps. unfold shard_date in Hd.
    rewrite Hnm in *. revert Hd. run_bind. cbn [fst snd].
    intros ->. rewrite He, Hget. reflexivity. }
  assert (Hno : forall u r vars, apply self url <> Ok (u, r, vars)).
  { intros u r vars H. apply apply_Ok_inv in H
      as (int_date' & chunk' & d & e & Hnm' & _ & _ & Hv' & _).
    rewrite Hnm in Hnm'. injection Hnm' as <- <-. congruence. }
  repeat split; try assumption.
  destruct (apply self url) as [[[u r] vars]|exc] eqn:Happly.
  - exfalso. eapply Hno. reflexivity.
  - eauto.
Qed.

(** C9. For a fixed epoch and [timestamps_per_file > 0], the start of the
    region grows strictly with the date of the shard: of two shards for
    which [apply] returns, the later dated has the larger start, and
    shards of different dates have different starts. *)
Theorem apply_start_increasing self url1 url2 u1 r1 vars1 u2 r2 vars2 d1 d2 :
  0 < timestamps_per_file self ->
  apply self url1 = Ok (u1, r1, vars1) ->
  apply self url2 = Ok (u2, r2, vars2) ->
  shard_date self url1 = Ok d1 ->
  shard_date self url2 = Ok d2 ->
  (date_lt d1 d2 -> start r1 < start r2)
  /\ (d1 <> d2 -> start r1 <> start r2).
Proof.
  intros Htpf H1 H2 Hd1 Hd2.
  apply apply_region_start_aux in H1 as (d1' & e1 & Hd1' & He1 & Hs1).
  apply apply_region_start_aux in H2 as (d2' & e2 & Hd2' & He2 & Hs2).
  assert (d1' = d1) as -> by congruence.
  assert (d2' = d2) as -> by congruence.
  assert (e2 = e1) as -> by congruence.
  pose proof (shard_date_valid _ _ _ Hd1) as Hv1.
  pose proof (shard_date_valid _ _ _ Hd2) as Hv2.
  assert (Hlt : forall a b, valid_date a -> valid_date b -> date_lt a b ->
            (toordinal a - toordinal e1) * timestamps_per_file self
            < (toordinal b - toordinal e1) * timestamps_per_file self).
  { intros a b Ha Hb Hab. pose proof (toordinal_lt a b Ha Hb Hab). nia. }
  split.
  - intros Hab. rewrite Hs1, Hs2. auto.
  - intros Hne. rewrite Hs1, Hs2.
    destruct (Z.lt_trichotomy (toordinal d1) (toordinal d2))
      as [Hc | [Hc | Hc]].
    + apply toordinal_inj_lt in Hc; try assumption.
      specialize (Hlt d1 d2 Hv1 Hv2 Hc). lia.
    + exfalso. apply Hne. apply toordinal_inj; assumption.
    + apply toordinal_inj_lt in Hc; try assumption.
      specialize (Hlt d2 d1 Hv2 Hv1 Hc). lia.
Qed.
End GenerateOffsetClaims.

Section GenerateOffsetScenarios.
Import GenerateOffset Scenario.

Example february_lengths :
  gregorian_month_length 2024 2 = 29 /\ gregorian_month_length 2023 2 = 28
  /\ gregorian_month_length 1900 2 = 28 /\ gregorian_month_length 2000 2 = 29.
Proof. repeat split. Qed.

(** A file of February 2024 with 2 samples a day covers 58 positions, one
    of February 2023 covers 56. *)
Example apply_rad_2024_02 :
  apply monthly_2 url_rad_2024_02
  = Ok (url_rad_2024_02, mk_slice 90642 (90642 + 58), vars_rad).
Proof. vm_compute. reflexivity. Qed.

Example apply_rad_2023_02 :
  apply monthly_2 url_rad_2023_02
  = Ok (url_rad_2023_02, mk_slice 89912 (89912 + 56), vars_rad).
Proof. vm_compute. reflexivity. Qed.

(** From 1900-01-01 to 2023-09-01 there are 45168 days. *)
Example apply_sfc_2023_09_01 :
  apply daily_24 url_sfc_2023_09_01
  = Ok (url_sfc_2023_09_01, mk_slice (45168 * 24) (45168 * 24 + 24),
        vars_sfc)
  /\ toordinal (mk_datetime 2023 9 1) - toordinal (mk_datetime 1900 1 1)
     = 45168
  /\ Nat.iter (Z.to_nat 45168) tomorrow (mk_datetime 1900 1 1)
     = mk_datetime 2023 9 1.
Proof. repeat split; vm_compute; reflexivity. Qed.

(** The name of a monthly file has no day: read as a daily file it is
    refused, read as a monthly file it covers the 30 days of September. *)
Example apply_sfc_2023_09 :
  apply daily_24 url_sfc_2023_09
  = Raise (ValueError "time data does not match format")
  /\ apply monthly_24 url_sfc_2023_09
     = Ok (url_sfc_2023_09, mk_slice (45168 * 24) (45168 * 24 + 24 * 30),
           vars_sfc).
Proof. split; vm_compute; reflexivity. Qed.



(** No range is checked: the file of December 1899 is before the epoch
    1900-01-01, and [apply] returns the region [-744, 0). *)
Lemma apply_before_epoch_returns :
  shard_date monthly_24 url_sfc_1899_12 = Ok (mk_datetime 1899 12 1)
  /\ epoch monthly_24 = Ok (mk_datetime 1900 1 1)
  /\ date_lt (mk_datetime 1899 12 1) (mk_datetime 1900 1 1)
  /\ apply monthly_24 url_sfc_1899_12
     = Ok (url_sfc_1899_12, mk_slice (-744) 0, vars_sfc)
  /\ start (mk_slice (-744) 0) < 0.
Proof.
  split; [vm_compute; reflexivity | ].
  split; [vm_compute; reflexivity | ].
  split; [left; simpl; lia | ].
  split; [vm_compute; reflexivity | simpl; lia].
Qed.

Lemma apply_before_epoch_1899_12 :
  exists r,
    apply monthly_24 url_sfc_1899_12 = Ok (url_sfc_1899_12, r, vars_sfc)
    /\ start r
       = (toordinal (mk_datetime 1899 12 1)
          - toordinal (mk_datetime 1900 1 1))
         * timestamps_per_file monthly_24
    /\ start r < 0.
Proof.
  apply (apply_before_epoch monthly_24 url_sfc_1899_12 "189912" "sfc"
           (mk_datetime 1899 12 1) (mk_datetime 1900 1 1) vars_sfc).
  - vm_compute. reflexivity.
  - vm_compute. reflexivity.
  - vm_compute. reflexivity.
  - vm_compute. reflexivity.
  - left. simpl. lia.
  - simpl. lia.
Defined.

Lemma apply_unknown_chunk_nope :
  dict_getitem variable_dict "nope" = Raise (KeyError "nope")
  /\ (exists exc, apply monthly_24 url_unknown_2023_09 = Raise exc)
  /\ (forall u r vars, apply monthly_24 url_unknown_2023_09 <> Ok (u, r, vars))
  /\ (forall d e, shard_date monthly_24 url_unknown_2023_09 = Ok d ->
      epoch monthly_24 = Ok e ->
      apply monthly_24 url_unknown_2023_09 = Raise (KeyError "nope")).
Proof.
  apply (apply_unknown_chunk monthly_24 url_unknown_2023_09 "202309" "nope").
  - vm_compute. reflexivity.
  - vm_compute. reflexivity.
Defined.

Lemma apply_start_increasing_sep_oct :
  (date_lt (mk_datetime 2023 9 1) (mk_datetime 2023 10 1) ->
   start (mk_slice 1084032 1084752) < start (mk_slice 1084752 1085496))
  /\ (mk_datetime 2023 9 1 <> mk_datetime 2023 10 1 ->
      start (mk_slice 1084032 1084752) <> start (mk_slice 1084752 1085496)).
Proof.
  apply (apply_start_increasing monthly_24 url_sfc_2023_09 url_sfc_2023_10
           url_sfc_2023_09 (mk_slice 1084032 1084752) vars_sfc
           url_sfc_2023_10 (mk_slice 1084752 1085496) vars_sfc
           (mk_datetime 2023 9 1) (mk_datetime 2023 10 1)).
  - simpl. lia.
  - vm_compute. reflexivity.
  - vm_compute. reflexivity.
  - vm_compute. reflexivity.
  - vm_compute. reflexivity.
Defined.
End GenerateOffsetScenarios.

(** ** [copy] *)

Section CopyFacts.
Variable subprocess_run : world -> list string -> result unit.

Lemma copy_argv_eq src dst :
  (split_ws "gcloud alpha storage cp" ++ [src; dst]) = copy_argv src dst.
Proof. reflexivity. Qed.

(** [copy] hands one command to [subprocess.run], whatever comes of it. *)
Lemma copy_runs_once src dst w :
  commands (copy subprocess_run src dst w).1
  = (commands w ++ [copy_argv src dst]).
Proof.
  unfold copy. rewrite copy_argv_eq.
  destruct (subprocess_run w (copy_argv src dst)) as [u|e];
    [reflexivity | destruct e; reflexivity].
Qed.

Lemma copy_CalledProcessError src dst w rc :
  subprocess_run w (copy_argv src dst) = Raise (CalledProcessError rc) ->
  copy subprocess_run src dst w
  = (mk_world
       (commands w ++ [copy_argv src dst])
       (logged w ++ [error_failed_to_copy src dst (CalledProcessError rc)]),
     Ok tt).
Proof.
  intros Hrun. unfold copy. rewrite copy_argv_eq, Hrun. reflexivity.
Qed.

(** C4, as the code has it. When the transfer command exits with an error,
    [copy] has run it once and not again, writes one error record to the
    log, and returns as it does after a transfer that worked: it raises
    nothing. *)
Theorem copy_failure_is_logged src dst w rc :
  subprocess_run w (copy_argv src dst) = Raise (CalledProcessError rc) ->
  (copy subprocess_run src dst w).2 = Ok tt
  /\ commands (copy subprocess_run src dst w).1
     = (commands w ++ [copy_argv src dst])
  /\ logged (copy subprocess_run src dst w).1
     = (logged w
        ++ [error_failed_to_copy src dst (CalledProcessError rc)]).
Proof.
  intros Hrun. rewrite copy_CalledProcessError with (rc := rc) by assumption.
  repeat split.
Qed.

(** [opener] goes on to yield the temporary file after a failed copy. *)
Lemma opener_after_failure tmp_name fname w rc :
  (forall w', subprocess_run w' (copy_argv fname tmp_name)
              = Raise (CalledProcessError rc)) ->
  (opener subprocess_run tmp_name fname w).2 = Ok tmp_name.
Proof.
  intros Hrun. unfold opener.
  rewrite copy_CalledProcessError with (rc := rc) by apply Hrun.
  reflexivity.
Qed.
End CopyFacts.

Section CopyScenarios.
Import Scenario.

(** The transfer fails, and [copy] returns what it returns when the
    transfer works. *)
Lemma copy_failure_returns_normally :
  (copy transfer_fails "gs://bucket/202309_hres_sfc.grb2" "/tmp/tmp0.grb2"
     empty_world).2 = Ok tt
  /\ (copy transfer_succeeds "gs://bucket/202309_hres_sfc.grb2"
        "/tmp/tmp0.grb2" empty_world).2 = Ok tt.
Proof. split; reflexivity. Qed.

Lemma copy_failure_is_logged_status_1 :
  (copy transfer_fails "gs://bucket/202309_hres_sfc.grb2" "/tmp/tmp0.grb2"
     empty_world).2 = Ok tt
  /\ commands
       (copy transfer_fails "gs://bucket/202309_hres_sfc.grb2"
          "/tmp/tmp0.grb2" empty_world).1
     = (commands empty_world
        ++ [copy_argv "gs://bucket/202309_hres_sfc.grb2" "/tmp/tmp0.grb2"])
  /\ logged
       (copy transfer_fails "gs://bucket/202309_hres_sfc.grb2"
          "/tmp/tmp0.grb2" empty_world).1
     = (logged empty_world
        ++ [error_failed_to_copy "gs://bucket/202309_hres_sfc.grb2"
              "/tmp/tmp0.grb2" (CalledProcessError 1)]).
Proof.
  apply (copy_failure_is_logged transfer_fails
           "gs://bucket/202309_hres_sfc.grb2" "/tmp/tmp0.grb2" empty_world 1).
  reflexivity.
Defined.
End CopyScenarios.

(** ** The data availability loop *)

Section AvailabilityLoopFacts.
Import RawToZarrToBq.





End AvailabilityLoopFacts.

Section AvailabilityLoopScenarios.
Import RawToZarrToBq Scenario.


End AvailabilityLoopScenarios.

(** ** [UpdateSlice.apply] *)

Lemma adjust_index_bounds i len :
  0 <= len -> 0 <= adjust_index i len <= len.
Proof. unfold adjust_index. intros Hlen. repeat case_match; lia. Qed.

Lemma adjust_index_nonneg i len :
  0 <= i -> 0 <= len -> adjust_index i len = Z.min i len.
Proof. unfold adjust_index. intros Hi Hlen. repeat case_match; lia. Qed.

Section UpdateSliceFacts.
Import UpdateSlice.
Context {V : Type}.
Implicit Types (arr value : list V) (zf ds : gmap string (list V)).

Lemma selection_bounds region len lo n :
  selection region len = (lo, n) -> (lo + n <= len)%nat.
Proof.
  unfold selection, slice_indices. intros [= <- <-].
  pose proof (adjust_index_bounds (start region) (Z.of_nat len)) as H1.
  pose proof (adjust_index_bounds (stop region) (Z.of_nat len)) as H2.
  case_match; lia.
Qed.


(** What [setitem] does, in positions. *)
Lemma setitem_Ok_inv arr region value arr' :
  setitem arr region value = Ok arr' ->
  exists lo n,
    selection region (length arr) = (lo, n)
    /\ length value = n
    /\ arr' = take lo arr ++ value ++ drop (lo + n) arr.
Proof.
  unfold setitem, selection.
  pose proof (adjust_index_bounds (start region) (Z.of_nat (length arr)))
    as H1.
  pose proof (adjust_index_bounds (stop region) (Z.of_nat (length arr)))
    as H2.
  destruct (slice_indices region (Z.of_nat (length arr))) as [lo hi] eqn:Hsel.
  unfold slice_indices in Hsel. injection Hsel as <- <-.
  set (lo := adjust_index (start region) _) in *.
  set (hi := adjust_index (stop region) _) in *.
  case_match eqn:Hlen; [ | discriminate]. intros [= <-].
  apply Z.eqb_eq in Hlen.
  eexists _, _. split; [reflexivity | ]. split; [case_match; lia | ].
  do 3 f_equal. case_match; lia.
Qed.

Lemma setitem_Ok_intro arr region value lo n :
  selection region (length arr) = (lo, n) ->
  length value = n ->
  setitem arr region value = Ok (take lo arr ++ value ++ drop (lo + n) arr).
Proof.
  unfold setitem, selection.
  pose proof (adjust_index_bounds (start region) (Z.of_nat (length arr)))
    as H1.
  pose proof (adjust_index_bounds (stop region) (Z.of_nat (length arr)))
    as H2.
  destruct (slice_indices region (Z.of_nat (length arr))) as [lo' hi] eqn:Hsel.
  unfold slice_indices in Hsel. injection Hsel as <- <-.
  intros [= <- <-] Hlen.
  set (lo := adjust_index (start region) _) in *.
  set (hi := adjust_index (stop region) _) in *.
  destruct (lo <? hi) eqn:Hlt.
  - replace (Z.of_nat (length value) =? hi - lo) with true
      by (symmetry; apply Z.eqb_eq; lia).
    do 4 f_equal. lia.
  - replace (Z.of_nat (length value) =? 0) with true
      by (symmetry; apply Z.eqb_eq; lia).
    do 4 f_equal. lia.
Qed.

Lemma setitem_length arr region value arr' :
  setitem arr region value = Ok arr' -> length arr' = length arr.
Proof.
  intros H. apply setitem_Ok_inv in H as (lo & n & Hsel & Hlen & ->).
  apply selection_bounds in Hsel.
  rewrite !length_app, length_take, length_drop. lia.
Qed.

(** Writing the same value into the same region again changes nothing. *)
Lemma setitem_idempotent arr region value arr' :
  setitem arr region value = Ok arr' -> setitem arr' region value = Ok arr'.
Proof.
  intros H. pose proof (setitem_length _ _ _ _ H) as Hlen.
  apply setitem_Ok_inv in H as (lo & n & Hsel & Hv & ->).
  pose proof (selection_bounds _ _ _ _ Hsel) as Hb.
  rewrite <- Hlen in Hsel.
  rewrite (setitem_Ok_intro _ _ _ lo n Hsel Hv). f_equal.
  assert (Hlo : length (take lo arr) = lo) by (rewrite length_take; lia).
  f_equal.
  - rewrite take_app_le by lia. rewrite take_take. f_equal. lia.
  - f_equal. rewrite drop_app_ge by lia. rewrite Hlo.
    rewrite drop_app_ge by lia. rewrite drop_drop. f_equal. lia.
Qed.

(** After the write the region reads as the value written, and the
    positions the region does not select are as before. *)
Lemma setitem_getslice arr region value arr' :
  setitem arr region value = Ok arr' -> getslice arr' region = value.
Proof.
  intros H. pose proof (setitem_length _ _ _ _ H) as Hlen.
  apply setitem_Ok_inv in H as (lo & n & Hsel & Hv & ->).
  pose proof (selection_bounds _ _ _ _ Hsel) as Hb.
  unfold getslice. rewrite Hlen, Hsel.
  assert (Hlo : length (take lo arr) = lo) by (rewrite length_take; lia).
  rewrite drop_app_ge by lia. rewrite Hlo, Nat.sub_diag, drop_0.
  rewrite <- Hv. apply take_app_length.
Qed.

Lemma setitem_frame arr region value arr' lo n (i : nat) :
  setitem arr region value = Ok arr' ->
  selection region (length arr) = (lo, n) ->
  ~ (lo <= i < lo + n)%nat ->
  arr' !! i = arr !! i.
Proof.
  intros H Hsel Hi.
  apply setitem_Ok_inv in H as (lo' & n' & Hsel' & Hv & ->).
  rewrite Hsel in Hsel'. injection Hsel' as <- <-.
  pose proof (selection_bounds _ _ _ _ Hsel) as Hb.
  assert (Hlo : length (take lo arr) = lo) by (rewrite length_take; lia).
  destruct (decide (i < lo)%nat) as [Hlt | Hge].
  - rewrite lookup_app_l by lia. apply lookup_take_lt. assumption.
  - rewrite lookup_app_r by lia. rewrite lookup_app_r by lia.
    rewrite lookup_drop. f_equal. lia.
Qed.
End UpdateSliceFacts.

Section UpdateSliceLoop.
Import UpdateSlice.
Context {V : Type}.
Implicit Types (arr value : list V) (zf ds : gmap string (list V)).

(** One step of the loop that succeeds. *)
Lemma for_vars_cons_Ok ds region vname vars zf zv value zv' :
  zf !! vname = Some zv -> ds !! vname = Some value ->
  setitem zv region value = Ok zv' ->
  for_vars ds region (vname :: vars) zf
  = for_vars ds region vars (<[vname := zv']> zf).
Proof.
  intros Hzv Hvalue Hset. simpl. unfold dict_getitem.
  rewrite Hzv, Hvalue, Hset. reflexivity.
Qed.

(** The step of the loop, by cases. *)
Lemma for_vars_cons_cases ds region vname vars zf :
  (exists exc, for_vars ds region (vname :: vars) zf = (zf, Raise exc))
  \/ (exists zv value zv',
        zf !! vname = Some zv /\ ds !! vname = Some value
        /\ setitem zv region value = Ok zv').
Proof.
  simpl. unfold dict_getitem.
  destruct (zf !! vname) as [zv|]; [ | eauto].
  destruct (ds !! vname) as [value|]; [ | eauto].
  destruct (setitem zv region value) as [zv'|exc] eqn:Hset; [ | eauto].
  right. eauto 10.
Qed.

(** An array that already holds the value of its variable in the region is
    left as it is by the loop. *)
Lemma for_vars_settled ds region vars :
  forall zf zf' res x a value,
    for_vars ds region vars zf = (zf', res) ->
    zf !! x = Some a -> ds !! x = Some value ->
    setitem a region value = Ok a ->
    zf' !! x = Some a.
Proof.
  induction vars as [|v vars IH]; intros zf zf' res x a value Hrun Ha Hv Hset.
  - injection Hrun as <- _. assumption.
  - destruct (for_vars_cons_cases ds region v vars zf)
      as [[exc Hfail] | (zv & value' & zv' & Hzv & Hvalue & Hset')].
    + rewrite Hfail in Hrun. injection Hrun as <- _. assumption.
    + rewrite (for_vars_cons_Ok _ _ _ _ _ _ _ _ Hzv Hvalue Hset') in Hrun.
      eapply IH; [exact Hrun | | exact Hv | exact Hset].
      destruct (decide (v = x)) as [-> | Hne].
      * rewrite lookup_insert_eq. congruence.
      * rewrite lookup_insert_ne by assumption. assumption.
Qed.


(** The loop keeps the variables of the group and the lengths of their
    arrays, changes no position that the region does not select, and no
    array of a variable that is not in its list. *)
Lemma for_vars_frame ds region vars :
  forall zf zf' res x,
    for_vars ds region vars zf = (zf', res) ->
    match zf !! x with
    | None => zf' !! x = None
    | Some a =>
        exists a',
          zf' !! x = Some a' /\ length a' = length a
          /\ (forall lo n (i : nat),
                selection region (length a) = (lo, n) ->
                ~ (lo <= i < lo + n)%nat -> a' !! i = a !! i)
          /\ (x ∉ vars -> a' = a)
    end.
Proof.
  induction vars as [|v vars IH]; intros zf zf' res x Hrun.
  - injection Hrun as <- _. destruct (zf !! x) as [a|]; [ | reflexivity].
    exists a. auto.
  - destruct (for_vars_cons_cases ds region v vars zf)
      as [[exc Hfail] | (zv & value & zv' & Hzv & Hvalue & Hset)].
    + rewrite Hfail in Hrun. injection Hrun as <- _.
      destruct (zf !! x) as [a|]; [ | reflexivity]. exists a. auto.
    + rewrite (for_vars_cons_Ok _ _ _ _ _ _ _ _ Hzv Hvalue Hset) in Hrun.
      specialize (IH _ _ _ x Hrun).
      destruct (decide (v = x)) as [-> | Hne].
      * rewrite lookup_insert_eq in IH. rewrite Hzv.
        destruct IH as (a' & Ha' & Hlen & Hframe & _).
        pose proof (setitem_length _ _ _ _ Hset) as Hlen'.
        exists a'. split; [assumption | ]. split; [congruence | ].
        split.
        -- intros lo n i Hsel Hi. rewrite (Hframe lo n i) by congruence.
           eapply setitem_frame; eassumption.
        -- intros Hnot. exfalso. apply Hnot. left.
      * rewrite lookup_insert_ne in IH by assumption.
        destruct (zf !! x) as [a|]; [ | assumption].
        destruct IH as (a' & Ha' & Hlen & Hframe & Hsame).
        exists a'. repeat split; try assumption.
        intros Hnot. apply Hsame. intros Hin. apply Hnot. right. assumption.
Qed.

(** When the loop ends normally, the region of the array of each variable
    of the list reads as the decoded value of that variable. *)
Lemma for_vars_written ds region vars :
  forall zf zf' u x,
    for_vars ds region vars zf = (zf', Ok u) ->
    x ∈ vars ->
    exists a' value,
      zf' !! x = Some a' /\ ds !! x = Some value
      /\ getslice a' region = value.
Proof.
  induction vars as [|v vars IH]; intros zf zf' u x Hrun Hin.
  - apply not_elem_of_nil in Hin. contradiction.
  - destruct (for_vars_cons_cases ds region v vars zf)
      as [[exc Hfail] | (zv & value & zv' & Hzv & Hvalue & Hset)].
    + rewrite Hfail in Hrun. discriminate.
    + rewrite (for_vars_cons_Ok _ _ _ _ _ _ _ _ Hzv Hvalue Hset) in Hrun.
      destruct (decide (x = v)) as [-> | Hne].
      * exists zv', value. split; [ | split; [assumption | ]].
        -- eapply for_vars_settled;
             [exact Hrun | apply lookup_insert_eq | exact Hvalue | ].
           eapply setitem_idempotent, Hset.
        -- eapply setitem_getslice, Hset.
      * apply elem_of_cons in Hin as [-> | Hin]; [contradiction | ].
        eapply IH; eassumption.
Qed.
End UpdateSliceLoop.

Section UpdateSliceScenarios.
Import UpdateSlice Scenario.

(** The worked store: positions 1 and 2 of both arrays are written, and a
    second run changes nothing. *)
Example apply_dve :
  apply decoded_dve target_wind shard_dve store_dve
  = (store_dve_written, Ok tt)
  /\ apply decoded_dve target_wind shard_dve store_dve_written
     = (store_dve_written, Ok tt).
Proof. split; vm_compute; reflexivity. Qed.
End UpdateSliceScenarios.

(** ** Strings *)

Lemma str_app_cons c (a b : string) : String c a +:+ b = String c (a +:+ b).
Proof. reflexivity. Qed.

Lemma str_app_assoc (a b c : string) : a +:+ (b +:+ c) = (a +:+ b) +:+ c.
Proof.
  induction a as [|x a IH]; [reflexivity | ].
  rewrite !str_app_cons. f_equal. exact IH.
Qed.

Lemma str_app_nil_r (a : string) : a +:+ EmptyString = a.
Proof.
  induction a as [|x a IH]; [reflexivity | ].
  rewrite str_app_cons. f_equal. exact IH.
Qed.

Lemma has_char_app c (a b : string) :
  has_char c (a +:+ b) = has_char c a || has_char c b.
Proof.
  induction a as [|x a IH]; [reflexivity | ].
  rewrite str_app_cons. cbn [has_char].
  destruct (Ascii.eqb c x); [reflexivity | assumption].
Qed.

Lemma rpartition_None sep s : has_char sep s = false -> rpartition sep s = None.
Proof.
  induction s as [|c s IH]; simpl; [reflexivity | ].
  destruct (Ascii.eqb sep c) eqn:Hc; [discriminate | ].
  intros H. rewrite IH by assumption.
  rewrite Ascii.eqb_sym, Hc. reflexivity.
Qed.

(** The last separator of [a sep b] is the one shown when [b] has none. *)
Lemma rpartition_app_sep sep (a b : string) :
  has_char sep b = false ->
  rpartition sep (a +:+ String sep b) = Some (a, b).
Proof.
  intros Hb. induction a as [|c a IH].
  - change (EmptyString +:+ String sep b) with (String sep b).
    cbn [rpartition]. rewrite rpartition_None by assumption.
    rewrite Ascii.eqb_refl. reflexivity.
  - rewrite str_app_cons. cbn [rpartition]. rewrite IH. reflexivity.
Qed.

(** A separator in [b] is the last one of [a b] too. *)
Lemma rpartition_app_r sep (a b b1 b2 : string) :
  rpartition sep b = Some (b1, b2) ->
  rpartition sep (a +:+ b) = Some (a +:+ b1, b2).
Proof.
  intros Hb. induction a as [|c a IH]; [assumption | ].
  rewrite !str_app_cons. cbn [rpartition]. rewrite IH. reflexivity.
Qed.

(** No separator that starts with [c0] is found within a string that has
    no [c0]: its pieces are those of what follows, the first one longer. *)
Lemma split_go_clean_prefix c0 sep (a s : string) :
  has_char c0 a = false ->
  split_go (String c0 sep) 0 (a +:+ s)
  = match split_go (String c0 sep) 0 s with
    | piece :: pieces => (a +:+ piece) :: pieces
    | [] => [a]
    end.
Proof.
  intros Ha. induction a as [|c a IH].
  - change (EmptyString +:+ s) with s.
    destruct (split_go (String c0 sep) 0 s) as [|piece pieces] eqn:Hs;
      [ | reflexivity].
    exfalso. destruct s as [|c s]; cbn [split_go] in Hs; [discriminate | ].
    repeat case_match; discriminate.
  - cbn [has_char] in Ha. destruct (Ascii.eqb c0 c) eqn:Hc; [discriminate | ].
    rewrite !str_app_cons.
    cbn [split_go]. cbn [String.prefix].
    destruct (ascii_dec c0 c) as [-> | Hne];
      [rewrite Ascii.eqb_refl in Hc; discriminate | ].
    rewrite IH by assumption.
    destruct (split_go (String c0 sep) 0 s); reflexivity.
Qed.

(** ** Facts decided by evaluation *)

Lemma forallb_seqZ (f : Z -> bool) (lo len : Z) :
  forallb f (seqZ lo len) = true ->
  forall k, lo <= k < lo + len -> f k = true.
Proof.
  intros Hall k Hk. rewrite forallb_forall in Hall. apply Hall.
  apply list_elem_of_In, elem_of_seqZ. assumption.
Qed.

Lemma forallb_keys {A} (f : string -> bool) (d : gmap string A) :
  forallb (fun kv => f kv.1) (map_to_list d) = true ->
  forall key v, d !! key = Some v -> f key = true.
Proof.
  intros Hall key v Hkey. rewrite forallb_forall in Hall.
  apply (Hall (key, v)). apply list_elem_of_In, elem_of_map_to_list.
  assumption.
Qed.

Lemma year_ok_all y : 1 <= y <= 9999 -> Check.year_ok y = true.
Proof.
  intros Hy. apply (forallb_seqZ Check.year_ok 1 9999); [ | lia].
  vm_compute. reflexivity.
Qed.

Lemma tail_ok_all chunk vars :
  variable_dict !! chunk = Some vars -> Check.tail_ok chunk = true.
Proof.
  apply (forallb_keys Check.tail_ok). vm_compute. reflexivity.
Qed.

Lemma forallb_items {A} (f : string -> A -> bool) (d : gmap string A) :
  forallb (fun kv => f kv.1 kv.2) (map_to_list d) = true ->
  forall key v, d !! key = Some v -> f key v = true.
Proof.
  intros Hall key v Hkey. rewrite forallb_forall in Hall.
  apply (Hall (key, v)). apply list_elem_of_In, elem_of_map_to_list.
  assumption.
Qed.

Lemma chunk_ok_all group chunks chunk :
  IngestDataInZarr.CO_FILES_MAPPING !! group = Some chunks ->
  chunk ∈ chunks -> Check.chunk_ok chunk = true.
Proof.
  intros Hgroup Hin.
  assert (Hall : forallb Check.chunk_ok chunks = true).
  { revert Hgroup.
    apply (forallb_items (fun _ cs => forallb Check.chunk_ok cs)).
    vm_compute. reflexivity. }
  rewrite forallb_forall in Hall. apply Hall, list_elem_of_In. assumption.
Qed.

(** ** The path of a shard and its way back *)

Section PathRoundTrip.
Import GenerateOffset SingleLevelsToZarr.

Lemma alts_Y_app (s rest : string) v :
  alts_Y s = [(v, EmptyString)] -> alts_Y (s +:+ rest) = [(v, rest)].
Proof.
  destruct s as [|a [|b [|c [|d s]]]]; try discriminate.
  rewrite !str_app_cons. cbn [alts_Y].
  destruct (digit_of a), (digit_of b), (digit_of c), (digit_of d);
    try discriminate.
  intros [= <- ->]. reflexivity.
Qed.

Lemma re_match_Y fmt acc s :
  re_match (dir_Y :: fmt) acc s
  = first_match
      (fun vr => re_match fmt (mk_found (Some vr.1) (fm acc) (fd acc)) vr.2)
      (alts_Y s).
Proof. reflexivity. Qed.

Lemma re_match_month_day m acc :
  1 <= m <= 12 ->
  re_match [dir_m; dir_d] acc (format_0d 2 m +:+ "01")
  = Some (mk_found (fY acc) (Some m) (Some 1), EmptyString).
Proof. intros Hm. month_cases m; reflexivity. Qed.

Lemma month_clean m :
  1 <= m <= 12 ->
  has_char "/" (format_0d 2 m) = false /\ has_char "_" (format_0d 2 m) = false.
Proof. intros Hm. month_cases m; split; reflexivity. Qed.

(** The date text of a monthly file, with ["01"] after it, converts to the
    first day of the month. *)
Lemma strptime_monthly y m :
  1 <= y <= 9999 -> 1 <= m <= 12 ->
  strptime ((format_0d 4 y +:+ format_0d 2 m) +:+ "01") fmt_Ymd
  = Ok (mk_datetime y m 1).
Proof.
  intros Hy Hm. pose proof (year_ok_all y Hy) as Hok.
  unfold Check.year_ok in Hok.
  apply andb_true_iff in Hok as [_ Hdigits].
  apply bool_decide_eq_true in Hdigits.
  unfold strptime, fmt_Ymd.
  rewrite <- !str_app_assoc, re_match_Y.
  rewrite (alts_Y_app _ _ _ Hdigits). cbn [first_match fst snd].
  rewrite re_match_month_day by assumption.
  cbn [fY fm fd default from_option].
  apply datetime_new_valid. unfold valid_date. cbn [year month day].
  pose proof (days_in_month_bounds y m Hm). lia.
Qed.

(** [make_path] puts its prefix, the year, a slash, the year and the month,
    ["_hres_"] and the tail of the chunk one after the other. *)
Lemma make_path_shape time chunk :
  make_path time chunk =
  (tl ← file_tail chunk;
   Ok (path_prefix +:+ format_0d 4 (year time) +:+ "/"
       +:+ format_0d 4 (year time) +:+ format_0d 2 (month time)
       +:+ "_hres_" +:+ tl)).
Proof.
  unfold make_path, file_tail, path_prefix.
  destruct (str_in "_" chunk); [ | reflexivity].
  destruct (split chunk "_") as [parts|]; [run_bind | reflexivity].
  destruct (unpack3 parts) as [[[chunk_ level] var]|]; reflexivity.
Qed.

(** Lines 88-91 of [apply] on a path of this shape, for a tail that passes
    the check. *)
Lemma shard_name_of_path (dir date tl chunk : string) :
  has_char "/" date = false -> has_char "_" date = false ->
  file_tail chunk = Ok tl -> Check.tail_ok chunk = true ->
  shard_name (dir +:+ "/" +:+ date +:+ "_hres_" +:+ tl) = Ok (date, chunk).
Proof.
  intros Hslash Hunder Htl Hok. unfold Check.tail_ok in Hok.
  rewrite Htl in Hok. apply andb_true_iff in Hok as [Hslash' Hok].
  apply negb_true_iff in Hslash'.
  destruct (rpartition "." ("_hres_" +:+ tl)) as [[before ext]|] eqn:Hdot;
    [ | discriminate].
  destruct (split_go "_hres_" 0 before) as [|d0 [|stem [|? ?]]] eqn:Hsplit;
    try discriminate.
  apply andb_true_iff in Hok as [Hd0 Hkey].
  apply String.eqb_eq in Hd0, Hkey. subst d0.
  unfold shard_name, rsplit1.
  change ("/" +:+ date +:+ "_hres_" +:+ tl)
    with (String "/" (date +:+ "_hres_" +:+ tl)).
  rewrite rpartition_app_sep
    by (rewrite has_char_app, Hslash; cbn [orb];
        change ("_hres_" +:+ tl) with (String "_" ("hres_" +:+ tl));
        cbn [has_char]; exact Hslash').
  cbn [getitem lookup list_lookup]. run_bind.
  rewrite (rpartition_app_r _ _ _ _ _ Hdot).
  cbn [getitem lookup list_lookup]. run_bind.
  unfold split.
  rewrite (split_go_clean_prefix "_" "hres_" date before Hunder).
  rewrite Hsplit, str_app_nil_r. cbn [unpack2].
  unfold chunk_key in Hkey. rewrite Hkey. reflexivity.
Qed.
End PathRoundTrip.

Section CatalogClaims.
Import GenerateOffset SingleLevelsToZarr IngestDataInZarr.

(** C7. For every chunk key of [variable_dict] and every month,
    [make_path] gives a path, and the steps of [GenerateOffset.apply] read
    the date text and exactly that chunk key back from it; for a
    single-level shard the date is the first day of that month, and
    [apply] returns with the variables the catalog has under that key. *)
Theorem make_path_round_trip time chunk :
  valid_date time ->
  is_Some (variable_dict !! chunk) ->
  exists url,
    make_path time chunk = Ok url
    /\ shard_name url
       = Ok (format_0d 4 (year time) +:+ format_0d 2 (month time), chunk)
    /\ forall self,
         is_single_level self = true ->
         shard_date self url = Ok (mk_datetime (year time) (month time) 1)
         /\ forall e vars,
              epoch self = Ok e ->
              variable_dict !! chunk = Some vars ->
              apply self url
              = Ok (url,
                    region_of self (mk_datetime (year time) (month time) 1) e,
                    vars).
Proof.
  intros (Hy & Hm & _) [vars0 Hvars0].
  pose proof (tail_ok_all _ _ Hvars0) as Hok.
  destruct (file_tail chunk) as [tl|exc] eqn:Htl;
    [ | unfold Check.tail_ok in Hok; rewrite Htl in Hok; discriminate].
  pose proof (year_ok_all _ Hy) as Hyear. unfold Check.year_ok in Hyear.
  apply andb_true_iff in Hyear as [Hyear _].
  apply andb_true_iff in Hyear as [Hy1 Hy2].
  apply negb_true_iff in Hy1, Hy2.
  destruct (month_clean _ Hm) as [Hm1 Hm2].
  set (Y := format_0d 4 (year time)) in *.
  set (M := format_0d 2 (month time)) in *.
  exists ((path_prefix +:+ Y) +:+ "/" +:+ (Y +:+ M) +:+ "_hres_" +:+ tl).
  assert (Hname : shard_name
                    ((path_prefix +:+ Y) +:+ "/" +:+ (Y +:+ M)
                     +:+ "_hres_" +:+ tl) = Ok (Y +:+ M, chunk)).
  { apply shard_name_of_path; try assumption.
    - rewrite has_char_app, Hy1, Hm1. reflexivity.
    - rewrite has_char_app, Hy2, Hm2. reflexivity. }
  split; [ | split; [exact Hname | ]].
  - rewrite make_path_shape, Htl. run_bind. f_equal.
    rewrite <- !str_app_assoc. reflexivity.
  - intros self Hsingle.
    assert (Hdate : shard_date self
                      ((path_prefix +:+ Y) +:+ "/" +:+ (Y +:+ M)
                       +:+ "_hres_" +:+ tl)
                    = Ok (mk_datetime (year time) (month time) 1)).
    { unfold shard_date. rewrite Hname. run_bind. rewrite Hsingle.
      apply strptime_monthly; assumption. }
    split; [exact Hdate | ].
    intros e vars He Hvars. eapply apply_Ok_intro; eassumption.
Qed.

(** C10. Every chunk name in a group of [CO_FILES_MAPPING] is a key of
    [variable_dict], whose variables are some and without repetition; so
    for a shard of that chunk the lookup at the end of
    [GenerateOffset.apply] succeeds, and [apply] returns those variables
    once the file name has parsed and the dates have converted. *)
Theorem mapping_chunks_in_catalog group chunks chunk :
  CO_FILES_MAPPING !! group = Some chunks ->
  chunk ∈ chunks ->
  exists vars,
    variable_dict !! chunk = Some vars
    /\ dict_getitem variable_dict chunk = Ok vars
    /\ vars <> [] /\ NoDup vars
    /\ forall self url int_date d e,
         shard_name url = Ok (int_date, chunk) ->
         shard_date self url = Ok d ->
         epoch self = Ok e ->
         apply self url = Ok (url, region_of self d e, vars).
Proof.
  intros Hgroup Hin.
  pose proof (chunk_ok_all _ _ _ Hgroup Hin) as Hok.
  unfold Check.chunk_ok in Hok.
  destruct (variable_dict !! chunk) as [vars|] eqn:Hvars; [ | discriminate].
  apply bool_decide_eq_true in Hok as [Hne Hnodup].
  exists vars. split; [reflexivity | ].
  split; [apply dict_getitem_Ok; assumption | ].
  split; [assumption | ]. split; [assumption | ].
  intros self url int_date d e Hname Hdate He.
  eapply apply_Ok_intro; eassumption.
Qed.
End CatalogClaims.

Section CatalogScenarios.
Import GenerateOffset SingleLevelsToZarr IngestDataInZarr Scenario.

(** The example of the docstring of [make_path], and a chunk that was
    split by variable. *)
Example make_path_dve :
  make_path (mk_datetime 2023 9 11) "dve"
  = Ok "gs://gcp-public-data-arco-era5/raw/ERA5GRIB/HRES/Month/2023/202309_hres_dve.grb2".
Proof. vm_compute. reflexivity. Qed.

Example make_path_soil :
  make_path (mk_datetime 2023 9 11) "soil_depthBelowLandLayer_istl1"
  = Ok "gs://gcp-public-data-arco-era5/raw/ERA5GRIB/HRES/Month/2023/202309_hres_soil.grb2_depthBelowLandLayer_istl1.grib"
  /\ shard_name
       "gs://gcp-public-data-arco-era5/raw/ERA5GRIB/HRES/Month/2023/202309_hres_soil.grb2_depthBelowLandLayer_istl1.grib"
     = Ok ("202309", "soil_depthBelowLandLayer_istl1").
Proof. split; vm_compute; reflexivity. Qed.

Lemma make_path_round_trip_soil :
  exists url,
    make_path (mk_datetime 2023 9 11) "soil_depthBelowLandLayer_istl1" = Ok url
    /\ shard_name url
       = Ok (format_0d 4 2023 +:+ format_0d 2 9,
             "soil_depthBelowLandLayer_istl1")
    /\ forall self,
         is_single_level self = true ->
         shard_date self url = Ok (mk_datetime 2023 9 1)
         /\ forall e vars,
              epoch self = Ok e ->
              variable_dict !! "soil_depthBelowLandLayer_istl1" = Some vars ->
              apply self url
              = Ok (url, region_of self (mk_datetime 2023 9 1) e, vars).
Proof.
  apply (make_path_round_trip (mk_datetime 2023 9 11)
           "soil_depthBelowLandLayer_istl1").
  - unfold valid_date. vm_compute. repeat split; discriminate.
  - exists ["istl1"]. vm_compute. reflexivity.
Defined.

Lemma mapping_chunks_in_catalog_zs :
  exists vars,
    variable_dict !! "zs" = Some vars
    /\ dict_getitem variable_dict "zs" = Ok vars
    /\ vars <> [] /\ NoDup vars
    /\ forall self url int_date d e,
         shard_name url = Ok (int_date, "zs") ->
         shard_date self url = Ok d ->
         epoch self = Ok e ->
         apply self url = Ok (url, region_of self d e, vars).
Proof.
  apply (mapping_chunks_in_catalog "single-level-surface" ["lnsp"; "zs"] "zs").
  - vm_compute. reflexivity.
  - apply list_elem_of_further, list_elem_of_here.
Defined.
End CatalogScenarios.

(** ** More on [GenerateOffset.apply] *)

Section SingleLevelDates.
Import GenerateOffset Notion.

Lemma first_match_Some {A B} (f : A -> option B) (l : list A) (y : B) :
  first_match f l = Some y -> exists x, x ∈ l /\ f x = Some y.
Proof.
  induction l as [|x l IH]; [discriminate | ]. cbn [first_match].
  destruct (f x) as [y'|] eqn:Hx.
  - intros [= <-]. exists x. split; [left | assumption].
  - intros H. destruct (IH H) as (x' & Hin & Hx'). exists x'.
    split; [right | ]; assumption.
Qed.

Lemma tail_of_01_tail c s : tail_of_01 (String c s) -> tail_of_01 s.
Proof.
  intros [[u Hu] | [H | H]]; [ | injection H as _ ->; right; right; reflexivity
                             | discriminate].
  destruct u as [|c' u].
  - injection Hu as _ ->. right. left. reflexivity.
  - rewrite str_app_cons in Hu. injection Hu as _ ->. left. eauto.
Qed.

Lemma alt1_rest lo hi s v r : (v, r) ∈ alt1 lo hi s -> exists c, s = String c r.
Proof.
  unfold alt1. destruct s as [|a rest]; [intros H; inversion H | ].
  destruct (digit_of a); [ | intros H; inversion H].
  case_match; intros Hin; [ | inversion Hin].
  apply list_elem_of_singleton in Hin. injection Hin as _ <-. eauto.
Qed.

Lemma alt2_rest lo1 hi1 lo2 hi2 s v r :
  (v, r) ∈ alt2 lo1 hi1 lo2 hi2 s -> exists a b, s = String a (String b r).
Proof.
  unfold alt2. destruct s as [|a [|b rest]]; try (intros H; inversion H; fail).
  destruct (digit_of a), (digit_of b); try (intros H; inversion H; fail).
  case_match; intros Hin; [ | inversion Hin].
  apply list_elem_of_singleton in Hin. injection Hin as _ <-. eauto.
Qed.

Lemma alts_Y_rest s v r :
  (v, r) ∈ alts_Y s -> exists a b c d, s = String a (String b (String c (String d r))).
Proof.
  unfold alts_Y.
  destruct s as [|a [|b [|c [|d rest]]]]; try (intros H; inversion H; fail).
  destruct (digit_of a), (digit_of b), (digit_of c), (digit_of d);
    try (intros H; inversion H; fail).
  intros H. apply list_elem_of_singleton in H. injection H as _ <-. eauto 6.
Qed.

Lemma alts_Y_tail s v r : (v, r) ∈ alts_Y s -> tail_of_01 s -> tail_of_01 r.
Proof.
  intros H Hs. apply alts_Y_rest in H as (a & b & c & d & ->).
  do 4 apply tail_of_01_tail in Hs. assumption.
Qed.

Lemma alts_m_tail s v r : (v, r) ∈ alts_m s -> tail_of_01 s -> tail_of_01 r.
Proof.
  unfold alts_m. rewrite !elem_of_app. intros [H | [H | H]] Hs.
  - apply alt2_rest in H as (a & b & ->).
    do 2 apply tail_of_01_tail in Hs. assumption.
  - apply alt2_rest in H as (a & b & ->).
    do 2 apply tail_of_01_tail in Hs. assumption.
  - apply alt1_rest in H as (a & ->). apply tail_of_01_tail in Hs. assumption.
Qed.

(** A day that is matched up to the end of a string ending in ["01"] is the
    day 1. *)
Lemma alts_d_end s v : (v, EmptyString) ∈ alts_d s -> tail_of_01 s -> v = 1.
Proof.
  intros H [[u ->] | [-> | ->]].
  - destruct u as [|a [|b u]].
    + vm_compute in H. apply list_elem_of_singleton in H. congruence.
    + exfalso. change (String a "" +:+ "01") with (String a "01") in H.
      unfold alts_d in H. rewrite !elem_of_app in H.
      destruct H as [H | [H | [H | [H | H]]]].
      * apply alt2_rest in H as (? & ? & [=]).
      * apply alt2_rest in H as (? & ? & [=]).
      * apply alt2_rest in H as (? & ? & [=]).
      * apply alt1_rest in H as (? & [=]).
      * unfold alt_space1 in H. repeat case_match;
          try (inversion H; fail); apply alt1_rest in H as (? & [=]).
    + exfalso. rewrite !str_app_cons in H.
      unfold alts_d in H. rewrite !elem_of_app in H.
      destruct H as [H | [H | [H | [H | H]]]].
      * apply alt2_rest in H as (? & ? & [= _ _ Hu]).
        destruct u; discriminate.
      * apply alt2_rest in H as (? & ? & [= _ _ Hu]).
        destruct u; discriminate.
      * apply alt2_rest in H as (? & ? & [= _ _ Hu]).
        destruct u; discriminate.
      * apply alt1_rest in H as (? & [=]).
      * unfold alt_space1 in H. repeat case_match;
          try (inversion H; fail); apply alt1_rest in H as (? & [= _ Hu]);
          destruct u; discriminate.
  - vm_compute in H. apply list_elem_of_singleton in H. congruence.
  - inversion H.
Qed.

(** Whatever the text, with ["01"] after it [strptime] finds the day 1. *)
Lemma strptime_01_day (s : string) d :
  strptime (s +:+ "01") fmt_Ymd = Ok d -> day d = 1.
Proof.
  unfold strptime, fmt_Ymd.
  destruct (re_match _ _ _) as [[f rest]|] eqn:Hmatch; [ | discriminate].
  destruct rest; [ | discriminate]. intros Hnew.
  apply datetime_new_Ok in Hnew as [-> _]. cbn [day].
  rewrite re_match_Y in Hmatch.
  apply first_match_Some in Hmatch as ([y r1] & HinY & Hmatch).
  cbn [fst snd re_match] in Hmatch.
  apply first_match_Some in Hmatch as ([m r2] & Hinm & Hmatch).
  cbn [fst snd] in Hmatch.
  apply first_match_Some in Hmatch as ([dd r3] & Hind & Hmatch).
  cbn [fst snd] in Hmatch. injection Hmatch as <- ->. cbn [fd default].
  assert (Hs : tail_of_01 (s +:+ "01")) by (left; eauto).
  apply (alts_Y_tail _ _ _ HinY) in Hs.
  apply (alts_m_tail _ _ _ Hinm) in Hs.
  apply (alts_d_end _ _ Hind Hs).
Qed.

Lemma shard_date_single_level_day self url d :
  is_single_level self = true -> shard_date self url = Ok d -> day d = 1.
Proof.
  intros Hsingle. unfold shard_date. intros H.
  apply bind_Ok_inv in H as ([int_date chunk] & _ & H).
  rewrite Hsingle in H. eapply strptime_01_day, H.
Qed.
End SingleLevelDates.

Section RegionLayout.
Import GenerateOffset Notion.

Lemma toordinal_le a b :
  valid_date a -> valid_date b -> ~ date_lt b a -> toordinal a <= toordinal b.
Proof.
  intros Ha Hb Hnlt.
  destruct (date_trichotomy a b) as [Hlt | [-> | Hlt]];
    [ | lia | contradiction].
  pose proof (toordinal_lt a b Ha Hb Hlt). lia.
Qed.

(** The first day of the month after a valid date is a valid date, short of
    the last month of the last year. *)
Lemma next_month_valid d :
  valid_date d -> (year d < 9999 \/ month d < 12) ->
  valid_date (mk_datetime (next_month (year d) (month d)).1
                (next_month (year d) (month d)).2 1).
Proof.
  intros (Hy & Hm & _) Hlast. unfold valid_date, next_month.
  destruct (month d =? 12) eqn:Hdec; cbn [year month day fst snd].
  - apply Z.eqb_eq in Hdec.
    pose proof (days_in_month_bounds (year d + 1) 1). lia.
  - apply Z.eqb_neq in Hdec.
    pose proof (days_in_month_bounds (year d) (month d + 1)). lia.
Qed.

(** The ordinal of the first day of the next month, for a first day. *)
Lemma first_day_next_month d :
  valid_date d -> day d = 1 ->
  ymd2ord (next_month (year d) (month d)).1 (next_month (year d) (month d)).2 1
  = toordinal d + days_in_month (year d) (month d).
Proof.
  intros (_ & Hm & _) Hday.
  pose proof (days_in_month_ordinals (year d) (month d) Hm) as Hord.
  unfold toordinal. rewrite Hday. lia.
Qed.

(** X1. With [is_single_level] true, whatever the file name, a shard for
    which [apply] returns is dated on the first day of a month, and its
    region runs from the first day of that month to the first day of the
    next, both counted in samples from the epoch. *)
Theorem apply_single_level_whole_month self url u r vars :
  is_single_level self = true ->
  apply self url = Ok (u, r, vars) ->
  exists d e,
    shard_date self url = Ok d /\ epoch self = Ok e /\ day d = 1
    /\ start r
       = (ymd2ord (year d) (month d) 1 - toordinal e)
         * timestamps_per_file self
    /\ stop r
       = (ymd2ord (next_month (year d) (month d)).1
            (next_month (year d) (month d)).2 1 - toordinal e)
         * timestamps_per_file self.
Proof.
  intros Hsingle H. apply apply_Ok_inv in H
    as (int_date & chunk & d & e & _ & Hd & He & _ & _ & ->).
  pose proof (shard_date_single_level_day _ _ _ Hsingle Hd) as Hday.
  pose proof (shard_date_valid _ _ _ Hd) as Hvalid.
  exists d, e. repeat split; try assumption.
  - unfold region_of, toordinal. cbn [start days datetime_sub].
    unfold toordinal. rewrite Hday. reflexivity.
  - rewrite (first_day_next_month d Hvalid Hday).
    unfold region_of, day_count. cbn [stop days datetime_sub].
    rewrite Hsingle. lia.
Qed.

(** The regions of two dates in order, one before the other. *)
Lemma region_of_ordered self d1 d2 e :
  0 < timestamps_per_file self ->
  valid_date d1 -> valid_date d2 ->
  (is_single_level self = true -> day d1 = 1 /\ day d2 = 1) ->
  date_lt d1 d2 ->
  start (region_of self d1 e) < stop (region_of self d1 e)
  /\ stop (region_of self d1 e) <= start (region_of self d2 e).
Proof.
  intros Htpf Hv1 Hv2 Hdays Hlt.
  pose proof (toordinal_lt d1 d2 Hv1 Hv2 Hlt) as Hord.
  unfold region_of, day_count. cbn [start stop days datetime_sub].
  destruct (is_single_level self) eqn:Hsingle.
  - destruct (Hdays eq_refl) as [Hday1 Hday2].
    pose proof (first_day_next_month d1 Hv1 Hday1) as Hfirst.
    destruct Hv1 as (Hy1 & Hm1 & Hdd1). destruct Hv2 as (Hy2 & Hm2 & Hdd2).
    pose proof (days_in_month_bounds (year d1) (month d1) Hm1) as Hdim.
    assert (Hmlt : year d1 < year d2
                   \/ (year d1 = year d2 /\ month d1 < month d2)).
    { destruct Hlt as [? | [? | (? & ? & ?)]]; [tauto | tauto | lia]. }
    assert (Hnext : toordinal d1 + days_in_month (year d1) (month d1)
                    <= toordinal d2).
    { rewrite <- Hfirst.
      assert (Hlast : year d1 < 9999 \/ month d1 < 12) by lia.
      pose proof (next_month_valid d1 ltac:(unfold valid_date; tauto) Hlast)
        as Hvn.
      apply (toordinal_le _ d2 Hvn); [unfold valid_date; tauto | ].
      unfold date_lt, next_month. cbn [year month day].
      destruct (month d1 =? 12) eqn:Hdec; cbn [fst snd].
      - apply Z.eqb_eq in Hdec. lia.
      - apply Z.eqb_neq in Hdec. lia. }
    split; nia.
  - split; nia.
Qed.

(** The region of a date that is not before the epoch. *)
Lemma region_of_nonneg self d e :
  0 <= timestamps_per_file self ->
  valid_date d -> valid_date e -> ~ date_lt d e ->
  0 <= start (region_of self d e) <= stop (region_of self d e).
Proof.
  intros Htpf Hv He Hnlt.
  pose proof (toordinal_le e d He Hv Hnlt) as Hord.
  destruct Hv as (_ & Hm & _).
  pose proof (days_in_month_bounds (year d) (month d) Hm) as Hdim.
  unfold region_of, day_count. cbn [start stop days datetime_sub].
  destruct (is_single_level self); nia.
Qed.

(** X2. For a fixed epoch and [timestamps_per_file > 0], the regions of two
    shards of different dates do not overlap: the region of the earlier
    shard is not empty and stops at or before the start of the region of
    the later one, in both modes. *)
Theorem apply_regions_disjoint self url1 url2 u1 r1 vars1 u2 r2 vars2 d1 d2 :
  0 < timestamps_per_file self ->
  apply self url1 = Ok (u1, r1, vars1) ->
  apply self url2 = Ok (u2, r2, vars2) ->
  shard_date self url1 = Ok d1 ->
  shard_date self url2 = Ok d2 ->
  date_lt d1 d2 ->
  start r1 < stop r1 /\ stop r1 <= start r2.
Proof.
  intros Htpf H1 H2 Hd1 Hd2 Hlt.
  apply apply_Ok_inv in H1
    as (? & ? & d1' & e1 & _ & Hd1' & He1 & _ & _ & ->).
  apply apply_Ok_inv in H2
    as (? & ? & d2' & e2 & _ & Hd2' & He2 & _ & _ & ->).
  assert (d1' = d1) as -> by congruence.
  assert (d2' = d2) as -> by congruence.
  assert (e2 = e1) as -> by congruence.
  apply region_of_ordered; try assumption.
  - eapply shard_date_valid; eassumption.
  - eapply shard_date_valid; eassumption.
  - intros Hsingle. split; eapply shard_date_single_level_day; eassumption.
Qed.

(** X3. Regions leave no gap: with [is_single_level] true the region of a
    month stops where the region of the next month starts, and with
    [is_single_level] false the region of a day stops where the region of
    the day after starts. *)
Theorem apply_regions_contiguous self url1 url2 u1 r1 vars1 u2 r2 vars2 d1 d2 :
  apply self url1 = Ok (u1, r1, vars1) ->
  apply self url2 = Ok (u2, r2, vars2) ->
  shard_date self url1 = Ok d1 ->
  shard_date self url2 = Ok d2 ->
  (if is_single_level self
   then (year d2, month d2) = next_month (year d1) (month d1)
   else d2 = tomorrow d1) ->
  stop r1 = start r2.
Proof.
  intros H1 H2 Hd1 Hd2 Hnext.
  apply apply_Ok_inv in H1
    as (? & ? & d1' & e1 & _ & Hd1' & He1 & _ & _ & ->).
  apply apply_Ok_inv in H2
    as (? & ? & d2' & e2 & _ & Hd2' & He2 & _ & _ & ->).
  assert (d1' = d1) as -> by congruence.
  assert (d2' = d2) as -> by congruence.
  assert (e2 = e1) as -> by congruence.
  pose proof (shard_date_valid _ _ _ Hd1) as Hv1.
  unfold region_of, day_count. cbn [start stop days datetime_sub].
  destruct (is_single_level self) eqn:Hsingle.
  - pose proof (shard_date_single_level_day _ _ _ Hsingle Hd1) as Hday1.
    pose proof (shard_date_single_level_day _ _ _ Hsingle Hd2) as Hday2.
    pose proof (first_day_next_month d1 Hv1 Hday1) as Hord.
    rewrite <- Hnext in Hord. cbn [fst snd] in Hord.
    assert (Hd2ord : toordinal d2 = ymd2ord (year d2) (month d2) 1)
      by (unfold toordinal; rewrite Hday2; reflexivity).
    rewrite Hd2ord, Hord. ring.
  - subst d2. rewrite toordinal_tomorrow
      by (apply valid_calendar_date; assumption). ring.
Qed.

(** X4. A shard that is not dated before the epoch gets a region within
    the store's axis: with [timestamps_per_file >= 0], [0 <= start <= stop],
    and [start < stop] when [timestamps_per_file > 0]. *)
Theorem apply_region_nonneg self url u r vars d e :
  0 <= timestamps_per_file self ->
  apply self url = Ok (u, r, vars) ->
  shard_date self url = Ok d ->
  epoch self = Ok e ->
  ~ date_lt d e ->
  0 <= start r <= stop r
  /\ (0 < timestamps_per_file self -> start r < stop r).
Proof.
  intros Htpf H Hd He Hnlt.
  apply apply_Ok_inv in H
    as (? & ? & d' & e' & _ & Hd' & He' & _ & _ & ->).
  assert (d' = d) as -> by congruence.
  assert (e' = e) as -> by congruence.
  pose proof (shard_date_valid _ _ _ Hd) as Hv.
  pose proof (toordinal_le e d (epoch_valid _ _ He) Hv Hnlt) as Hord.
  destruct Hv as (_ & Hm & _).
  pose proof (days_in_month_bounds (year d) (month d) Hm) as Hdim.
  unfold region_of, day_count. cbn [start stop days datetime_sub].
  destruct (is_single_level self); split; try nia; intros; nia.
Qed.
End RegionLayout.

Section RegionLayoutScenarios.
Import GenerateOffset Notion Scenario.

Lemma apply_single_level_whole_month_sfc :
  exists d e,
    shard_date monthly_24 url_sfc_2023_09 = Ok d
    /\ epoch monthly_24 = Ok e /\ day d = 1
    /\ start (mk_slice 1084032 1084752)
       = (ymd2ord (year d) (month d) 1 - toordinal e)
         * timestamps_per_file monthly_24
    /\ stop (mk_slice 1084032 1084752)
       = (ymd2ord (next_month (year d) (month d)).1
            (next_month (year d) (month d)).2 1 - toordinal e)
         * timestamps_per_file monthly_24.
Proof.
  apply (apply_single_level_whole_month monthly_24 url_sfc_2023_09
           url_sfc_2023_09 (mk_slice 1084032 1084752) vars_sfc).
  - reflexivity.
  - vm_compute. reflexivity.
Defined.

Lemma apply_regions_disjoint_sep_oct :
  start (mk_slice 1084032 1084752) < stop (mk_slice 1084032 1084752)
  /\ stop (mk_slice 1084032 1084752) <= start (mk_slice 1084752 1085496).
Proof.
  apply (apply_regions_disjoint monthly_24 url_sfc_2023_09 url_sfc_2023_10
           url_sfc_2023_09 (mk_slice 1084032 1084752) vars_sfc
           url_sfc_2023_10 (mk_slice 1084752 1085496) vars_sfc
           (mk_datetime 2023 9 1) (mk_datetime 2023 10 1)).
  - simpl. lia.
  - vm_compute. reflexivity.
  - vm_compute. reflexivity.
  - vm_compute. reflexivity.
  - vm_compute. reflexivity.
  - right. left. simpl. lia.
Defined.

Lemma apply_regions_contiguous_sep_oct :
  stop (mk_slice 1084032 1084752) = start (mk_slice 1084752 1085496).
Proof.
  apply (apply_regions_contiguous monthly_24 url_sfc_2023_09 url_sfc_2023_10
           url_sfc_2023_09 (mk_slice 1084032 1084752) vars_sfc
           url_sfc_2023_10 (mk_slice 1084752 1085496) vars_sfc
           (mk_datetime 2023 9 1) (mk_datetime 2023 10 1)).
  - vm_compute. reflexivity.
  - vm_compute. reflexivity.
  - vm_compute. reflexivity.
  - vm_compute. reflexivity.
  - reflexivity.
Defined.

Lemma apply_region_nonneg_sfc :
  0 <= start (mk_slice 1084032 1084752) <= stop (mk_slice 1084032 1084752)
  /\ (0 < timestamps_per_file monthly_24 ->
      start (mk_slice 1084032 1084752) < stop (mk_slice 1084032 1084752)).
Proof.
  apply (apply_region_nonneg monthly_24 url_sfc_2023_09 url_sfc_2023_09
           (mk_slice 1084032 1084752) vars_sfc
           (mk_datetime 2023 9 1) (mk_datetime 1900 1 1)).
  - simpl. lia.
  - vm_compute. reflexivity.
  - vm_compute. reflexivity.
  - vm_compute. reflexivity.
  - unfold date_lt. simpl. lia.
Defined.
End RegionLayoutScenarios.

(** ** More on strings *)

Section StringFacts.
Import StrNotion.

Lemma prefix_cons a b (s1 s2 : string) :
  String.prefix (String a s1) (String b s2)
  = Ascii.eqb a b && String.prefix s1 s2.
Proof.
  cbn [String.prefix]. destruct (ascii_dec a b) as [-> | Hne].
  - rewrite Ascii.eqb_refl. reflexivity.
  - apply Ascii.eqb_neq in Hne. rewrite Hne. reflexivity.
Qed.

Lemma prefix_app (sub b x : string) :
  String.prefix sub b = true -> String.prefix sub (b +:+ x) = true.
Proof.
  revert b. induction sub as [|a sub IH]; intros b;
    [intros _; destruct (b +:+ x); reflexivity | ].
  destruct b as [|c b]; [discriminate | ].
  rewrite str_app_cons, !prefix_cons, !andb_true_iff.
  intros [Hc Hp]. split; [assumption | apply IH; assumption].
Qed.

(** What does not occur in a string does not occur in its beginning. *)
Lemma str_in_app_false a sub (b x : string) :
  str_in (String a sub) (b +:+ x) = false -> str_in (String a sub) b = false.
Proof.
  induction b as [|c b IH]; [reflexivity | ].
  rewrite str_app_cons. cbn [str_in]. rewrite !orb_false_iff.
  intros [Hp Hin]. split; [ | apply IH; assumption].
  destruct (String.prefix (String a sub) (String c b)) eqn:Hpb;
    [ | reflexivity].
  apply (prefix_app _ _ x) in Hpb. rewrite str_app_cons in Hpb. congruence.
Qed.

(** A separator that does not occur splits nothing. *)
Lemma split_go_absent (sep s : string) :
  str_in sep s = false -> split_go sep 0 s = [s].
Proof.
  induction s as [|c s IH]; [reflexivity | ].
  cbn [str_in split_go]. rewrite orb_false_iff. intros [-> Hin].
  rewrite IH by assumption. reflexivity.
Qed.

Lemma rpartition_Some sep s before after :
  rpartition sep s = Some (before, after) ->
  s = before +:+ String sep after.
Proof.
  revert before. induction s as [|c s IH]; intros before; [discriminate | ].
  cbn [rpartition].
  destruct (rpartition sep s) as [[b a]|] eqn:Hs.
  - intros [= <- <-]. rewrite str_app_cons, (IH b) by reflexivity.
    reflexivity.
  - destruct (Ascii.eqb c sep) eqn:Hc; [ | discriminate].
    intros [= <- <-]. apply Ascii.eqb_eq in Hc. subst c. reflexivity.
Qed.

Lemma has_char_count c s : has_char c s = negb (count_char c s =? 0)%nat.
Proof.
  induction s as [|c' s IH]; [reflexivity | ].
  cbn [has_char count_char]. destruct (Ascii.eqb c c'); [reflexivity | ].
  exact IH.
Qed.

Lemma str_in_char c s : str_in (String c EmptyString) s = has_char c s.
Proof.
  induction s as [|c' s IH]; [reflexivity | ].
  cbn [str_in has_char]. rewrite prefix_cons, IH.
  destruct (Ascii.eqb c c'); [ | reflexivity].
  destruct s; reflexivity.
Qed.

(** A one-character separator cuts a string into one piece more than it
    occurs. *)
Lemma split_go_char_length c s :
  length (split_go (String c EmptyString) 0 s) = S (count_char c s).
Proof.
  induction s as [|c' s IH]; [reflexivity | ].
  cbn [split_go count_char]. rewrite prefix_cons.
  replace (String.prefix EmptyString s) with true by (destruct s; reflexivity).
  rewrite andb_true_r. cbn [String.length Nat.pred].
  destruct (Ascii.eqb c c').
  - cbn [length]. rewrite IH. reflexivity.
  - destruct (split_go (String c EmptyString) 0 s) as [|piece pieces];
      [discriminate | ]. exact IH.
Qed.
End StringFacts.

(** ** More on [make_path] and the names it gives *)

Section PathFacts.
Import GenerateOffset SingleLevelsToZarr StrNotion.

(** The path of a chunk of the catalog, and the date text and chunk that
    lines 88-91 of [apply] read off it. *)
Lemma make_path_shard_name time chunk vars :
  valid_date time ->
  variable_dict !! chunk = Some vars ->
  exists url,
    make_path time chunk = Ok url
    /\ shard_name url
       = Ok (format_0d 4 (year time) +:+ format_0d 2 (month time), chunk).
Proof.
  intros (Hy & Hm & _) Hvars.
  pose proof (tail_ok_all _ _ Hvars) as Hok.
  destruct (file_tail chunk) as [tl|exc] eqn:Htl;
    [ | unfold Check.tail_ok in Hok; rewrite Htl in Hok; discriminate].
  pose proof (year_ok_all _ Hy) as Hyear. unfold Check.year_ok in Hyear.
  apply andb_true_iff in Hyear as [Hyear _].
  apply andb_true_iff in Hyear as [Hy1 Hy2].
  apply negb_true_iff in Hy1, Hy2.
  destruct (month_clean _ Hm) as [Hm1 Hm2].
  set (Y := format_0d 4 (year time)) in *.
  set (M := format_0d 2 (month time)) in *.
  exists ((path_prefix +:+ Y) +:+ "/" +:+ (Y +:+ M) +:+ "_hres_" +:+ tl).
  split.
  - rewrite make_path_shape, Htl. run_bind. f_equal.
    rewrite <- !str_app_assoc. reflexivity.
  - apply shard_name_of_path; try assumption.
    + rewrite has_char_app, Hy1, Hm1. reflexivity.
    + rewrite has_char_app, Hy2, Hm2. reflexivity.
Qed.

(** The date text of a monthly file, read as year, month and day. *)
Lemma strptime_month_text y m :
  1 <= y <= 9999 -> 1 <= m <= 12 ->
  strptime (format_0d 4 y +:+ format_0d 2 m) fmt_Ymd
  = if m =? 11 then Ok (mk_datetime y 1 1)
    else if m =? 12 then Ok (mk_datetime y 1 2)
    else Raise (ValueError "time data does not match format").
Proof.
  intros Hy Hm. pose proof (year_ok_all y Hy) as Hok.
  unfold Check.year_ok in Hok.
  apply andb_true_iff in Hok as [_ Hdigits].
  apply bool_decide_eq_true in Hdigits.
  assert (Hjan : forall d, 1 <= d <= 2 ->
            datetime_new y 1 d = Ok (mk_datetime y 1 d)).
  { intros d Hd. apply datetime_new_valid. unfold valid_date.
    cbn [year month day].
    pose proof (days_in_month_bounds y 1). lia. }
  unfold strptime, fmt_Ymd. rewrite re_match_Y.
  rewrite (alts_Y_app _ _ _ Hdigits). cbn [first_match fst snd].
  month_cases m; cbn; try reflexivity; apply Hjan; lia.
Qed.

(** X5. The name that [make_path] gives a monthly file has no day. Read
    with [is_single_level] false, it is refused with [ValueError] for the
    months January to October; for November and December it is read as the
    1st and the 2nd of January of that year, and [apply] returns a region
    of that day. *)
Theorem apply_daily_on_monthly_name self time chunk vars e :
  valid_date time ->
  variable_dict !! chunk = Some vars ->
  is_single_level self = false ->
  epoch self = Ok e ->
  exists url,
    make_path time chunk = Ok url
    /\ apply self url
       = if month time =? 11
         then Ok (url, region_of self (mk_datetime (year time) 1 1) e, vars)
         else if month time =? 12
         then Ok (url, region_of self (mk_datetime (year time) 1 2) e, vars)
         else Raise (ValueError "time data does not match format").
Proof.
  intros Hvalid Hvars Hdaily He.
  destruct (make_path_shard_name _ _ _ Hvalid Hvars) as (url & Hpath & Hname).
  destruct Hvalid as (Hy & Hm & _).
  exists url. split; [assumption | ].
  rewrite apply_steps, Hname. run_bind. cbn [fst snd]. rewrite Hdaily.
  unfold convert_to_date. rewrite strptime_month_text by assumption.
  destruct (month time =? 11).
  - rewrite He. apply dict_getitem_Ok in Hvars. rewrite Hvars. reflexivity.
  - destruct (month time =? 12); [ | reflexivity].
    rewrite He. apply dict_getitem_Ok in Hvars. rewrite Hvars. reflexivity.
Qed.

(** X6. [make_path] gives different paths to different shards: for chunks
    of the catalog, two paths are the same only when the chunk, the year
    and the month are. The day of the timestamp plays no part. *)
Theorem make_path_injective time1 time2 chunk1 chunk2 url :
  valid_date time1 -> valid_date time2 ->
  is_Some (variable_dict !! chunk1) -> is_Some (variable_dict !! chunk2) ->
  make_path time1 chunk1 = Ok url ->
  make_path time2 chunk2 = Ok url ->
  chunk1 = chunk2 /\ year time1 = year time2 /\ month time1 = month time2.
Proof.
  intros Hv1 Hv2 [vars1 Hc1] [vars2 Hc2] Hp1 Hp2.
  destruct (make_path_shard_name _ _ _ Hv1 Hc1) as (url1 & Hp1' & Hn1).
  destruct (make_path_shard_name _ _ _ Hv2 Hc2) as (url2 & Hp2' & Hn2).
  assert (url1 = url) as -> by congruence.
  assert (url2 = url) as -> by congruence.
  rewrite Hn1 in Hn2. injection Hn2 as Hdate Hchunk.
  split; [assumption | ].
  destruct Hv1 as (Hy1 & Hm1 & _), Hv2 as (Hy2 & Hm2 & _).
  pose proof (strptime_monthly _ _ Hy1 Hm1) as Hs1.
  pose proof (strptime_monthly _ _ Hy2 Hm2) as Hs2.
  rewrite Hdate, Hs2 in Hs1. injection Hs1 as -> ->. split; reflexivity.
Qed.

(** X7. [make_path] returns a path for a chunk name with no underscore or
    with exactly two; with one underscore, or with three or more, the
    unpacking of the three parts raises [ValueError]. *)
Theorem make_path_underscores time chunk :
  match count_char "_" chunk with
  | 0%nat | 2%nat => exists url, make_path time chunk = Ok url
  | 1%nat =>
      make_path time chunk
      = Raise (ValueError "not enough values to unpack (expected 3)")
  | _ =>
      make_path time chunk
      = Raise (ValueError "too many values to unpack (expected 3)")
  end.
Proof.
  unfold make_path. rewrite (str_in_char "_" chunk), has_char_count.
  pose proof (split_go_char_length "_" chunk) as Hlen.
  unfold split. run_bind.
  destruct (count_char "_" chunk) as [|[|[|n]]]; cbn [Nat.eqb negb].
  - eauto.
  - destruct (split_go "_" 0 chunk) as [|a [|b [|c l]]]; try discriminate.
    reflexivity.
  - destruct (split_go "_" 0 chunk) as [|a [|b [|c [|d l]]]];
      try discriminate. cbn [unpack3]. eauto.
  - destruct (split_go "_" 0 chunk) as [|a [|b [|c [|d l]]]];
      try discriminate. reflexivity.
Qed.

(** X8. A location with no slash has no file name for [apply], which raises
    [IndexError]; a file name without ["_hres_"] has no date and chunk to
    unpack, and [apply] raises [ValueError]. *)
Theorem apply_malformed_name self (dir name : string) :
  has_char "/" name = false ->
  apply self name = Raise IndexError
  /\ (str_in "_hres_" name = false ->
      apply self (dir +:+ "/" +:+ name)
      = Raise (ValueError "not enough values to unpack (expected 2)")).
Proof.
  intros Hslash. split.
  - unfold apply, rsplit1. rewrite rpartition_None by assumption.
    reflexivity.
  - intros Hhres. unfold apply, rsplit1.
    change ("/" +:+ name) with (String "/" name).
    rewrite rpartition_app_sep by assumption.
    cbn [getitem lookup list_lookup]. run_bind.
    assert (Hstem : exists stem,
              getitem match rpartition "." name with
                      | Some (before, after) => [before; after]
                      | None => [name]
                      end 0 = Ok stem
              /\ str_in "_hres_" stem = false).
    { destruct (rpartition "." name) as [[before after]|] eqn:Hdot.
      - exists before. split; [reflexivity | ].
        apply rpartition_Some in Hdot. rewrite Hdot in Hhres.
        eapply str_in_app_false, Hhres.
      - exists name. split; [reflexivity | assumption]. }
    destruct Hstem as (stem & -> & Hstem). run_bind.
    unfold split. rewrite split_go_absent by assumption. reflexivity.
Qed.
End PathFacts.

Section PathScenarios.
Import GenerateOffset SingleLevelsToZarr StrNotion Scenario.

(** November 2023 read as a daily file: the region of 1 January 2023. *)
Example apply_daily_november :
  apply daily_24
    "gs://gcp-public-data-arco-era5/raw/ERA5GRIB/HRES/Month/2023/202311_hres_sfc.grb2"
  = Ok ("gs://gcp-public-data-arco-era5/raw/ERA5GRIB/HRES/Month/2023/202311_hres_sfc.grb2",
        mk_slice (44925 * 24) (44925 * 24 + 24), vars_sfc)
  /\ toordinal (mk_datetime 2023 1 1) - toordinal (mk_datetime 1900 1 1)
     = 44925.
Proof. split; vm_compute; reflexivity. Qed.

Lemma apply_daily_on_monthly_name_nov :
  exists url,
    make_path (mk_datetime 2023 11 5) "sfc" = Ok url
    /\ apply daily_24 url
       = if month (mk_datetime 2023 11 5) =? 11
         then Ok (url,
                  region_of daily_24
                    (mk_datetime (year (mk_datetime 2023 11 5)) 1 1)
                    (mk_datetime 1900 1 1), vars_sfc)
         else if month (mk_datetime 2023 11 5) =? 12
         then Ok (url,
                  region_of daily_24
                    (mk_datetime (year (mk_datetime 2023 11 5)) 1 2)
                    (mk_datetime 1900 1 1), vars_sfc)
         else Raise (ValueError "time data does not match format").
Proof.
  apply (apply_daily_on_monthly_name daily_24 (mk_datetime 2023 11 5) "sfc"
           vars_sfc (mk_datetime 1900 1 1)).
  - unfold valid_date. vm_compute. repeat split; discriminate.
  - vm_compute. reflexivity.
  - reflexivity.
  - vm_compute. reflexivity.
Defined.

Lemma make_path_injective_sfc :
  "sfc" = "sfc"
  /\ year (mk_datetime 2023 9 1) = year (mk_datetime 2023 9 30)
  /\ month (mk_datetime 2023 9 1) = month (mk_datetime 2023 9 30).
Proof.
  apply (make_path_injective (mk_datetime 2023 9 1) (mk_datetime 2023 9 30)
           "sfc" "sfc" url_sfc_2023_09).
  - unfold valid_date. vm_compute. repeat split; discriminate.
  - unfold valid_date. vm_compute. repeat split; discriminate.
  - exists vars_sfc. vm_compute. reflexivity.
  - exists vars_sfc. vm_compute. reflexivity.
  - vm_compute. reflexivity.
  - vm_compute. reflexivity.
Defined.

Lemma apply_malformed_name_example :
  apply monthly_24 "202309_sfc.grb2" = Raise IndexError
  /\ (str_in "_hres_" "202309_sfc.grb2" = false ->
      apply monthly_24 ("gs://bucket" +:+ "/" +:+ "202309_sfc.grb2")
      = Raise (ValueError "not enough values to unpack (expected 2)")).
Proof.
  apply (apply_malformed_name monthly_24 "gs://bucket" "202309_sfc.grb2").
  reflexivity.
Defined.
End PathScenarios.

(** ** More on [UpdateSlice.apply] *)

Section SetitemFacts.
Import UpdateSlice RegionNotion.
Context {V : Type}.
Implicit Types (arr value : list V) (zf ds : gmap string (list V)).

(** The array after a write, position by position. *)
Lemma setitem_lookup arr region value arr' lo n (i : nat) :
  setitem arr region value = Ok arr' ->
  selection region (length arr) = (lo, n) ->
  arr' !! i
  = if decide (lo <= i < lo + n)%nat then value !! (i - lo)%nat else arr !! i.
Proof.
  intros Hset Hsel. destruct (decide (lo <= i < lo + n)%nat) as [Hin | Hout].
  - apply setitem_Ok_inv in Hset as (lo' & n' & Hsel' & Hlen & ->).
    rewrite Hsel in Hsel'. injection Hsel' as <- <-.
    pose proof (selection_bounds _ _ _ _ Hsel) as Hb.
    assert (Hlo : length (take lo arr) = lo) by (rewrite length_take; lia).
    rewrite lookup_app_r by lia. rewrite Hlo.
    apply lookup_app_l. lia.
  - eapply setitem_frame; eassumption.
Qed.

Lemma selection_nonneg region len lo n :
  nonneg region ->
  selection region len = (lo, n) ->
  Z.of_nat lo = Z.min (start region) (Z.of_nat len)
  /\ Z.of_nat n
     = Z.max 0 (Z.min (stop region) (Z.of_nat len)
                - Z.min (start region) (Z.of_nat len)).
Proof.
  intros [Hs He]. unfold selection, slice_indices.
  rewrite !adjust_index_nonneg by lia. intros [= <- <-].
  case_match; lia.
Qed.

(** Regions that are apart select positions that are apart. *)
Lemma selection_apart r1 r2 len lo1 n1 lo2 n2 (i : nat) :
  nonneg r1 -> nonneg r2 -> apart r1 r2 ->
  selection r1 len = (lo1, n1) -> selection r2 len = (lo2, n2) ->
  (lo1 <= i < lo1 + n1)%nat -> ~ (lo2 <= i < lo2 + n2)%nat.
Proof.
  intros H1 H2 Hapart Hs1 Hs2.
  destruct (selection_nonneg _ _ _ _ H1 Hs1) as [Hlo1 Hn1].
  destruct (selection_nonneg _ _ _ _ H2 Hs2) as [Hlo2 Hn2].
  destruct H1, H2. unfold apart in Hapart. lia.
Qed.

Lemma getslice_ext arr arr' region :
  length arr' = length arr ->
  (forall lo n (i : nat),
     selection region (length arr) = (lo, n) ->
     (lo <= i < lo + n)%nat -> arr' !! i = arr !! i) ->
  getslice arr' region = getslice arr region.
Proof.
  intros Hlen Hsame. unfold getslice. rewrite Hlen.
  destruct (selection region (length arr)) as [lo n] eqn:Hsel.
  apply list_eq. intros i.
  destruct (decide (i < n)%nat) as [Hi | Hi].
  - rewrite !lookup_take_lt, !lookup_drop by assumption.
    apply (Hsame lo n); [reflexivity | lia].
  - rewrite !lookup_take_ge by lia. reflexivity.
Qed.

(** A write leaves the contents of a region apart from its own as they
    were. *)
Lemma setitem_keeps_apart arr r1 r2 value arr' :
  nonneg r1 -> nonneg r2 -> apart r1 r2 ->
  setitem arr r2 value = Ok arr' ->
  getslice arr' r1 = getslice arr r1.
Proof.
  intros H1 H2 Hapart Hset.
  apply getslice_ext; [eapply setitem_length, Hset | ].
  intros lo1 n1 i Hsel1 Hi.
  destruct (selection r2 (length arr)) as [lo2 n2] eqn:Hsel2.
  eapply setitem_frame; [exact Hset | exact Hsel2 | ].
  exact (selection_apart r1 r2 (length arr) lo1 n1 lo2 n2 i
           H1 H2 Hapart Hsel1 Hsel2 Hi).
Qed.
End SetitemFacts.

Section UpdateSliceMore.
Import UpdateSlice RegionNotion.
Context {V : Type}.
Variable open_shard : string -> result (gmap string (list V)).
Implicit Types (arr value : list V) (zf ds : gmap string (list V)).


Lemma setitem_Raise arr region value exc :
  setitem arr region value = Raise exc ->
  exc = ValueError "parameter 'value': expected array with shape".
Proof.
  unfold setitem.
  destruct (slice_indices region (Z.of_nat (length arr))) as [lo hi].
  destruct (Z.of_nat (length value) =? _); [discriminate | ].
  intros [= <-]. reflexivity.
Qed.

(** The loop raises [KeyError] for a variable of its list that the store
    or the shard does not have, or the [ValueError] of a write, and nothing
    else. *)
Lemma for_vars_raise ds region vars :
  forall zf zf' exc,
    for_vars ds region vars zf = (zf', Raise exc) ->
    (exists vname,
       exc = KeyError vname /\ vname ∈ vars
       /\ (zf' !! vname = None \/ ds !! vname = None))
    \/ (exists msg, exc = ValueError msg).
Proof.
  induction vars as [|v vars IH]; intros zf zf' exc Hrun; [discriminate | ].
  cbn [for_vars] in Hrun. unfold dict_getitem in Hrun.
  destruct (zf !! v) as [zv|] eqn:Hzv.
  - destruct (ds !! v) as [value|] eqn:Hvalue.
    + destruct (setitem zv region value) as [zv'|e] eqn:Hset.
      * destruct (IH _ _ _ Hrun) as [(k & -> & Hin & Hk) | Hval];
          [left | right; assumption].
        exists k. split; [reflexivity | ]. split; [right | ]; assumption.
      * injection Hrun as <- <-. right.
        apply setitem_Raise in Hset. eauto.
    + injection Hrun as <- <-. left. exists v.
      split; [reflexivity | ]. split; [left | right; assumption].
  - injection Hrun as <- <-. left. exists v.
    split; [reflexivity | ]. split; [left | left; assumption].
Qed.


(** X10. A region that runs past the end of the array of a variable is cut
    to the array, which does not grow: [apply] raises [ValueError] at that
    variable unless its decoded value has exactly as many positions as the
    array has from [start] on. Here for the first variable of the list,
    with the store left as it was; the values of a whole region are too
    many. *)
Theorem apply_past_the_end self url region vname vars ds zf arr value :
  open_shard url = Ok ds ->
  zf !! vname = Some arr ->
  ds !! vname = Some value ->
  0 <= start region < stop region ->
  Z.of_nat (length arr) < stop region ->
  Z.of_nat (length value)
  <> Z.max 0 (Z.of_nat (length arr) - start region) ->
  apply open_shard self (url, region, vname :: vars) zf
  = (zf, Raise (ValueError "parameter 'value': expected array with shape")).
Proof.
  intros Hopen Harr Hvalue Hregion Hpast Hlen.
  unfold apply. rewrite Hopen. cbn [for_vars]. unfold dict_getitem.
  rewrite Harr, Hvalue. unfold setitem, slice_indices.
  rewrite !adjust_index_nonneg by lia.
  replace (Z.of_nat (length value) =?
           (if Z.min (start region) (Z.of_nat (length arr)) <?
               Z.min (stop region) (Z.of_nat (length arr))
            then Z.min (stop region) (Z.of_nat (length arr))
                 - Z.min (start region) (Z.of_nat (length arr))
            else 0)) with false; [reflexivity | ].
  symmetry. apply Z.eqb_neq. case_match; lia.
Qed.

(** X11. A region with negative bounds, as [GenerateOffset.apply] returns
    for a shard before the epoch, counts from the end of the array: when
    [apply] ends normally, the decoded value of each variable is found in
    its array [-start] positions before the end. *)
Theorem apply_negative_region self url region vars zf :
  start region <= stop region -> stop region < 0 ->
  (apply open_shard self (url, region, vars) zf).2 = Ok tt ->
  forall x, x ∈ vars ->
    exists ds a' value,
      open_shard url = Ok ds
      /\ (apply open_shard self (url, region, vars) zf).1 !! x = Some a'
      /\ ds !! x = Some value
      /\ (- start region <= Z.of_nat (length a') ->
          take (Z.to_nat (stop region - start region))
            (drop (Z.to_nat (Z.of_nat (length a') + start region)) a')
          = value).
Proof.
  intros Horder Hneg. unfold apply.
  destruct (open_shard url) as [ds|exc] eqn:Hopen; [ | discriminate].
  destruct (for_vars ds region vars zf) as [zf' res] eqn:Hrun.
  destruct res as [u|exc]; [ | discriminate].
  destruct vars as [|v vars]; [discriminate | ].
  intros _ x Hin. cbn [fst].
  destruct (for_vars_written _ _ _ _ _ _ x Hrun Hin)
    as (a' & value & Ha' & Hvalue & Hget).
  exists ds, a', value. repeat split; try assumption.
  intros Hlen. rewrite <- Hget. unfold getslice, selection, slice_indices.
  unfold adjust_index.
  repeat case_match; try lia; f_equal; try lia; f_equal; lia.
Qed.

(** A write to one region keeps what the store holds in a region apart
    from it: after [apply], whatever way it ends, every array reads in the
    other region as it did before. *)
Lemma apply_keeps_apart self url region other vars zf :
  nonneg region -> nonneg other -> apart other region ->
  forall x a,
    zf !! x = Some a ->
    exists a',
      (apply open_shard self (url, region, vars) zf).1 !! x = Some a'
      /\ length a' = length a
      /\ getslice a' other = getslice a other.
Proof.
  intros Hregion Hother Hapart x a Ha.
  assert (Hrun : (exists ds zf' res,
                    for_vars ds region vars zf = (zf', res)
                    /\ (apply open_shard self (url, region, vars) zf).1 = zf')
                 \/ (apply open_shard self (url, region, vars) zf).1 = zf).
  { unfold apply. destruct (open_shard url) as [ds|exc]; [ | right; reflexivity].
    destruct (for_vars ds region vars zf) as [zf' res] eqn:Hrun.
    left. exists ds, zf', res. split; [exact Hrun | ].
    destruct res; [destruct vars | ]; reflexivity. }
  destruct Hrun as [(ds & zf' & res & Hrun & ->) | ->];
    [ | exists a; auto].
  pose proof (for_vars_frame _ _ _ _ _ _ x Hrun) as Hframe.
  rewrite Ha in Hframe. destruct Hframe as (a' & Ha' & Hlen & Hframe & _).
  exists a'. split; [assumption | ]. split; [assumption | ].
  apply getslice_ext; [assumption | ].
  intros lo1 n1 i Hsel1 Hi.
  destruct (selection region (length a)) as [lo2 n2] eqn:Hsel2.
  apply (Hframe lo2 n2 i); [reflexivity | ].
  exact (selection_apart other region (length a) lo1 n1 lo2 n2 i
           Hother Hregion Hapart Hsel1 Hsel2 Hi).
Qed.
End UpdateSliceMore.

(** ** From the offset to the store *)

Section OffsetToStore.
Import RegionNotion.
Context {V : Type}.
Variable open_shard : string -> result (gmap string (list V)).

(** Every chunk of the catalog has a variable. *)
Lemma catalog_vars_nonempty chunk vars :
  variable_dict !! chunk = Some vars -> vars <> [].
Proof.
  intros Hvars.
  assert (Hcheck : match vars with [] => false | _ :: _ => true end = true).
  { revert Hvars.
    apply (forallb_items
             (fun _ vs => match vs with [] => false | _ :: _ => true end)).
    vm_compute. reflexivity. }
  clear Hvars. destruct vars as [|v vs]; [discriminate Hcheck | ].
  intros [=].
Qed.

(** X12. Ingesting a shard leaves the regions of the shards of other dates
    as they are: with [timestamps_per_file > 0] and dates that are not
    before the epoch, after [UpdateSlice.apply] has run for the region that
    [GenerateOffset.apply] gives one shard, every array of the store reads,
    in the region of a shard of another date, as it did before. *)
Theorem ingest_keeps_other_shards
    (g : GenerateOffset.t) (target : UpdateSlice.t)
    url1 url2 u1 r1 vars1 u2 r2 vars2 d1 d2 e
    (zf : gmap string (list V)) :
  0 < GenerateOffset.timestamps_per_file g ->
  GenerateOffset.apply g url1 = Ok (u1, r1, vars1) ->
  GenerateOffset.apply g url2 = Ok (u2, r2, vars2) ->
  GenerateOffset.shard_date g url1 = Ok d1 ->
  GenerateOffset.shard_date g url2 = Ok d2 ->
  GenerateOffset.epoch g = Ok e ->
  d1 <> d2 -> ~ date_lt d1 e -> ~ date_lt d2 e ->
  forall x a,
    zf !! x = Some a ->
    exists a',
      (UpdateSlice.apply open_shard target (u2, r2, vars2) zf).1 !! x
      = Some a'
      /\ length a' = length a
      /\ UpdateSlice.getslice a' r1 = UpdateSlice.getslice a r1.
Proof.
  intros Htpf H1 H2 Hd1 Hd2 He Hne Hn1 Hn2.
  apply apply_Ok_inv in H1
    as (? & ? & d1' & e1 & _ & Hd1' & He1 & _ & _ & ->).
  apply apply_Ok_inv in H2
    as (? & ? & d2' & e2 & _ & Hd2' & He2 & _ & -> & ->).
  assert (d1' = d1) as -> by congruence.
  assert (d2' = d2) as -> by congruence.
  assert (e1 = e) as -> by congruence.
  assert (e2 = e) as -> by congruence.
  pose proof (shard_date_valid _ _ _ Hd1) as Hv1.
  pose proof (shard_date_valid _ _ _ Hd2) as Hv2.
  pose proof (epoch_valid _ _ He) as Hve.
  assert (Hdays : forall da db,
            GenerateOffset.shard_date g url1 = Ok da
            \/ GenerateOffset.shard_date g url2 = Ok da ->
            GenerateOffset.shard_date g url1 = Ok db
            \/ GenerateOffset.shard_date g url2 = Ok db ->
            GenerateOffset.is_single_level g = true ->
            day da = 1 /\ day db = 1).
  { intros da db Ha Hb Hsingle.
    split; [destruct Ha | destruct Hb];
      eapply shard_date_single_level_day; eassumption. }
  apply apply_keeps_apart.
  - pose proof (region_of_nonneg g d2 e ltac:(lia) Hv2 Hve Hn2).
    unfold nonneg. lia.
  - pose proof (region_of_nonneg g d1 e ltac:(lia) Hv1 Hve Hn1).
    unfold nonneg. lia.
  - unfold apart.
    destruct (date_trichotomy d1 d2) as [Hlt | [Heq | Hlt]];
      [left | contradiction | right].
    + apply region_of_ordered; try assumption. apply Hdays; auto.
    + apply region_of_ordered; try assumption. apply Hdays; auto.
Qed.

(** X13. A descriptor that [GenerateOffset.apply] returns has a variable,
    so that [UpdateSlice.apply] does not end on its unbound [zv]: what it
    raises for such a descriptor is what opening the shard raised, a
    [KeyError] for a variable of the descriptor that the store or the shard
    does not have, or the [ValueError] of a write. *)
Theorem descriptor_exceptions
    (g : GenerateOffset.t) (target : UpdateSlice.t) url u r vars exc
    (zf : gmap string (list V)) :
  GenerateOffset.apply g url = Ok (u, r, vars) ->
  (UpdateSlice.apply open_shard target (u, r, vars) zf).2 = Raise exc ->
  open_shard u = Raise exc
  \/ (exists vname, exc = KeyError vname /\ vname ∈ vars)
  \/ (exists msg, exc = ValueError msg).
Proof.
  intros Hoffset. apply apply_Ok_inv in Hoffset
    as (? & chunk & ? & ? & _ & _ & _ & Hvars & _ & _).
  apply catalog_vars_nonempty in Hvars.
  unfold UpdateSlice.apply.
  destruct (open_shard u) as [ds|exc'] eqn:Hopen;
    [ | intros [= <-]; left; reflexivity].
  destruct (UpdateSlice.for_vars ds r vars zf) as [zf' res] eqn:Hrun.
  destruct res as [v|exc'].
  - destruct vars; [contradiction | discriminate].
  - intros [= <-]. right.
    destruct (for_vars_raise _ _ _ _ _ _ Hrun)
      as [(vname & -> & Hin & _) | Hval]; [left; eauto | right; assumption].
Qed.
End OffsetToStore.

Section StoreScenarios.
Import UpdateSlice RegionNotion Scenario Scenario2.

(** Positions 3 and 4 of an array of four, and the last but two of it. *)
Example apply_dve_regions :
  apply decoded_dve target_wind (url_dve_day, mk_slice 3 5, ["d"; "vo"])
    store_dve
  = (store_dve,
     Raise (ValueError "parameter 'value': expected array with shape"))
  /\ apply decoded_dve target_wind (url_dve_day, mk_slice (-3) (-1), ["d"; "vo"])
       store_dve
     = (dict_of [("d", [0; 5; 6; 0]); ("vo", [1; 7; 8; 1])], Ok tt).
Proof. split; vm_compute; reflexivity. Qed.


Lemma apply_past_the_end_dve :
  apply decoded_dve target_wind (url_dve_day, mk_slice 3 5, "d" :: ["vo"])
    store_dve
  = (store_dve,
     Raise (ValueError "parameter 'value': expected array with shape")).
Proof.
  apply (apply_past_the_end decoded_dve target_wind url_dve_day (mk_slice 3 5)
           "d" ["vo"] decoded_dve_values store_dve [0; 0; 0; 0] [5; 6]).
  - reflexivity.
  - vm_compute. reflexivity.
  - vm_compute. reflexivity.
  - simpl. lia.
  - simpl. lia.
  - simpl. lia.
Defined.

Lemma apply_negative_region_dve :
  exists ds a' value,
    decoded_dve url_dve_day = Ok ds
    /\ (apply decoded_dve target_wind
          (url_dve_day, mk_slice (-3) (-1), ["d"; "vo"]) store_dve).1 !! "d"
       = Some a'
    /\ ds !! "d" = Some value
    /\ (- start (mk_slice (-3) (-1)) <= Z.of_nat (length a') ->
        take (Z.to_nat (stop (mk_slice (-3) (-1)) - start (mk_slice (-3) (-1))))
          (drop (Z.to_nat (Z.of_nat (length a') + start (mk_slice (-3) (-1))))
             a')
        = value).
Proof.
  apply (apply_negative_region decoded_dve target_wind url_dve_day
           (mk_slice (-3) (-1)) ["d"; "vo"] store_dve).
  - simpl. lia.
  - simpl. lia.
  - vm_compute. reflexivity.
  - apply list_elem_of_here.
Defined.

(** Two days of a store that starts on the first of them, with two samples
    a day: the second day is written, the first is as it was. *)
Example apply_dve_next_day :
  GenerateOffset.apply daily_2_sep url_dve_day
  = Ok (url_dve_day, mk_slice 0 2, ["d"; "vo"])
  /\ GenerateOffset.apply daily_2_sep url_dve_next_day
     = Ok (url_dve_next_day, mk_slice 2 4, ["d"; "vo"])
  /\ apply decoded_dve target_wind
       (url_dve_next_day, mk_slice 2 4, ["d"; "vo"]) store_dve
     = (dict_of [("d", [0; 0; 5; 6]); ("vo", [1; 1; 7; 8])], Ok tt).
Proof. repeat split; vm_compute; reflexivity. Qed.

Lemma ingest_keeps_other_shards_two_days :
  exists a',
    (apply decoded_dve target_wind
       (url_dve_next_day, mk_slice 2 4, ["d"; "vo"]) store_dve).1
      !! "d" = Some a'
    /\ length a' = length [0; 0; 0; 0]
    /\ getslice a' (mk_slice 0 2) = getslice [0; 0; 0; 0] (mk_slice 0 2).
Proof.
  apply (ingest_keeps_other_shards decoded_dve daily_2_sep target_wind
           url_dve_day url_dve_next_day
           url_dve_day (mk_slice 0 2) ["d"; "vo"]
           url_dve_next_day (mk_slice 2 4) ["d"; "vo"]
           (mk_datetime 2023 9 1) (mk_datetime 2023 9 2)
           (mk_datetime 2023 9 1) store_dve).
  - simpl. lia.
  - vm_compute. reflexivity.
  - vm_compute. reflexivity.
  - vm_compute. reflexivity.
  - vm_compute. reflexivity.
  - vm_compute. reflexivity.
  - discriminate.
  - unfold date_lt. simpl. lia.
  - unfold date_lt. simpl. lia.
  - vm_compute. reflexivity.
Defined.

Lemma descriptor_exceptions_sfc :
  decoded_dve url_sfc_2023_09 = Raise (KeyError "z")
  \/ (exists vname, KeyError "z" = KeyError vname /\ vname ∈ vars_sfc)
  \/ (exists msg, KeyError "z" = ValueError msg).
Proof.
  apply (descriptor_exceptions decoded_dve monthly_24 target_wind
           url_sfc_2023_09 url_sfc_2023_09 (mk_slice 1084032 1084752)
           vars_sfc (KeyError "z") store_dve).
  - vm_compute. reflexivity.
  - vm_compute. reflexivity.
Defined.
End StoreScenarios.

(** ** The catalog and the mapping *)

Section CatalogCoverage.
Import IngestDataInZarr Check2.

Lemma listing_spec (m : gmap string (list string)) chunk group :
  group ∈ listing m chunk
  <-> exists chunks, m !! group = Some chunks /\ chunk ∈ chunks.
Proof.
  unfold listing. rewrite list_elem_of_fmap. split.
  - intros ([g chunks] & -> & Hin). cbn [fst].
    apply list_elem_of_In, filter_In in Hin as [Hin Hchunk].
    apply list_elem_of_In, elem_of_map_to_list in Hin.
    apply bool_decide_eq_true in Hchunk. eauto.
  - intros (chunks & Hgroup & Hchunk). exists (group, chunks).
    split; [reflexivity | ].
    apply list_elem_of_In, filter_In. split.
    + apply list_elem_of_In, elem_of_map_to_list. assumption.
    + apply bool_decide_eq_true. assumption.
Qed.

Lemma groups_of_spec chunk group :
  group ∈ groups_of chunk
  <-> exists chunks, CO_FILES_MAPPING !! group = Some chunks /\ chunk ∈ chunks.
Proof. apply listing_spec. Qed.

(** X14. Every chunk of [variable_dict] is listed by one group of
    [CO_FILES_MAPPING], and by no other: the datasets of the driver share
    the catalog out among them. *)
Theorem catalog_chunk_in_one_group chunk vars :
  variable_dict !! chunk = Some vars ->
  exists group chunks,
    CO_FILES_MAPPING !! group = Some chunks /\ chunk ∈ chunks
    /\ forall group' chunks',
         CO_FILES_MAPPING !! group' = Some chunks' -> chunk ∈ chunks' ->
         group' = group.
Proof.
  intros Hvars.
  assert (Hone : in_one_group chunk = true).
  { revert Hvars. apply (forallb_keys in_one_group). vm_compute. reflexivity. }
  unfold in_one_group in Hone. apply bool_decide_eq_true in Hone.
  clear Hvars.
  destruct (groups_of chunk) as [|group [|? ?]] eqn:Hgroups;
    [discriminate Hone | | discriminate Hone].
  assert (Hin : group ∈ groups_of chunk) by (rewrite Hgroups; left).
  apply groups_of_spec in Hin as (chunks & Hgroup & Hchunk).
  exists group, chunks. split; [assumption | ]. split; [assumption | ].
  intros group' chunks' Hgroup' Hchunk'.
  assert (Hin' : group' ∈ groups_of chunk)
    by (apply groups_of_spec; eauto).
  rewrite Hgroups in Hin'. apply list_elem_of_singleton in Hin'. assumption.
Qed.
End CatalogCoverage.

Section CatalogCoverageScenarios.
Import IngestDataInZarr Scenario.

Lemma catalog_chunk_in_one_group_sfc :
  exists group chunks,
    CO_FILES_MAPPING !! group = Some chunks /\ "sfc" ∈ chunks
    /\ forall group' chunks',
         CO_FILES_MAPPING !! group' = Some chunks' -> "sfc" ∈ chunks' ->
         group' = group.
Proof.
  apply (catalog_chunk_in_one_group "sfc" vars_sfc).
  vm_compute. reflexivity.
Defined.
End CatalogCoverageScenarios.

(** ** More on [copy] and [opener] *)

Section OpenerFacts.
Variable subprocess_run : world -> list string -> result unit.

(** X15. [opener] logs that it copies, hands one command to
    [subprocess.run], and yields the temporary file whether the transfer
    worked or exited with an error, with an error record in the log in the
    second case; of any other exception of [subprocess.run] it yields
    nothing and raises that exception. *)
Theorem opener_outcomes tmp_name fname w :
  let w0 :=
    mk_world (commands w) (logged w ++ [info_copying fname tmp_name]) in
  let after := opener subprocess_run tmp_name fname w in
  commands after.1 = commands w ++ [copy_argv fname tmp_name]
  /\ match subprocess_run w0 (copy_argv fname tmp_name) with
     | Ok _ =>
         after.2 = Ok tmp_name
         /\ logged after.1 = logged w ++ [info_copying fname tmp_name]
     | Raise (CalledProcessError rc) =>
         after.2 = Ok tmp_name
         /\ logged after.1
            = logged w
              ++ [info_copying fname tmp_name;
                  error_failed_to_copy fname tmp_name (CalledProcessError rc)]
     | Raise exc =>
         after.2 = Raise exc
         /\ logged after.1 = logged w ++ [info_copying fname tmp_name]
     end.
Proof.
  intros w0 after. subst after. unfold opener, copy. fold w0.
  rewrite copy_argv_eq.
  destruct (subprocess_run w0 (copy_argv fname tmp_name)) as [u|exc];
    [ | destruct exc]; cbn [fst snd commands logged];
    repeat split.
  subst w0. cbn [logged]. rewrite <- app_assoc. reflexivity.
Qed.
End OpenerFacts.


(** ** Words and command lines *)

Section WordFacts.

Lemma has_space_app (a b : string) :
  has_space (a +:+ b) = has_space a || has_space b.
Proof.
  induction a as [|c a IH]; [reflexivity | ].
  rewrite str_app_cons. cbn [has_space]. rewrite IH, orb_assoc. reflexivity.
Qed.

Lemma split_ws_go_true_nonempty s : split_ws_go true s <> [].
Proof.
  destruct s as [|c s]; [discriminate | ]. cbn [split_ws_go].
  destruct (is_space c); [discriminate | ].
  destruct (split_ws_go true s); discriminate.
Qed.

(** Characters that are not whitespace go on with the word being read. *)
Lemma split_ws_go_true_word (w s : string) :
  has_space w = false ->
  split_ws_go true (w +:+ s)
  = match split_ws_go true s with
    | p :: ps => (w +:+ p) :: ps
    | [] => [w]
    end.
Proof.
  induction w as [|c w IH]; intros Hw.
  - change (EmptyString +:+ s) with s.
    destruct (split_ws_go true s) as [|p ps] eqn:Hs; [ | reflexivity].
    exfalso. eapply split_ws_go_true_nonempty, Hs.
  - cbn [has_space] in Hw. apply orb_false_iff in Hw as [Hc Hw].
    rewrite str_app_cons. cbn [split_ws_go]. rewrite Hc, IH by assumption.
    destruct (split_ws_go true s); reflexivity.
Qed.

Lemma split_ws_word_space (w s : string) :
  is_word w = true ->
  split_ws (w +:+ String " " s) = w :: split_ws s.
Proof.
  destruct w as [|c w]; [discriminate | ]. cbn [is_word has_space].
  rewrite negb_true_iff, orb_false_iff. intros [Hc Hw].
  unfold split_ws. rewrite str_app_cons. cbn [split_ws_go]. rewrite Hc.
  rewrite split_ws_go_true_word by assumption.
  cbn [split_ws_go]. change (is_space " ") with true. cbv iota.
  rewrite str_app_nil_r. reflexivity.
Qed.

Lemma split_ws_word (w : string) : is_word w = true -> split_ws w = [w].
Proof.
  destruct w as [|c w]; [discriminate | ]. cbn [is_word has_space].
  rewrite negb_true_iff, orb_false_iff. intros [Hc Hw].
  unfold split_ws. cbn [split_ws_go]. rewrite Hc.
  rewrite <- (str_app_nil_r w) at 1.
  rewrite split_ws_go_true_word by assumption. cbn [split_ws_go].
  rewrite str_app_nil_r. reflexivity.
Qed.

(** Words joined by single spaces are the words of the line. *)
Lemma split_ws_join (ws : list string) :
  Forall (fun w => is_word w = true) ws -> split_ws (join " " ws) = ws.
Proof.
  unfold join. induction ws as [|w [|w' ws] IH]; intros Hws.
  - reflexivity.
  - apply Forall_cons in Hws as [Hw _]. apply split_ws_word. assumption.
  - apply Forall_cons in Hws as [Hw Hws].
    change (String.concat " " (w :: w' :: ws))
      with (w +:+ String " " (String.concat " " (w' :: ws))).
    rewrite split_ws_word_space by assumption.
    f_equal. apply IH. assumption.
Qed.

Lemma join_app sep (l1 l2 : list string) :
  l1 <> [] -> l2 <> [] ->
  join sep (l1 ++ l2) = join sep l1 +:+ sep +:+ join sep l2.
Proof.
  unfold join. intros H1 H2. induction l1 as [|x [|y l1] IH]; [contradiction | | ].
  - destruct l2 as [|z l2]; [contradiction | reflexivity].
  - change (String.concat sep ((x :: y :: l1) ++ l2))
      with (x +:+ sep +:+ String.concat sep ((y :: l1) ++ l2)).
    rewrite IH by discriminate.
    change (String.concat sep (x :: y :: l1))
      with (x +:+ sep +:+ String.concat sep (y :: l1)).
    rewrite <- !str_app_assoc. reflexivity.
Qed.
End WordFacts.


(** ** The ingestion job of [ingest_data_in_zarr.py] *)

Section IngestJobFacts.
Import IngestDataInZarr IngestJob.
Variable replace_non_alphanumeric_with_hyphen : string -> string.
Variable subprocess_run : string -> result unit.

Lemma split_go_nonempty sep k s : split_go sep k s <> [].
Proof.
  revert k. induction s as [|c s IH]; intros k; [discriminate | ].
  cbn [split_go]. destruct k as [|k]; [ | apply IH].
  destruct (String.prefix sep (String c s)); [discriminate | ].
  destruct (split_go sep 0 s); discriminate.
Qed.

Lemma getitem_last_split sep s :
  exists x, getitem_last (split_go sep 0 s) = Ok x.
Proof.
  unfold getitem_last.
  destruct (last (split_go sep 0 s)) as [x|] eqn:Hlast; [eauto | ].
  apply last_None in Hlast. exfalso. eapply split_go_nonempty, Hlast.
Qed.

Lemma getitem_0_split sep s :
  exists x, getitem (split_go sep 0 s) 0 = Ok x.
Proof.
  unfold getitem.
  destruct (split_go sep 0 s) as [|x l] eqn:Hs; [ | cbn; eauto].
  exfalso. eapply split_go_nonempty, Hs.
Qed.

(** Lines 65-69 raise nothing. *)
Lemma job_name_of_Ok target_path start_date end_date :
  exists name,
    job_name_of replace_non_alphanumeric_with_hyphen target_path
      start_date end_date
    = Ok ("zarr-data-ingestion-"
          +:+ replace_non_alphanumeric_with_hyphen name
          +:+ "-" +:+ start_date +:+ "-to-" +:+ end_date).
Proof.
  unfold job_name_of, split. run_bind.
  destruct (getitem_last_split "/" target_path) as [x ->]. run_bind.
  eauto.
Qed.

(** Line 82 returns the chunks of a group of the mapping or raises the
    [KeyError] of a name that is no group. *)
Lemma dataset_chunks_cases target_path :
  (exists key chunks,
     dataset_chunks target_path = Ok chunks
     /\ CO_FILES_MAPPING !! key = Some chunks)
  \/ (exists key,
        dataset_chunks target_path = Raise (KeyError key)
        /\ CO_FILES_MAPPING !! key = None).
Proof.
  unfold dataset_chunks, split. run_bind.
  destruct (getitem_last_split "/" target_path) as [name ->]. run_bind.
  destruct (getitem_0_split "." name) as [key ->]. run_bind.
  unfold dict_getitem.
  destruct (CO_FILES_MAPPING !! key) as [chunks|] eqn:Hkey; eauto.
Qed.

(** X16. The job runs one command line, and returns or raises as
    [subprocess_run] does, when the store is under ["/ar/"] or its name is
    a group of [CO_FILES_MAPPING]; for any other store it raises the
    [KeyError] of that name and runs nothing. *)
Theorem ingest_job_outcomes
    target_path region start_date end_date init_date project bucket
    sdk_container_image python_path :
  match (if str_in "/ar/" target_path then Ok []
         else dataset_chunks target_path) with
  | Raise exc =>
      (exists key, exc = KeyError key /\ CO_FILES_MAPPING !! key = None)
      /\ ingest_data_in_zarr_dataflow_job
           replace_non_alphanumeric_with_hyphen subprocess_run
           target_path region start_date end_date init_date project bucket
           sdk_container_image python_path
         = ([], Raise exc)
  | Ok _ =>
      exists cmd,
        command replace_non_alphanumeric_with_hyphen
          target_path region start_date end_date init_date project bucket
          sdk_container_image python_path = Ok cmd
        /\ ingest_data_in_zarr_dataflow_job
             replace_non_alphanumeric_with_hyphen subprocess_run
             target_path region start_date end_date init_date project bucket
             sdk_container_image python_path
           = ([cmd], subprocess_run cmd)
  end.
Proof.
  unfold ingest_data_in_zarr_dataflow_job, command.
  destruct (job_name_of_Ok target_path start_date end_date) as [name ->].
  run_bind.
  destruct (str_in "/ar/" target_path); [eauto | ].
  destruct (dataset_chunks_cases target_path)
    as [(key & chunks & -> & Hkey) | (key & -> & Hkey)]; run_bind; eauto.
Qed.
End IngestJobFacts.


Section CommandWords.
Import IngestDataInZarr IngestJob.
Variable replace_non_alphanumeric_with_hyphen : string -> string.

Lemma is_word_has_space w : is_word w = true -> has_space w = false.
Proof.
  destruct w as [|c w]; [discriminate | ]. unfold is_word.
  apply negb_true_iff.
Qed.

Lemma is_word_app (a b : string) :
  is_word a = true -> has_space b = false -> is_word (a +:+ b) = true.
Proof.
  intros Ha Hb. pose proof (is_word_has_space a Ha) as Hsa.
  destruct a as [|c a]; [discriminate | ].
  rewrite str_app_cons. unfold is_word. rewrite <- str_app_cons.
  rewrite has_space_app, Hsa, Hb. reflexivity.
Qed.

(** The chunk lists of the mapping are lists of words, none empty. *)
Lemma mapping_chunks_words key chunks :
  CO_FILES_MAPPING !! key = Some chunks ->
  chunks <> [] /\ Forall (fun w => is_word w = true) chunks.
Proof.
  intros Hkey.
  assert (Hcheck : match chunks with [] => false | _ :: _ => true end
                   && forallb is_word chunks = true).
  { revert Hkey.
    apply (forallb_items
             (fun _ cs => match cs with [] => false | _ :: _ => true end
                          && forallb is_word cs)).
    vm_compute. reflexivity. }
  clear Hkey. apply andb_true_iff in Hcheck as [Hne Hall]. split.
  - destruct chunks; [discriminate Hne | discriminate].
  - apply Forall_forall. intros w Hw. rewrite forallb_forall in Hall.
    apply Hall, list_elem_of_In. assumption.
Qed.

(** X17. When the values it is given and the job name are words, the
    command line of the job is made of exactly the expected words, one
    space apart: for a store outside ["/ar/"] the option [-c] is followed
    by the chunks of the group of the store, one word each, and
    [--time_per_day] by 2 for the forecast store and by 24 for the
    others. *)
Theorem command_words
    target_path region start_date end_date init_date project bucket
    sdk_container_image python_path job_name chunks :
  is_word python_path = true -> is_word target_path = true ->
  is_word start_date = true -> is_word end_date = true ->
  is_word init_date = true -> is_word project = true ->
  is_word region = true -> is_word sdk_container_image = true ->
  has_space bucket = false ->
  job_name_of replace_non_alphanumeric_with_hyphen target_path
    start_date end_date = Ok job_name ->
  is_word job_name = true ->
  (if str_in "/ar/" target_path then Ok []
   else dataset_chunks target_path) = Ok chunks ->
  exists cmd,
    command replace_non_alphanumeric_with_hyphen
      target_path region start_date end_date init_date project bucket
      sdk_container_image python_path = Ok cmd
    /\ split_ws cmd
       = argv target_path region start_date end_date init_date project bucket
           sdk_container_image python_path job_name chunks.
Proof.
  intros Hpython Htarget Hstart Hend Hinit Hproject Hregion Himage Hbucket
    Hname Hjob Hchunks.
  assert (Htemp : is_word ("gs://" +:+ bucket +:+ "/temp") = true).
  { apply (is_word_app "gs://"); [reflexivity | ].
    rewrite has_space_app, Hbucket. reflexivity. }
  unfold command. rewrite Hname. run_bind. unfold argv.
  destruct (str_in "/ar/" target_path).
  - eexists. split; [reflexivity | ].
    rewrite <- split_ws_join.
    + f_equal. unfold join. cbn [String.concat].
      rewrite <- !str_app_assoc. reflexivity.
    + repeat (apply Forall_cons; split; [first [assumption | reflexivity] | ]).
      apply Forall_nil_2.
  - rewrite Hchunks. run_bind.
    assert (Hwords : chunks <> []
                     /\ Forall (fun w => is_word w = true) chunks).
    { destruct (dataset_chunks_cases target_path)
        as [(key & chunks' & Hc & Hkey) | (key & Hc & _)];
        [ | congruence].
      assert (chunks' = chunks) as -> by congruence.
      eapply mapping_chunks_words, Hkey. }
    destruct Hwords as [Hne Hwords].
    eexists. split; [reflexivity | ].
    rewrite <- split_ws_join.
    + f_equal.
      rewrite !join_app
        by first [ assumption | discriminate
                 | intros Happ; apply app_eq_nil in Happ as [Hc _];
                   contradiction ].
      unfold join. cbn [String.concat].
      destruct (str_in "single-level-forecast" target_path);
        [change (decimal 2) with "2" | change (decimal 24) with "24"];
        rewrite <- !str_app_assoc; reflexivity.
    + apply Forall_app. split; [ | apply Forall_app; split; [assumption | ]].
      * repeat (apply Forall_cons; split;
                [first [assumption | reflexivity] | ]).
        apply Forall_nil_2.
      * destruct (str_in "single-level-forecast" target_path);
          repeat (apply Forall_cons; split;
                  [first [assumption | reflexivity] | ]);
          apply Forall_nil_2.
Qed.
End CommandWords.


Section StoresAndSplitting.
Import IngestDataInZarr IngestJob RawToZarrToBq2 SingleLevelsToZarr Check3.

(** X18. Every store of [ZARR_FILES_LIST] has its job: the store under
    ["/ar/"] by that, and each of the others because its file name, up to
    the first dot, is a group of [CO_FILES_MAPPING]. The command line is
    built for each of them, whatever the other values. *)
Theorem zarr_files_have_commands
    (replace_non_alphanumeric_with_hyphen : string -> string)
    target_path region start_date end_date init_date project bucket
    sdk_container_image python_path :
  target_path ∈ ZARR_FILES_LIST ->
  exists cmd chunks,
    (if str_in "/ar/" target_path then Ok []
     else dataset_chunks target_path) = Ok chunks
    /\ command replace_non_alphanumeric_with_hyphen
         target_path region start_date end_date init_date project bucket
         sdk_container_image python_path = Ok cmd.
Proof.
  intros Hin.
  assert (Hok : store_ok target_path = true).
  { assert (Hall : forallb store_ok ZARR_FILES_LIST = true)
      by (vm_compute; reflexivity).
    rewrite forallb_forall in Hall. apply Hall, list_elem_of_In, Hin. }
  clear Hin. unfold store_ok in Hok. unfold command.
  destruct (job_name_of_Ok replace_non_alphanumeric_with_hyphen
              target_path start_date end_date) as [name ->].
  run_bind.
  destruct (str_in "/ar/" target_path); [eauto | ].
  destruct (dataset_chunks target_path) as [chunks|exc];
    [ | discriminate Hok].
  run_bind. eauto.
Qed.

Lemma year_text y : 1000 <= y <= 9999 -> decimal y = format_0d 4 y.
Proof.
  intros Hy. apply String.eqb_eq.
  apply (forallb_seqZ year_text_ok 1000 9000); [ | lia].
  vm_compute. reflexivity.
Qed.

Lemma year_four_chars y :
  1 <= y <= 9999 ->
  exists a b c d,
    format_0d 4 y = String a (String b (String c (String d EmptyString))).
Proof.
  intros Hy. pose proof (year_ok_all y Hy) as Hok.
  unfold Check.year_ok in Hok. apply andb_true_iff in Hok as [_ Hdigits].
  apply bool_decide_eq_true in Hdigits.
  assert (Hin : (y, EmptyString) ∈ alts_Y (format_0d 4 y))
    by (rewrite Hdigits; left).
  apply alts_Y_rest in Hin. exact Hin.
Qed.

Lemma month_two_chars m :
  1 <= m <= 12 ->
  exists a b, format_0d 2 m = String a (String b EmptyString).
Proof. intros Hm. month_cases m; eauto. Qed.

(** X19. For each dataset that is split, the splitting job reads, between
    double quotes after [--input-pattern], the path that [make_path] gives
    that dataset as a chunk in the month of the date, when the date text is
    that of [strftime("%Y/%m")] for a year of four digits. *)
Theorem data_splitting_reads_make_path
    PYTHON_PATH PROJECT REGION BUCKET WEATHER_TOOLS_SDK_CONTAINER_IMAGE
    (d : datetime) DATASET :
  valid_date d -> 1000 <= year d ->
  DATASET ∈ SPLITTING_DATASETS ->
  exists url rest,
    make_path d DATASET = Ok url
    /\ (PYTHON_PATH +:+ " /weather/weather_sp/weather-sp --input-pattern  "
        +:+ dquote +:+ url +:+ dquote +:+ rest)
       ∈ data_splitting_commands PYTHON_PATH PROJECT REGION BUCKET
           WEATHER_TOOLS_SDK_CONTAINER_IMAGE (strftime_Y_m d).
Proof.
  intros (Hy & Hm & _) Hy1000 Hin.
  unfold data_splitting_commands, strftime_Y_m.
  rewrite (year_text (year d)) by lia.
  destruct (year_four_chars (year d) Hy) as (a & b & c & e & HY).
  destruct (month_two_chars (month d) Hm) as (f & g & HM).
  assert (Hyear : str_slice 0 4
                    (format_0d 4 (year d) +:+ "/" +:+ format_0d 2 (month d))
                  = format_0d 4 (year d))
    by (rewrite HY, HM; reflexivity).
  assert (Hmonth : str_slice 5 7
                     (format_0d 4 (year d) +:+ "/" +:+ format_0d 2 (month d))
                   = format_0d 2 (month d))
    by (rewrite HY, HM; reflexivity).
  cbv zeta. rewrite Hyear, Hmonth.
  set (Y := format_0d 4 (year d)). set (M := format_0d 2 (month d)).
  unfold SPLITTING_DATASETS in *.
  apply elem_of_cons in Hin as [-> | Hin];
    [ | apply list_elem_of_singleton in Hin as ->].
  - eexists _, _. split; [reflexivity | ].
    cbn [map]. apply elem_of_cons. left.
    rewrite <- !str_app_assoc. reflexivity.
  - eexists _, _. split; [reflexivity | ].
    cbn [map]. apply elem_of_cons. right. apply elem_of_cons. left.
    rewrite <- !str_app_assoc. reflexivity.
Qed.
End StoresAndSplitting.


Section JobScenarios.
Import IngestDataInZarr IngestJob RawToZarrToBq2 SingleLevelsToZarr Scenario3.

Example command_surface :
  command keep_name surface_store "us-central1" "2023-09-01" "2023-09-30"
    "1900-01-01" "project" "bucket" "image" "python"
  = Ok ("python /arco-era5/src/update-co-data.py --output_path gs://gcp-public-data-arco-era5/co/single-level-surface.zarr-v2 -s 2023-09-01 -e 2023-09-30 -c lnsp zs --time_per_day 24 --temp_location gs://bucket/temp --runner DataflowRunner --project project --region us-central1 --experiments use_runner_v2 --worker_machine_type n2-highmem-8 --disk_size_gb 250 --setup_file /arco-era5/setup.py --job_name zarr-data-ingestion-single-level-surface-2023-09-01-to-2023-09-30 --number_of_worker_harness_threads 1 --sdk_container_image image --init_date 1900-01-01").
Proof. vm_compute. reflexivity. Qed.

(** A store that is no group: nothing is run. *)
Example ingest_job_unknown_store :
  ingest_data_in_zarr_dataflow_job keep_name job_fails unknown_store
    "us-central1" "2023-09-01" "2023-09-30" "1900-01-01" "project" "bucket"
    "image" "python"
  = ([], Raise (KeyError "unknown")).
Proof. vm_compute. reflexivity. Qed.

Lemma command_words_surface :
  exists cmd,
    command keep_name surface_store "us-central1" "2023-09-01"
      "2023-09-30" "1900-01-01" "project" "bucket" "image" "python"
    = Ok cmd
    /\ split_ws cmd
       = argv surface_store "us-central1" "2023-09-01" "2023-09-30"
           "1900-01-01" "project" "bucket" "image" "python"
           "zarr-data-ingestion-single-level-surface-2023-09-01-to-2023-09-30"
           ["lnsp"; "zs"].
Proof.
  apply (command_words keep_name surface_store "us-central1" "2023-09-01"
           "2023-09-30" "1900-01-01" "project" "bucket" "image" "python"
           "zarr-data-ingestion-single-level-surface-2023-09-01-to-2023-09-30"
           ["lnsp"; "zs"]); vm_compute; reflexivity.
Defined.

Lemma zarr_files_have_commands_surface :
  exists cmd chunks,
    (if str_in "/ar/" surface_store then Ok []
     else dataset_chunks surface_store) = Ok chunks
    /\ command keep_name surface_store "us-central1" "2023-09-01"
         "2023-09-30" "1900-01-01" "project" "bucket" "image" "python"
       = Ok cmd.
Proof.
  apply (zarr_files_have_commands keep_name surface_store "us-central1"
           "2023-09-01" "2023-09-30" "1900-01-01" "project" "bucket" "image"
           "python").
  unfold ZARR_FILES_LIST, surface_store.
  do 5 apply list_elem_of_further. apply list_elem_of_here.
Defined.

Lemma data_splitting_reads_make_path_soil :
  exists url rest,
    make_path (mk_datetime 2023 9 15) "soil" = Ok url
    /\ ("python" +:+ " /weather/weather_sp/weather-sp --input-pattern  "
        +:+ dquote +:+ url +:+ dquote +:+ rest)
       ∈ data_splitting_commands "python" "project" "us-central1" "bucket"
           "image" (strftime_Y_m (mk_datetime 2023 9 15)).
Proof.
  apply (data_splitting_reads_make_path "python" "project" "us-central1"
           "bucket" "image" (mk_datetime 2023 9 15) "soil").
  - unfold valid_date. vm_compute. repeat split; discriminate.
  - simpl. lia.
  - apply list_elem_of_here.
Defined.
End JobScenarios.


(** ** Writes of two shards, in either order *)

Section WritesCommute.
Import UpdateSlice RegionNotion.
Context {V : Type}.
Variable open_shard : string -> result (gmap string (list V)).
Implicit Types (arr value : list V) (zf ds : gmap string (list V)).

(** Whether a write is accepted depends on the array by its length only. *)
Lemma setitem_Ok_length arr1 arr2 region value arr1' :
  length arr2 = length arr1 ->
  setitem arr1 region value = Ok arr1' ->
  exists arr2', setitem arr2 region value = Ok arr2'.
Proof.
  intros Hlen H. apply setitem_Ok_inv in H as (lo & n & Hsel & Hv & _).
  rewrite <- Hlen in Hsel. eexists.
  apply (setitem_Ok_intro _ _ _ lo n Hsel Hv).
Qed.

(** Two writes of one array on regions apart, in the two orders. *)
Lemma setitem_commute arr r1 r2 v1 v2 a1 a12 a2 a21 :
  nonneg r1 -> nonneg r2 -> apart r1 r2 ->
  setitem arr r1 v1 = Ok a1 -> setitem a1 r2 v2 = Ok a12 ->
  setitem arr r2 v2 = Ok a2 -> setitem a2 r1 v1 = Ok a21 ->
  a21 = a12.
Proof.
  intros Hn1 Hn2 Hapart H1 H12 H2 H21.
  pose proof (setitem_length _ _ _ _ H1) as Hlen1.
  pose proof (setitem_length _ _ _ _ H2) as Hlen2.
  destruct (selection r1 (length arr)) as [lo1 n1] eqn:Hsel1.
  destruct (selection r2 (length arr)) as [lo2 n2] eqn:Hsel2.
  apply list_eq. intros i.
  rewrite (setitem_lookup _ _ _ _ lo1 n1 i H21) by congruence.
  rewrite (setitem_lookup _ _ _ _ lo2 n2 i H12) by congruence.
  rewrite (setitem_lookup _ _ _ _ lo2 n2 i H2) by assumption.
  rewrite (setitem_lookup _ _ _ _ lo1 n1 i H1) by assumption.
  destruct (decide (lo1 <= i < lo1 + n1)%nat) as [Hi1 | Hi1];
    destruct (decide (lo2 <= i < lo2 + n2)%nat) as [Hi2 | Hi2];
    try reflexivity.
  exfalso.
  exact (selection_apart r1 r2 (length arr) lo1 n1 lo2 n2 i
           Hn1 Hn2 Hapart Hsel1 Hsel2 Hi1 Hi2).
Qed.

(** A variable that the loop does not name is left as it was. *)
Lemma for_vars_outside ds region vars zf zf' res x :
  for_vars ds region vars zf = (zf', res) -> x ∉ vars ->
  zf' !! x = zf !! x.
Proof.
  intros Hrun Hout. pose proof (for_vars_frame ds region vars _ _ _ x Hrun) as H.
  destruct (zf !! x) as [a|]; [ | assumption].
  destruct H as (a' & -> & _ & _ & Hsame). rewrite (Hsame Hout). reflexivity.
Qed.

(** The length of an array is kept by the loop, however it ends. *)
Lemma for_vars_keeps_length ds region vars zf zf' res x a :
  for_vars ds region vars zf = (zf', res) -> zf !! x = Some a ->
  exists a', zf' !! x = Some a' /\ length a' = length a.
Proof.
  intros Hrun Hx. pose proof (for_vars_frame ds region vars _ _ _ x Hrun) as H.
  rewrite Hx in H. destruct H as (a' & Ha' & Hlen & _). eauto.
Qed.

Lemma for_vars_keeps_length_back ds region vars zf zf' res x a' :
  for_vars ds region vars zf = (zf', res) -> zf' !! x = Some a' ->
  exists a, zf !! x = Some a /\ length a' = length a.
Proof.
  intros Hrun Hx. pose proof (for_vars_frame ds region vars _ _ _ x Hrun) as H.
  destruct (zf !! x) as [a|]; [ | congruence].
  destruct H as (a'' & Ha'' & Hlen & _). exists a. split; [reflexivity | ].
  congruence.
Qed.

(** A loop that ends normally has made, of every variable that it names,
    the one write of its values on the array that the store had. *)
Lemma for_vars_Ok_lookup ds region vars :
  forall zf zf' u x,
    for_vars ds region vars zf = (zf', Ok u) -> x ∈ vars ->
    exists a value a',
      zf !! x = Some a /\ ds !! x = Some value
      /\ setitem a region value = Ok a' /\ zf' !! x = Some a'.
Proof.
  induction vars as [|v vars IH]; intros zf zf' u x Hrun Hin.
  - apply elem_of_nil in Hin. contradiction.
  - destruct (for_vars_cons_cases ds region v vars zf)
      as [[exc Hfail] | (zv & value & zv' & Hzv & Hvalue & Hset)];
      [rewrite Hfail in Hrun; discriminate Hrun | ].
    rewrite (for_vars_cons_Ok _ _ _ _ _ _ _ _ Hzv Hvalue Hset) in Hrun.
    destruct (decide (x = v)) as [-> | Hne].
    + exists zv, value, zv'. repeat split; try assumption.
      eapply for_vars_settled; [exact Hrun | apply lookup_insert_eq
                               | exact Hvalue | ].
      eapply setitem_idempotent, Hset.
    + apply elem_of_cons in Hin as [Heq | Hin]; [contradiction | ].
      destruct (IH _ _ _ x Hrun Hin) as (a & val & a' & Ha & Hval & Hs & Hz).
      rewrite lookup_insert_ne in Ha by congruence.
      exists a, val, a'. auto.
Qed.

(** The loop ends normally when every variable that it names is in the
    store and in the shard, with values of the shape of the region. *)
Lemma for_vars_Ok_intro ds region vars :
  forall zf,
    (forall x, x ∈ vars ->
       exists a value a',
         zf !! x = Some a /\ ds !! x = Some value
         /\ setitem a region value = Ok a') ->
    exists zf', for_vars ds region vars zf = (zf', Ok tt).
Proof.
  induction vars as [|v vars IH]; intros zf Hall.
  - exists zf. reflexivity.
  - destruct (Hall v) as (zv & value & zv' & Hzv & Hvalue & Hset); [left | ].
    rewrite (for_vars_cons_Ok _ _ _ _ _ _ _ _ Hzv Hvalue Hset).
    apply IH. intros x Hin.
    destruct (decide (x = v)) as [-> | Hne].
    + exists zv', value, zv'. rewrite lookup_insert_eq.
      repeat split; try assumption. eapply setitem_idempotent, Hset.
    + destruct (Hall x) as (a & val & a' & Ha & Hval & Hs); [right; exact Hin | ].
      exists a, val, a'. rewrite lookup_insert_ne by congruence. auto.
Qed.

(** The loops of two shards on regions apart: when one after the other
    they end normally, so they do in the other order, with the same
    store. *)
Lemma for_vars_commute ds1 r1 vars1 ds2 r2 vars2 zf zf1 zf12 :
  nonneg r1 -> nonneg r2 -> apart r1 r2 ->
  for_vars ds1 r1 vars1 zf = (zf1, Ok tt) ->
  for_vars ds2 r2 vars2 zf1 = (zf12, Ok tt) ->
  exists zf2,
    for_vars ds2 r2 vars2 zf = (zf2, Ok tt)
    /\ for_vars ds1 r1 vars1 zf2 = (zf12, Ok tt).
Proof.
  intros Hn1 Hn2 Hapart H1 H12.
  destruct (for_vars_Ok_intro ds2 r2 vars2 zf) as [zf2 H2].
  { intros x Hin.
    destruct (for_vars_Ok_lookup _ _ _ _ _ _ x H12 Hin)
      as (a1 & v2 & a12 & Ha1 & Hv2 & Hset & _).
    destruct (for_vars_keeps_length_back _ _ _ _ _ _ x a1 H1 Ha1)
      as (a & Ha & Hlen).
    destruct (setitem_Ok_length a1 a r2 v2 a12) as [a2 Hset2];
      [congruence | assumption | ].
    exists a, v2, a2. auto. }
  destruct (for_vars_Ok_intro ds1 r1 vars1 zf2) as [zf21 H21].
  { intros x Hin.
    destruct (for_vars_Ok_lookup _ _ _ _ _ _ x H1 Hin)
      as (a & v1 & a1 & Ha & Hv1 & Hset & _).
    destruct (for_vars_keeps_length _ _ _ _ _ _ x a H2 Ha)
      as (a2 & Ha2 & Hlen).
    destruct (setitem_Ok_length a a2 r1 v1 a1) as [a21 Hset21];
      [congruence | assumption | ].
    exists a2, v1, a21. auto. }
  exists zf2. split; [assumption | ]. rewrite H21. f_equal.
  apply map_eq. intros x.
  destruct (decide (x ∈ vars1)) as [Hin1 | Hout1];
    destruct (decide (x ∈ vars2)) as [Hin2 | Hout2].
  - destruct (for_vars_Ok_lookup _ _ _ _ _ _ x H1 Hin1)
      as (a & v1 & a1 & Ha & Hv1 & Hs1 & Hz1).
    destruct (for_vars_Ok_lookup _ _ _ _ _ _ x H12 Hin2)
      as (a1' & v2 & a12 & Ha1' & Hv2 & Hs12 & Hz12).
    destruct (for_vars_Ok_lookup _ _ _ _ _ _ x H2 Hin2)
      as (a' & v2' & a2 & Ha' & Hv2' & Hs2 & Hz2).
    destruct (for_vars_Ok_lookup _ _ _ _ _ _ x H21 Hin1)
      as (a2' & v1' & a21 & Ha2' & Hv1' & Hs21 & Hz21).
    assert (a1' = a1) as -> by congruence.
    assert (a' = a) as -> by congruence.
    assert (a2' = a2) as -> by congruence.
    assert (v1' = v1) as -> by congruence.
    assert (v2' = v2) as -> by congruence.
    rewrite Hz21, Hz12. f_equal.
    exact (setitem_commute a r1 r2 v1 v2 a1 a12 a2 a21
             Hn1 Hn2 Hapart Hs1 Hs12 Hs2 Hs21).
  - destruct (for_vars_Ok_lookup _ _ _ _ _ _ x H1 Hin1)
      as (a & v1 & a1 & Ha & Hv1 & Hs1 & Hz1).
    destruct (for_vars_Ok_lookup _ _ _ _ _ _ x H21 Hin1)
      as (a2' & v1' & a21 & Ha2' & Hv1' & Hs21 & Hz21).
    rewrite (for_vars_outside _ _ _ _ _ _ x H12 Hout2), Hz1, Hz21.
    rewrite (for_vars_outside _ _ _ _ _ _ x H2 Hout2) in Ha2'.
    congruence.
  - destruct (for_vars_Ok_lookup _ _ _ _ _ _ x H12 Hin2)
      as (a1' & v2 & a12 & Ha1' & Hv2 & Hs12 & Hz12).
    destruct (for_vars_Ok_lookup _ _ _ _ _ _ x H2 Hin2)
      as (a' & v2' & a2 & Ha' & Hv2' & Hs2 & Hz2).
    rewrite (for_vars_outside _ _ _ _ _ _ x H21 Hout1), Hz2, Hz12.
    rewrite (for_vars_outside _ _ _ _ _ _ x H1 Hout1) in Ha1'.
    congruence.
  - rewrite (for_vars_outside _ _ _ _ _ _ x H21 Hout1).
    rewrite (for_vars_outside _ _ _ _ _ _ x H2 Hout2).
    rewrite (for_vars_outside _ _ _ _ _ _ x H12 Hout2).
    rewrite (for_vars_outside _ _ _ _ _ _ x H1 Hout1). reflexivity.
Qed.

(** [apply] ends normally when the shard opens, there is a variable, and
    the loop ends normally. *)
Lemma update_Ok_inv self url region vars zf zf' :
  apply open_shard self (url, region, vars) zf = (zf', Ok tt) ->
  exists ds,
    open_shard url = Ok ds /\ vars <> []
    /\ for_vars ds region vars zf = (zf', Ok tt).
Proof.
  unfold apply. intros H.
  destruct (open_shard url) as [ds|exc]; [ | discriminate H].
  exists ds. split; [reflexivity | ].
  destruct (for_vars ds region vars zf) as [zf'' [[]|exc]];
    [ | discriminate H].
  destruct vars as [|v vars]; [discriminate H | ].
  injection H as <-. split; [discriminate | reflexivity].
Qed.

Lemma update_Ok_intro self url region vars zf zf' ds :
  open_shard url = Ok ds -> vars <> [] ->
  for_vars ds region vars zf = (zf', Ok tt) ->
  apply open_shard self (url, region, vars) zf = (zf', Ok tt).
Proof.
  intros Hds Hvars Hrun. unfold apply. rewrite Hds, Hrun.
  destruct vars as [|v vars]; [contradiction | reflexivity].
Qed.

(** X20. Two shards on regions apart, with bounds that are not negative,
    can be written in either order: when [apply] ends normally for the one
    and then for the other, it also does in the other order, and the store
    at the end is the same. *)
Theorem apply_commute self url1 r1 vars1 url2 r2 vars2 zf zf1 zf12 :
  nonneg r1 -> nonneg r2 -> apart r1 r2 ->
  apply open_shard self (url1, r1, vars1) zf = (zf1, Ok tt) ->
  apply open_shard self (url2, r2, vars2) zf1 = (zf12, Ok tt) ->
  exists zf2,
    apply open_shard self (url2, r2, vars2) zf = (zf2, Ok tt)
    /\ apply open_shard self (url1, r1, vars1) zf2 = (zf12, Ok tt).
Proof.
  intros Hn1 Hn2 Hapart H1 H12.
  apply update_Ok_inv in H1 as (ds1 & Hds1 & Hvars1 & H1).
  apply update_Ok_inv in H12 as (ds2 & Hds2 & Hvars2 & H12).
  destruct (for_vars_commute ds1 r1 vars1 ds2 r2 vars2 zf zf1 zf12
              Hn1 Hn2 Hapart H1 H12) as (zf2 & H2 & H21).
  exists zf2. split; eapply update_Ok_intro; eassumption.
Qed.
End WritesCommute.

(** ** Running [UpdateSlice.apply] again *)

Section UpdateSliceClaims.
Import UpdateSlice.
Context {V : Type}.
Variable open_shard : string -> result (gmap string (list V)).

End UpdateSliceClaims.

Section UpdateSliceClaimsScenarios.
Import UpdateSlice Scenario Scenario2.

End UpdateSliceClaimsScenarios.

Section WritesCommuteScenarios.
Import UpdateSlice RegionNotion Scenario Scenario2.

Lemma apply_commute_dve :
  exists zf2,
    apply decoded_dve target_wind (url_dve_day, mk_slice 2 4, ["d"; "vo"])
      store_dve = (zf2, Ok tt)
    /\ apply decoded_dve target_wind (url_dve_day, mk_slice 0 2, ["d"; "vo"])
         zf2
       = (dict_of [("d", [5; 6; 5; 6]); ("vo", [7; 8; 7; 8])], Ok tt).
Proof.
  apply (apply_commute decoded_dve target_wind
           url_dve_day (mk_slice 0 2) ["d"; "vo"]
           url_dve_day (mk_slice 2 4) ["d"; "vo"]
           store_dve
           (dict_of [("d", [5; 6; 0; 0]); ("vo", [7; 8; 1; 1])])).
  - unfold nonneg. simpl. lia.
  - unfold nonneg. simpl. lia.
  - unfold apart. simpl. lia.
  - vm_compute. reflexivity.
  - vm_compute. reflexivity.
Defined.
End WritesCommuteScenarios.


(** ** Variables in two chunks of a store *)

Section SharedVariables.
Import IngestDataInZarr Check4.

(** X21. The chunks of one group of [CO_FILES_MAPPING], which go to one
    store, have no variable in common, with one exception: ["tcwv"] is a
    variable of both ["sfc"] and ["tcol"] in ["single-level-reanalysis"]. *)
Theorem group_chunks_share_tcwv_only group chunks c1 c2 vars1 vars2 v :
  CO_FILES_MAPPING !! group = Some chunks ->
  c1 ∈ chunks -> c2 ∈ chunks -> c1 <> c2 ->
  variable_dict !! c1 = Some vars1 -> variable_dict !! c2 = Some vars2 ->
  v ∈ vars1 -> v ∈ vars2 ->
  group = "single-level-reanalysis" /\ v = "tcwv"
  /\ (c1 = "sfc" /\ c2 = "tcol" \/ c1 = "tcol" /\ c2 = "sfc").
Proof.
  intros Hgroup Hc1 Hc2 Hne Hvars1 Hvars2 Hv1 Hv2.
  assert (Hok : group_ok group chunks = true).
  { revert Hgroup. apply (forallb_items group_ok). vm_compute. reflexivity. }
  clear Hgroup. unfold group_ok in Hok. rewrite forallb_forall in Hok.
  apply list_elem_of_In in Hc1, Hc2.
  specialize (Hok c1 Hc1). rewrite forallb_forall in Hok.
  specialize (Hok c2 Hc2).
  apply String.eqb_neq in Hne. rewrite Hne in Hok. cbn [orb] in Hok.
  unfold shared_vars in Hok. rewrite Hvars1, Hvars2 in Hok.
  clear Hvars1 Hvars2.
  assert (Hin : In v (List.filter (fun v => bool_decide (v ∈ vars2)) vars1)).
  { apply filter_In. split; [apply list_elem_of_In; assumption | ].
    apply bool_decide_eq_true. assumption. }
  destruct (List.filter (fun v => bool_decide (v ∈ vars2)) vars1)
    as [|v' vs]; [destruct Hin | ].
  apply bool_decide_eq_true in Hok as (Hg & Hvs & Hcs).
  injection Hvs as -> ->. destruct Hin as [<- | []]. auto.
Qed.
End SharedVariables.

Section SharedVariablesScenarios.
Import IngestDataInZarr Scenario.

Lemma group_chunks_share_tcwv_only_reanalysis :
  "single-level-reanalysis" = "single-level-reanalysis" /\ "tcwv" = "tcwv"
  /\ ("sfc" = "sfc" /\ "tcol" = "tcol" \/ "sfc" = "tcol" /\ "tcol" = "sfc").
Proof.
  apply (group_chunks_share_tcwv_only "single-level-reanalysis"
           ["cape"; "cisst"; "sfc"; "tcol";
            "soil_depthBelowLandLayer_istl1";
            "soil_depthBelowLandLayer_istl2";
            "soil_depthBelowLandLayer_istl3";
            "soil_depthBelowLandLayer_istl4";
            "soil_depthBelowLandLayer_stl1";
            "soil_depthBelowLandLayer_stl2";
            "soil_depthBelowLandLayer_stl3";
            "soil_depthBelowLandLayer_stl4";
            "soil_depthBelowLandLayer_swvl1";
            "soil_depthBelowLandLayer_swvl2";
            "soil_depthBelowLandLayer_swvl3";
            "soil_depthBelowLandLayer_swvl4";
            "soil_surface_tsn"]
           "sfc" "tcol" vars_sfc
           ["tclw"; "tciw"; "tcw"; "tcwv"; "tcrw"; "tcsw"] "tcwv").
  - vm_compute. reflexivity.
  - do 2 apply list_elem_of_further. apply list_elem_of_here.
  - do 3 apply list_elem_of_further. apply list_elem_of_here.
  - discriminate.
  - vm_compute. reflexivity.
  - vm_compute. reflexivity.
  - do 2 apply list_elem_of_further. apply list_elem_of_here.
  - do 3 apply list_elem_of_further. apply list_elem_of_here.
Defined.
End SharedVariablesScenarios.
